(** * NeuroShell Python interface: a shallow embedding of [neuroshell.py]

    The development models the class [NeuroShell] of [neuroshell.py]:
    the attribute reader [read_attr], the key=value parser
    [parse_key_value], the five category aggregations, the summary
    operation, [get_all_info] and [check_requirements].

    Conventions of the embedding.
    - A Python [str] is a [string]; a character is a code point below 256.
    - A Python [int] is a [Z]; a Python [float] is a binary64 value, given
      as a [spec_float] (precision 53, exponent bound 1024).
    - A [dict] with string keys is a [gmap string _]; the claims studied
      here never depend on the insertion order of a dict.
    - The file system under the sysfs mount is an input of every
      operation: a function from paths to the outcome of
      [Path.read_text].  Every operation reads each attribute at most
      once, so a fixed file system loses no behaviour of a single call.
    - Exceptions and the two output streams are explicit: an operation
      is a function from the streams to an outcome and the new streams.
      The standard output is an input as well: it can refuse a line
      with an exception, as a stream does whose encoding lacks a
      character of the line. *)

From Stdlib Require Import ZArith String Ascii List Bool Lia QArith Qpower.
From Stdlib Require Import Floats.SpecFloat.
From stdpp Require Import base option list gmap strings.

Local Open Scope string_scope.
Local Open Scope list_scope.
Local Open Scope Z_scope.

(** ** Characters and the string builtins used by the source *)

Module Py.

(** Code points (below 256) for which [str.isspace] holds; these are the
    characters removed by [str.strip()] without argument. *)
Definition strip_space_codes : list N :=
  [9; 10; 11; 12; 13; 28; 29; 30; 31; 32; 133; 160]%N.

(** Code points (below 256) that [int()] skips around a literal: the
    ASCII set of the C macro that scans the literal, and the two
    non-ASCII spaces that are first rewritten to a blank. *)
Definition int_space_codes : list N :=
  [9; 10; 11; 12; 13; 32; 133; 160]%N.

Definition code_in (codes : list N) (c : ascii) : bool :=
  existsb (N.eqb (N_of_ascii c)) codes.

Definition is_space (c : ascii) : bool := code_in strip_space_codes c.
Definition is_int_space (c : ascii) : bool := code_in int_space_codes c.

(** [s.lstrip()], [s.rstrip()] and [s.strip()]. *)
Fixpoint lstrip (s : string) : string :=
  match s with
  | EmptyString => EmptyString
  | String c r => if is_space c then lstrip r else s
  end.

Fixpoint rstrip (s : string) : string :=
  match s with
  | EmptyString => EmptyString
  | String c r =>
      match rstrip r with
      | EmptyString => if is_space c then EmptyString else String c EmptyString
      | r' => String c r'
      end
  end.

Definition strip (s : string) : string := rstrip (lstrip s).

(** [s.split(sep)] for a one-character separator: always at least one
    piece, empty pieces kept. *)
Fixpoint split (sep : ascii) (s : string) : list string :=
  match s with
  | EmptyString => [EmptyString]
  | String c r =>
      if Ascii.eqb c sep then EmptyString :: split sep r
      else match split sep r with
           | piece :: pieces => String c piece :: pieces
           | [] => [String c EmptyString]
           end
  end.

(** [sep in s]. *)
Fixpoint contains (sep : ascii) (s : string) : bool :=
  match s with
  | EmptyString => false
  | String c r => Ascii.eqb c sep || contains sep r
  end.

(** [s.split(sep, 1)] when [sep in s]: the text before the first
    separator and the text after it. *)
Fixpoint split_once (sep : ascii) (s : string) : option (string * string) :=
  match s with
  | EmptyString => None
  | String c r =>
      if Ascii.eqb c sep then Some (EmptyString, r)
      else match split_once sep r with
           | Some (before, after) => Some (String c before, after)
           | None => None
           end
  end.

(** Truth value of a [str]: non-empty. *)
Definition truthy (s : string) : bool :=
  match s with EmptyString => false | String _ _ => true end.

(** *** The builtin [int(str)], base 10 *)

Definition digit_value (c : ascii) : option Z :=
  let n := N_of_ascii c in
  if ((48 <=? n) && (n <=? 57))%N then Some (Z.of_N n - 48)%Z else None.

Definition is_digit (c : ascii) : bool :=
  match digit_value c with Some _ => true | None => false end.

Definition is_underscore (c : ascii) : bool := Ascii.eqb c "_"%char.

(** The scanning loop of the literal: digits, with single underscores
    between them.  [prev_us] records that the previous character was an
    underscore; the result is the value read, the number of digits (the
    underscores are not counted) and the unread rest. *)
Fixpoint scan_digits (prev_us : bool) (acc : Z) (count : nat) (s : string)
  : option (Z * nat * string) :=
  match s with
  | EmptyString => if prev_us then None else Some (acc, count, s)
  | String c r =>
      if is_underscore c then
        if prev_us then None else scan_digits true acc count r
      else
        match digit_value c with
        | Some d => scan_digits false (10 * acc + d)%Z (S count) r
        | None => if prev_us then None else Some (acc, count, s)
        end
  end.

Fixpoint all_int_space (s : string) : bool :=
  match s with
  | EmptyString => true
  | String c r => is_int_space c && all_int_space r
  end.

Fixpoint skip_int_space (s : string) : string :=
  match s with
  | EmptyString => EmptyString
  | String c r => if is_int_space c then skip_int_space r else s
  end.

(** The interpreter's limit on the length of a decimal literal: a literal
    of more than 640 digits is refused when the limit [max_str_digits] is
    positive and exceeded.  [max_str_digits = 0] means no limit (and is
    the behaviour of interpreters that predate the limit); the default
    of recent interpreters is 4300. *)
Definition digits_threshold : nat := 640.

Definition exceeds_limit (max_str_digits count : nat) : bool :=
  ((digits_threshold <? count) && (0 <? max_str_digits)
   && (max_str_digits <? count))%nat.

(** The optional sign of the literal. *)
Definition split_sign (s : string) : bool * string :=
  match s with
  | EmptyString => (false, s)
  | String c r =>
      if Ascii.eqb c "-"%char then (true, r)
      else if Ascii.eqb c "+"%char then (false, r)
      else (false, s)
  end.

Definition starts_with_underscore (s : string) : bool :=
  match s with
  | EmptyString => false
  | String c _ => is_underscore c
  end.

(** [int(s)]: [None] stands for [ValueError].  Blanks are skipped, then
    a sign; the digits may not start with an underscore and there must
    be one digit at least; only blanks may follow. *)
Definition int (max_str_digits : nat) (s : string) : option Z :=
  let '(negative, s) := split_sign (skip_int_space s) in
  if starts_with_underscore s then None
  else
    match scan_digits false 0%Z 0 s with
    | None => None
    | Some (n, count, rest) =>
        if (count =? 0)%nat then None
        else if exceeds_limit max_str_digits count then None
        else if all_int_space rest then Some (if negative then (- n)%Z else n)
        else None
    end.

(** *** Exceptions *)

(** The exception classes that the modelled code can meet. *)
Inductive exn : Set :=
  | FileNotFoundError
  | PermissionError
  | IsADirectoryError
  | NotADirectoryError
  | OSError
  | UnicodeDecodeError
  | UnicodeEncodeError
  | ValueError
  | TypeError
  | OverflowError.

Definition exn_eqb (a b : exn) : bool :=
  match a, b with
  | FileNotFoundError, FileNotFoundError
  | PermissionError, PermissionError
  | IsADirectoryError, IsADirectoryError
  | NotADirectoryError, NotADirectoryError
  | OSError, OSError
  | UnicodeDecodeError, UnicodeDecodeError
  | UnicodeEncodeError, UnicodeEncodeError
  | ValueError, ValueError
  | TypeError, TypeError
  | OverflowError, OverflowError => true
  | _, _ => false
  end.

(** [isinstance e cls]: the class of [e] is [cls] or one of its subclasses;
    this is the test an [except cls:] clause makes. *)
Definition isinstance (e cls : exn) : bool :=
  exn_eqb e cls ||
  match cls, e with
  | OSError, (FileNotFoundError | PermissionError
              | IsADirectoryError | NotADirectoryError) => true
  | ValueError, (UnicodeDecodeError | UnicodeEncodeError) => true
  | _, _ => false
  end.

(** *** Numbers *)

(** Binary64 operations of [SpecFloat]. *)
Definition prec : Z := 53.
Definition emax : Z := 1024.

(** The float nearest to [m * 2^e] (ties to even), or [OverflowError]
    when that is beyond the largest float. *)
Definition round_to_float (m e : Z) : exn + spec_float :=
  match binary_normalize prec emax m e false with
  | S754_infinity _ => inl OverflowError
  | f => inr f
  end.

(** [a / 2**k] for ints [a] and [k >= 0]: true division is correctly
    rounded. *)
Definition truediv_pow2 (a k : Z) : exn + spec_float := round_to_float a (- k).

(** [float(n)] for an int. *)
Definition float_of_int (n : Z) : exn + spec_float := round_to_float n 0.

(** A number as an extended dyadic rational, for exact comparison
    ([int] and [float] operands are compared by value, without rounding). *)
Inductive dyadic : Set :=
  | Finite (m e : Z)
  | PosInf
  | NegInf
  | NotANumber.

Definition dyadic_of_int (n : Z) : dyadic := Finite n 0.

Definition dyadic_of_float (f : spec_float) : dyadic :=
  match f with
  | S754_zero _ => Finite 0 0
  | S754_infinity false => PosInf
  | S754_infinity true => NegInf
  | S754_nan => NotANumber
  | S754_finite s m e => Finite (if s then Z.neg m else Z.pos m) e
  end.

(** [x >= y]; with a NaN operand every comparison is false. *)
Definition dyadic_ge (x y : dyadic) : bool :=
  match x, y with
  | NotANumber, _ | _, NotANumber => false
  | PosInf, _ => true
  | _, NegInf => true
  | NegInf, _ => false
  | _, PosInf => false
  | Finite m1 e1, Finite m2 e2 =>
      let e := Z.min e1 e2 in
      (m2 * 2 ^ (e2 - e) <=? m1 * 2 ^ (e1 - e))
  end.

(** Number of decimal digits of an int, as [str] writes it. *)
Definition decimal_digits (n : Z) : nat :=
  Decimal.nb_digits (N.to_uint (Z.abs_N n)).

End Py.

(** ** Data model *)

(** A field of a category record: the loosely typed value of the source. *)
Inductive value : Set :=
  | VInt (n : Z)
  | VFloat (f : spec_float)
  | VStr (s : string).

(** A threshold of the requirement check. *)
Inductive number : Set :=
  | NInt (n : Z)
  | NFloat (f : spec_float).

(** ** Paths and the file system *)

(** An absolute path is the list of its components below the root. *)
Definition path : Set := list string.

Definition NEUROSHELL_PATH : path := ["sys"; "kernel"; "neuroshell"].

(** The components that [pathlib] keeps of a path string: empty
    components and [.] are dropped. *)
Definition path_parts (name : string) : list string :=
  List.filter (fun part => negb (String.eqb part "" || String.eqb part "."))
              (Py.split "/"%char name).

Definition is_absolute (name : string) : bool :=
  match name with String "/" _ => true | _ => false end.

(** [base / name]: an absolute [name] replaces [base]. *)
Definition path_join (base : path) (name : string) : path :=
  if is_absolute name then path_parts name else base ++ path_parts name.

(** The location a path denotes once the system has followed its [..]
    components (no symbolic links; [..] at the root stays there). *)
Definition resolve (p : path) : path :=
  rev (fold_left (fun seen part =>
                    if String.eqb part ".." then tl seen else part :: seen)
                 p []).

Fixpoint is_prefix (p q : path) : bool :=
  match p, q with
  | [], _ => true
  | a :: p', b :: q' => String.eqb a b && is_prefix p' q'
  | _ :: _, [] => false
  end.

(** The location of [p] is the base directory or lies below it. *)
Definition inside_base (p : path) : bool := is_prefix NEUROSHELL_PATH (resolve p).

(** What [Path.read_text] does at a path: the decoded contents, or the
    exception it raises. *)
Definition filesystem : Type := path -> Py.exn + string.

(** ** Effects: exceptions and the two output streams *)

(** A printed line is a list of fragments; numbers are kept symbolic. *)
Inductive fragment : Set :=
  | Text (s : string)
  | Shown (v : value)
  | Fixed1 (f : spec_float)
  | Glyph (passed : bool).

Definition line : Set := list fragment.

Record streams : Set := { stdout : list line; stderr : list line }.

Inductive outcome (A : Type) : Type :=
  | Ok (a : A)
  | Raise (e : Py.exn).
Arguments Ok {A} a.
Arguments Raise {A} e.

Definition M (A : Type) : Type := streams -> outcome A * streams.

Definition ret {A} (a : A) : M A := fun w => (Ok a, w).

Definition raise {A} (e : Py.exn) : M A := fun w => (Raise e, w).

Definition bind {A B} (m : M A) (k : A -> M B) : M B :=
  fun w =>
    match m w with
    | (Ok a, w') => k a w'
    | (Raise e, w') => (Raise e, w')
    end.

Notation "'let*' x ':=' m 'in' k" := (bind m (fun x => k))
  (at level 10, x name, m at level 100, k at level 200).

(** [sys.stdout] as the program meets it: the exception, if any, that
    writing a line raises, given the lines written so far.  A stream
    whose encoding cannot encode the line raises [UnicodeEncodeError]
    (its error handler is [strict]); a closed or broken stream raises
    [ValueError] or [OSError]. *)
Definition console : Type := list line -> line -> option Py.exn.

(** [print(..)]: one line, or the exception of the stream.  The field
    [stdout] holds the lines of the calls that returned. *)
Definition print (out : console) (l : line) : M unit :=
  fun w =>
    match out (stdout w) l with
    | Some e => (Raise e, w)
    | None => (Ok tt, {| stdout := stdout w ++ [l]; stderr := stderr w |})
    end.

(** [print(.., file=sys.stderr)].  The error handler of [sys.stderr] is
    [backslashreplace], which encodes every text; the error stream is
    taken to be open. *)
Definition print_err (l : line) : M unit :=
  fun w => (Ok tt, {| stdout := stdout w; stderr := stderr w ++ [l] |}).

(** [try: body / except cls1: h1 / except cls2: h2 ...]: the first clause
    whose class the exception is an instance of handles it. *)
Definition try_except {A} (body : M A) (handlers : list (Py.exn * M A)) : M A :=
  fun w =>
    match body w with
    | (Ok a, w') => (Ok a, w')
    | (Raise e, w') =>
        match find (fun h => Py.isinstance e (fst h)) handlers with
        | Some (_, handler) => handler w'
        | None => (Raise e, w')
        end
    end.

(** Lift of a computation that either fails with an exception or yields
    a result. *)
Definition lift {A} (r : Py.exn + A) : M A :=
  match r with
  | inl e => raise e
  | inr a => ret a
  end.

(** ** The class [NeuroShell]

    The methods are those of a constructed object: the constructor has
    checked that the base directory exists.  [max_str_digits] is the
    interpreter's limit on decimal literals (0, or at least 640),
    [fs] the file system the call runs against and [out] the standard
    output it writes to. *)

Section NeuroShell.

Variable max_str_digits : nat.
Variable fs : filesystem.
Variable out : console.

(** [int(text)] as a statement: [ValueError] is raised on a bad literal. *)
Definition int_of (text : string) : M Z :=
  match Py.int max_str_digits text with
  | Some n => ret n
  | None => raise Py.ValueError
  end.

(** [attr_path.read_text()]. *)
Definition read_text (p : path) : M string := lift (fs p).

Definition read_attr (attribute : string) : M (option string) :=
  let attr_path := path_join NEUROSHELL_PATH attribute in
  try_except
    (let* text := read_text attr_path in ret (Some (Py.strip text)))
    [ (Py.FileNotFoundError, ret None);
      (Py.PermissionError,
       let* _ := print_err [Text ("Permission denied reading " ++ attribute)] in
       ret None) ].

(** The conversion of one value of a key=value line:
    [try: int(value) / except ValueError: value]. *)
Definition convert (text : string) : value :=
  match Py.int max_str_digits text with
  | Some n => VInt n
  | None => VStr text
  end.

(** The body of the loop of [parse_key_value]. *)
Definition parse_line (result : gmap string value) (line : string)
  : gmap string value :=
  let line := Py.strip line in
  if Py.contains "="%char line then
    match Py.split_once "="%char line with
    | Some (key, value) => <[key := convert value]> result
    | None => result
    end
  else result.

Definition parse_key_value (content : string) : gmap string value :=
  fold_left parse_line (Py.split "010"%char content) ∅.

(** [info.update(other)]: the entries of [other] replace those of [info]. *)
Definition update (info other : gmap string value) : gmap string value :=
  other ∪ info.

(** [if x: ... ] on the result of [read_attr]: [None] and the empty text
    are false. *)
Definition if_text {A} (x : option string) (then_ : string -> M A) (else_ : M A)
  : M A :=
  match x with
  | Some text => if Py.truthy text then then_ text else else_
  | None => else_
  end.

Definition get_cpu_info : M (gmap string value) :=
  let info : gmap string value := ∅ in
  let* cpu_count := read_attr "cpu_count" in
  let* info :=
    if_text cpu_count
      (fun cpu_count =>
         let* n := int_of cpu_count in ret (<["online" := VInt n]> info))
      (ret info) in
  let* cpu_total := read_attr "cpu_total" in
  let* info :=
    if_text cpu_total
      (fun cpu_total =>
         let* n := int_of cpu_total in ret (<["total" := VInt n]> info))
      (ret info) in
  let* cpu_info := read_attr "cpu_info" in
  let* info :=
    if_text cpu_info
      (fun cpu_info => ret (update info (parse_key_value cpu_info)))
      (ret info) in
  let* topology := read_attr "cpu_topology" in
  let* info :=
    if_text topology
      (fun topology => ret (<["topology" := VStr topology]> info))
      (ret info) in
  ret info.

Definition get_memory_info : M (gmap string value) :=
  let info : gmap string value := ∅ in
  let* mem_total := read_attr "mem_total_bytes" in
  let* info :=
    if_text mem_total
      (fun mem_total =>
         let* total_bytes := int_of mem_total in
         let info := <["total_bytes" := VInt total_bytes]> info in
         let info := <["total_mb" := VInt (total_bytes / (1024 * 1024))]> info in
         let* total_gb := lift (Py.truediv_pow2 total_bytes 30) in
         ret (<["total_gb" := VFloat total_gb]> info))
      (ret info) in
  let* mem_info := read_attr "mem_info" in
  let* info :=
    if_text mem_info
      (fun mem_info => ret (update info (parse_key_value mem_info)))
      (ret info) in
  ret info.

Definition get_numa_info : M (gmap string value) :=
  let info : gmap string value := ∅ in
  let* numa_nodes := read_attr "numa_nodes" in
  let* info :=
    if_text numa_nodes
      (fun numa_nodes =>
         let* n := int_of numa_nodes in ret (<["nodes" := VInt n]> info))
      (ret info) in
  let* numa_info := read_attr "numa_info" in
  let* info :=
    if_text numa_info
      (fun numa_info => ret (<["details" := VStr numa_info]> info))
      (ret info) in
  ret info.

Definition get_gpu_info : M (gmap string value) :=
  let info : gmap string value := ∅ in
  let* gpu_info := read_attr "gpu_info" in
  let* info :=
    if_text gpu_info
      (fun gpu_info => ret (update info (parse_key_value gpu_info)))
      (ret info) in
  let* gpu_details := read_attr "gpu_details" in
  let* info :=
    if_text gpu_details
      (fun gpu_details => ret (<["details" := VStr gpu_details]> info))
      (ret info) in
  ret info.

Definition get_accelerator_info : M (gmap string value) :=
  let info : gmap string value := ∅ in
  let* accel_count := read_attr "accelerator_count" in
  let* info :=
    if_text accel_count
      (fun accel_count =>
         let* n := int_of accel_count in ret (<["count" := VInt n]> info))
      (ret info) in
  let* accel_details := read_attr "accelerator_details" in
  let* info :=
    if_text accel_details
      (fun accel_details => ret (<["details" := VStr accel_details]> info))
      (ret info) in
  ret info.

Definition summary_fallback : string := "Summary not available".

(** [read_attr('system_summary') or "Summary not available"]. *)
Definition get_system_summary : M string :=
  let* summary := read_attr "system_summary" in
  if_text summary (fun text => ret text) (ret summary_fallback).

(** The dict display evaluates its five values in order. *)
Definition get_all_info : M (gmap string (gmap string value)) :=
  let* cpu := get_cpu_info in
  let* memory := get_memory_info in
  let* numa := get_numa_info in
  let* gpu := get_gpu_info in
  let* accelerator := get_accelerator_info in
  ret (<["accelerator" := accelerator]>
       (<["gpu" := gpu]>
        (<["numa" := numa]>
         (<["memory" := memory]>
          (<["cpu" := cpu]> ∅))))).

(** [d.get(key, 0)]. *)
Definition get_or_zero (d : gmap string value) (key : string) : value :=
  match d !! key with
  | Some v => v
  | None => VInt 0
  end.

Definition dyadic_of_number (t : number) : Py.dyadic :=
  match t with
  | NInt n => Py.dyadic_of_int n
  | NFloat f => Py.dyadic_of_float f
  end.

(** [v >= t] for a numeric threshold [t]: a [str] on the left is a
    [TypeError]. *)
Definition ge (v : value) (t : number) : M bool :=
  match v with
  | VInt n => ret (Py.dyadic_ge (Py.dyadic_of_int n) (dyadic_of_number t))
  | VFloat f => ret (Py.dyadic_ge (Py.dyadic_of_float f) (dyadic_of_number t))
  | VStr _ => raise Py.TypeError
  end.

(** A replacement field [{v}] of an f-string: an int longer than the
    interpreter's limit cannot be written. *)
Definition format_default (v : value) : M fragment :=
  match v with
  | VInt n =>
      if Py.exceeds_limit max_str_digits (Py.decimal_digits n)
      then raise Py.ValueError else ret (Shown v)
  | _ => ret (Shown v)
  end.

Definition value_of_number (t : number) : value :=
  match t with
  | NInt n => VInt n
  | NFloat f => VFloat f
  end.

(** A replacement field [{v:.1f}]: an int is first converted to float, a
    [str] has no such format. *)
Definition format_fixed1 (v : value) : M fragment :=
  match v with
  | VInt n => let* f := lift (Py.float_of_int n) in ret (Fixed1 f)
  | VFloat f => ret (Fixed1 f)
  | VStr _ => raise Py.ValueError
  end.

(** The three report lines of [check_requirements]. *)
Definition print_report (cpu_info mem_info gpu_info : gmap string value)
    (min_cpus : Z) (min_memory_gb : number) (min_gpus : Z)
    (cpus memory gpus : bool) : M unit :=
  let* _ := print out [Text "Requirement Check:"] in
  let* shown := format_default (get_or_zero cpu_info "online") in
  let* bound := format_default (VInt min_cpus) in
  let* _ := print out [Text "  CPUs: "; shown; Text " >= "; bound; Text " : ";
                   Glyph cpus] in
  let* shown := format_fixed1 (get_or_zero mem_info "total_gb") in
  let* bound := format_default (value_of_number min_memory_gb) in
  let* _ := print out [Text "  Memory: "; shown; Text "GB >= "; bound;
                   Text "GB : "; Glyph memory] in
  let* shown := format_default (get_or_zero gpu_info "total") in
  let* bound := format_default (VInt min_gpus) in
  print out [Text "  GPUs: "; shown; Text " >= "; bound; Text " : "; Glyph gpus].

Definition check_requirements (min_cpus : Z) (min_memory_gb : number)
    (min_gpus : Z) : M bool :=
  let* cpu_info := get_cpu_info in
  let* mem_info := get_memory_info in
  let* gpu_info := get_gpu_info in
  let* cpus := ge (get_or_zero cpu_info "online") (NInt min_cpus) in
  let* memory := ge (get_or_zero mem_info "total_gb") min_memory_gb in
  let* gpus := ge (get_or_zero gpu_info "total") (NInt min_gpus) in
  let* _ := print_report cpu_info mem_info gpu_info
                         min_cpus min_memory_gb min_gpus cpus memory gpus in
  ret (forallb id [cpus; memory; gpus]).

End NeuroShell.

(** ** The attributes and the aggregations, as data *)

Definition attr_path (name : string) : path := path_join NEUROSHELL_PATH name.

(** The attribute names that the class passes to [read_attr]. *)
Definition attributes : list string :=
  [ "cpu_count"; "cpu_total"; "cpu_info"; "cpu_topology";
    "mem_total_bytes"; "mem_info";
    "numa_nodes"; "numa_info";
    "gpu_info"; "gpu_details";
    "accelerator_count"; "accelerator_details";
    "system_summary" ].

Inductive category : Set := CPU | Memory | NUMA | GPU | Accelerator.

Definition aggregate (max_str_digits : nat) (fs : filesystem) (c : category)
  : M (gmap string value) :=
  match c with
  | CPU => get_cpu_info max_str_digits fs
  | Memory => get_memory_info max_str_digits fs
  | NUMA => get_numa_info max_str_digits fs
  | GPU => get_gpu_info max_str_digits fs
  | Accelerator => get_accelerator_info max_str_digits fs
  end.

(** *** What an aggregation sees of an attribute *)

(** The read raises nothing that [read_attr] lets through: the file is
    readable, missing, or denied. *)
Definition graceful (fs : filesystem) (name : string) : bool :=
  match fs (attr_path name) with
  | inr _ => true
  | inl Py.FileNotFoundError => true
  | inl Py.PermissionError => true
  | inl _ => false
  end.

(** The text on which the [if x:] of an aggregation acts: the stripped
    contents when they are not empty. *)
Definition seen (fs : filesystem) (name : string) : option string :=
  match fs (attr_path name) with
  | inr raw => if Py.truthy (Py.strip raw) then Some (Py.strip raw) else None
  | inl _ => None
  end.

(** The line that [read_attr] writes to the error stream. *)
Definition diagnostic (fs : filesystem) (name : string) : list line :=
  match fs (attr_path name) with
  | inl Py.PermissionError => [[Text ("Permission denied reading " ++ name)]]
  | _ => []
  end.

Definition diagnostics (fs : filesystem) (names : list string) : list line :=
  flat_map (diagnostic fs) names.

Definition warn (w : streams) (lines : list line) : streams :=
  {| stdout := stdout w; stderr := stderr w ++ lines |}.

(** *** The aggregation shape of the specification

    Section 4.3 of the specification describes every aggregation as a
    list of sources merged in order, later sources overriding earlier
    keys.  A source is an attribute name and the fields its text
    contributes ([None] when the text cannot be converted). *)

Definition contribution : Type := string -> option (gmap string value).

Definition source : Type := string * contribution.

Definition int_field (max_str_digits : nat) (key : string) : contribution :=
  fun text =>
    match Py.int max_str_digits text with
    | Some n => Some {[ key := VInt n ]}
    | None => None
    end.

Definition text_field (key : string) : contribution :=
  fun text => Some {[ key := VStr text ]}.

Definition blob_fields (max_str_digits : nat) : contribution :=
  fun text => Some (parse_key_value max_str_digits text).

Definition memory_fields (max_str_digits : nat) : contribution :=
  fun text =>
    match Py.int max_str_digits text with
    | Some total_bytes =>
        match Py.truediv_pow2 total_bytes 30 with
        | inr total_gb =>
            Some (<["total_gb" := VFloat total_gb]>
                  (<["total_mb" := VInt (total_bytes / 1048576)]>
                   (<["total_bytes" := VInt total_bytes]> ∅)))
        | inl _ => None
        end
    | None => None
    end.

Definition sources (max_str_digits : nat) (c : category) : list source :=
  match c with
  | CPU =>
      [ ("cpu_count", int_field max_str_digits "online");
        ("cpu_total", int_field max_str_digits "total");
        ("cpu_info", blob_fields max_str_digits);
        ("cpu_topology", text_field "topology") ]
  | Memory =>
      [ ("mem_total_bytes", memory_fields max_str_digits);
        ("mem_info", blob_fields max_str_digits) ]
  | NUMA =>
      [ ("numa_nodes", int_field max_str_digits "nodes");
        ("numa_info", text_field "details") ]
  | GPU =>
      [ ("gpu_info", blob_fields max_str_digits);
        ("gpu_details", text_field "details") ]
  | Accelerator =>
      [ ("accelerator_count", int_field max_str_digits "count");
        ("accelerator_details", text_field "details") ]
  end.

(** Merge of one source into the record built so far: an attribute that
    yields no text contributes nothing. *)
Definition merge_source (fs : filesystem) (acc : option (gmap string value))
    (src : source) : option (gmap string value) :=
  match acc with
  | None => None
  | Some info =>
      match seen fs (fst src) with
      | None => Some info
      | Some text =>
          match snd src text with
          | Some fields => Some (update info fields)
          | None => None
          end
      end
  end.

Definition merge_sources (fs : filesystem) (srcs : list source)
  : option (gmap string value) :=
  fold_left (merge_source fs) srcs (Some ∅).

(** The fields that a source contributes on a file system, if any. *)
Definition contributed (fs : filesystem) (src : source)
  : option (gmap string value) :=
  match seen fs (fst src) with
  | Some text => snd src text
  | None => None
  end.

(** A source defines the key [k]. *)
Definition defines (fs : filesystem) (k : string) (src : source) : bool :=
  match contributed fs src with
  | Some fields => bool_decide (is_Some (fields !! k))
  | None => false
  end.

(** *** The key=value lines of a text *)

(** The key and the value of a line, when it has an [=]. *)
Definition key_value_of (l : string) : option (string * string) :=
  Py.split_once "="%char (Py.strip l).

(** The value of the last line whose key is [k]. *)
Fixpoint last_value (lines : list string) (k : string) : option string :=
  match lines with
  | [] => None
  | l :: rest =>
      match last_value rest k with
      | Some v => Some v
      | None =>
          match key_value_of l with
          | Some (k', v) => if String.eqb k' k then Some v else None
          | None => None
          end
      end
  end.

(** ** The integer syntaxes *)

Module Syntax.

Fixpoint all_digits (s : string) : bool :=
  match s with
  | EmptyString => true
  | String c r => Py.is_digit c && all_digits r
  end.

(** The strict syntax of the specification: [^-?[0-9]+$]. *)
Definition strict_int (v : string) : bool :=
  match v with
  | EmptyString => false
  | String c r =>
      if Ascii.eqb c "-"%char then Py.truthy r && all_digits r
      else all_digits v
  end.

(** Value of a run of digits in which underscores are skipped. *)
Fixpoint digits_value (acc : Z) (s : string) : Z :=
  match s with
  | EmptyString => acc
  | String c r =>
      match Py.digit_value c with
      | Some d => digits_value (10 * acc + d) r
      | None => digits_value acc r
      end
  end.

Fixpoint digits_count (s : string) : nat :=
  match s with
  | EmptyString => 0%nat
  | String c r => if Py.is_digit c then S (digits_count r) else digits_count r
  end.

(** The integer that a text of the strict syntax denotes. *)
Definition strict_value (v : string) : Z :=
  match v with
  | EmptyString => 0
  | String c r =>
      if Ascii.eqb c "-"%char then - digits_value 0 r
      else digits_value 0 v
  end.

(** What may follow a digit in a literal: nothing, a digit, or one
    underscore and a digit. *)
Inductive run_tail : string -> Prop :=
  | tail_end : run_tail ""
  | tail_digit c s :
      Py.is_digit c = true -> run_tail s -> run_tail (String c s)
  | tail_sep c s :
      Py.is_digit c = true -> run_tail s -> run_tail (String "_" (String c s)).

(** Digits with single underscores between them. *)
Inductive digit_run : string -> Prop :=
  | run_start c s :
      Py.is_digit c = true -> run_tail s -> digit_run (String c s).

(** The scanning loop of [int] stops in front of [s]: at the end of the
    text, or at a character that is neither a digit nor an underscore. *)
Definition stops (s : string) : Prop :=
  match s with
  | EmptyString => True
  | String c _ => Py.digit_value c = None /\ Py.is_underscore c = false
  end.

Inductive sign : string -> bool -> Prop :=
  | sign_none : sign "" false
  | sign_plus : sign "+" false
  | sign_minus : sign "-" true.

(** The syntax that [int()] accepts, with its value: blanks, a sign,
    a run of digits no longer than the limit, blanks. *)
Definition int_literal (max_str_digits : nat) (v : string) (n : Z) : Prop :=
  exists lead sg negative body trail,
    v = (lead ++ sg ++ body ++ trail)%string
    /\ Py.all_int_space lead = true
    /\ sign sg negative
    /\ digit_run body
    /\ Py.all_int_space trail = true
    /\ Py.exceeds_limit max_str_digits (digits_count body) = false
    /\ n = (if negative then - digits_value 0 body else digits_value 0 body).

End Syntax.

(** ** File systems for examples *)

(** A file system given by its entries; every other path is missing. *)
Definition files (entries : list (path * (Py.exn + string))) : filesystem :=
  fun p =>
    match find (fun entry => bool_decide (fst entry = p)) entries with
    | Some (_, r) => r
    | None => inl Py.FileNotFoundError
    end.

(** A file system in which only attributes of the base directory exist. *)
Definition sysfs (attrs : list (string * (Py.exn + string))) : filesystem :=
  files (map (fun a => (NEUROSHELL_PATH ++ [fst a], snd a)) attrs).

Definition quiet : streams := {| stdout := []; stderr := [] |}.

Definition newline : string := String "010"%char "".

Fixpoint zeros (n : nat) : string :=
  match n with
  | O => ""
  | S n' => String "0"%char (zeros n')
  end.

(** The interpreter's default limit on decimal literals. *)
Definition default_max_str_digits : nat := 4300.

(** ** Blank attributes *)

(** [fs'] is [fs] in which some attributes whose contents strip to the
    empty text have been removed. *)
Definition blanks_removed (fs fs' : filesystem) : Prop :=
  forall p,
    fs' p = fs p
    \/ (exists raw, fs p = inr raw /\ Py.strip raw = "" /\
                    fs' p = inl Py.FileNotFoundError).

(** ** Well-formed scalar attributes *)

(** The text seen of an integer attribute, if any, is accepted by [int]. *)
Definition int_ok (max_str_digits : nat) (fs : filesystem) (name : string) : bool :=
  match seen fs name with
  | Some text => bool_decide (is_Some (Py.int max_str_digits text))
  | None => true
  end.

(** The text seen of [mem_total_bytes], if any, is an integer whose
    quotient by [2^30] is in the range of a float. *)
Definition memory_ok (max_str_digits : nat) (fs : filesystem) : bool :=
  match seen fs "mem_total_bytes" with
  | Some text =>
      match Py.int max_str_digits text with
      | Some total_bytes =>
          match Py.truediv_pow2 total_bytes 30 with
          | inr _ => true
          | inl _ => false
          end
      | None => false
      end
  | None => true
  end.

Definition scalars_ok (max_str_digits : nat) (fs : filesystem) (c : category)
  : bool :=
  match c with
  | CPU => int_ok max_str_digits fs "cpu_count"
           && int_ok max_str_digits fs "cpu_total"
  | Memory => memory_ok max_str_digits fs
  | NUMA => int_ok max_str_digits fs "numa_nodes"
  | GPU => true
  | Accelerator => int_ok max_str_digits fs "accelerator_count"
  end.

(** The names of the attributes of a category. *)
Definition names (max_str_digits : nat) (c : category) : list string :=
  map fst (sources max_str_digits c).

(** ** Example inputs *)

Module Examples.

(** A key=value text in which the key [a] occurs twice. *)
Definition repeated_key : string :=
  "a=1" ++ newline ++ "b= x" ++ newline ++ "a=+2".

Definition fs_empty : filesystem := sysfs [].

Definition fs_count_padded : filesystem :=
  sysfs [("cpu_count", inr (" 8" ++ newline)%string)].

Definition fs_count_denied : filesystem :=
  sysfs [("cpu_count", inl Py.PermissionError)].

Definition fs_count_directory : filesystem :=
  sysfs [("cpu_count", inl Py.IsADirectoryError)].

Definition fs_summary : filesystem :=
  sysfs [("system_summary", inr (" 8 CPUs " ++ newline)%string)].

Definition fs_summary_blank : filesystem :=
  sysfs [("system_summary", inr newline)].

Definition fs_count_blank : filesystem :=
  sysfs [("cpu_count", inr " "); ("cpu_total", inr "16")].

(** [fs_count_blank] without its blank [cpu_count]. *)
Definition fs_count_removed : filesystem :=
  fun p => if bool_decide (p = attr_path "cpu_count")
           then inl Py.FileNotFoundError else fs_count_blank p.

(** A file system with a file outside the base directory: every path
    that leads to [/etc/passwd] reads it. *)
Definition fs_passwd : filesystem :=
  fun p => if bool_decide (resolve p = ["etc"; "passwd"])
           then inr "root:x:0:0" else inl Py.FileNotFoundError.

Definition fs_memory_16g : filesystem :=
  sysfs [("mem_total_bytes", inr "17179869184")].

(** [mem_total_bytes] holds [10^400]. *)
Definition fs_memory_huge : filesystem :=
  sysfs [("mem_total_bytes", inr ("1" ++ zeros 400)%string)].

Definition fs_memory_override : filesystem :=
  sysfs [("mem_total_bytes", inr "17179869184"); ("mem_info", inr "total_mb=1")].

Definition fs_cpu_partial : filesystem :=
  sysfs [("cpu_count", inl Py.PermissionError);
         ("cpu_total", inr "16");
         ("cpu_info", inr "cores=eight");
         ("cpu_topology", inr " ")].

Definition fs_cpu_io_error : filesystem :=
  sysfs [("cpu_count", inl Py.OSError); ("cpu_total", inr "16")].

Definition fs_cpu_malformed : filesystem :=
  sysfs [("cpu_count", inr "eight"); ("cpu_total", inr "16")].

Definition fs_cpu_collisions : filesystem :=
  sysfs [("cpu_count", inr "8");
         ("cpu_info", inr ("online=4" ++ newline ++ "topology=flat")%string);
         ("cpu_topology", inr "numa")].

Definition fs_requirements : filesystem :=
  sysfs [("cpu_count", inr "8");
         ("mem_total_bytes", inr "17179869184");
         ("gpu_info", inr "total=2")].

(** The floats 8.0 and 16.0. *)
Definition float_8 : spec_float := S754_finite false 4503599627370496 (-49).
Definition float_16 : spec_float := S754_finite false 4503599627370496 (-48).

End Examples.

(** ** What an operation leaves on the streams *)

(** A line is the diagnostic that [read_attr] writes for some attribute. *)
Definition is_diagnostic (l : line) : Prop :=
  exists name, l = [Text ("Permission denied reading " ++ name)].

(** From [w] to [w'] nothing was written to the standard output, and
    only diagnostics were added to the error stream. *)
Definition only_warns (w w' : streams) : Prop :=
  stdout w' = stdout w
  /\ exists lines, stderr w' = stderr w ++ lines /\ Forall is_diagnostic lines.

(** Whatever its outcome, the operation only warns. *)
Definition warns_only {A} (m : M A) : Prop :=
  forall w r w', m w = (r, w') -> only_warns w w'.

(** The key of a category in the dict of [get_all_info]. *)
Definition category_key (c : category) : string :=
  match c with
  | CPU => "cpu"
  | Memory => "memory"
  | NUMA => "numa"
  | GPU => "gpu"
  | Accelerator => "accelerator"
  end.

Definition categories : list category := [CPU; Memory; NUMA; GPU; Accelerator].

Module MoreExamples.

(** A NUMA description whose details look like key=value lines. *)
Definition fs_numa : filesystem :=
  sysfs [("numa_nodes", inr "2");
         ("numa_info", inr ("node0=8192" ++ newline ++ "node1=8192")%string)].

(** [cpu_info] gives [online] as a range of CPU numbers. *)
Definition fs_online_range : filesystem :=
  sysfs [("cpu_count", inr "8"); ("cpu_info", inr "online=0-7")].

(** [mem_info] is a directory: its read fails with an error that
    [read_attr] does not catch. *)
Definition fs_memory_info_directory : filesystem :=
  sysfs [("mem_total_bytes", inr "17179869184");
         ("mem_info", inl Py.IsADirectoryError)].

End MoreExamples.

(** The three report lines of [check_requirements], after the header. *)
Definition report_lines (online total_gb total : fragment)
    (min_cpus : Z) (min_memory_gb : number) (min_gpus : Z)
    (cpus memory gpus : bool) : list line :=
  [ [Text "  CPUs: "; online; Text " >= "; Shown (VInt min_cpus);
     Text " : "; Glyph cpus];
    [Text "  Memory: "; total_gb; Text "GB >= ";
     Shown (value_of_number min_memory_gb); Text "GB : "; Glyph memory];
    [Text "  GPUs: "; total; Text " >= "; Shown (VInt min_gpus);
     Text " : "; Glyph gpus] ].

(** An int threshold can be written within the interpreter's limit. *)
Definition printable (max_str_digits : nat) (t : number) : bool :=
  match t with
  | NInt n => negb (Py.exceeds_limit max_str_digits (Py.decimal_digits n))
  | NFloat _ => true
  end.

(** ** The command line

    [main] after [parser.parse_args()]: the parsed flags are its
    argument.  Besides the file system and the standard output, three
    things of the interpreter and its library are taken as parameters:
    whether the base directory exists (the test of the constructor),
    [json.dumps] for the dict of records, and the order in
    which a record yields its items (its insertion order, which the
    [gmap] of this development does not keep).  [KeyboardInterrupt],
    which can arrive at any moment, is not modelled. *)

(** The namespace of parsed arguments. *)
Record arguments : Set := {
  arg_summary : bool;
  arg_cpu : bool;
  arg_memory : bool;
  arg_numa : bool;
  arg_gpu : bool;
  arg_accelerator : bool;
  arg_all : bool;
  arg_json : bool;
  arg_check_requirements : bool;
  arg_min_cpus : Z;
  arg_min_memory_gb : spec_float;
  arg_min_gpus : Z
}.

(** How a call of [main] ends: it returns, [sys.exit] is called, or an
    exception leaves it. *)
Inductive completion : Set :=
  | Returned
  | SystemExit (status : Z)
  | Uncaught (e : Py.exn).

(** The exit status of the script for a completion of [main]. *)
Definition exit_status (c : completion) : Z :=
  match c with
  | Returned => 0
  | SystemExit status => status
  | Uncaught _ => 1
  end.

(** The message of [NeuroShellError]. *)
Definition NeuroShellError : string :=
  "NeuroShell module not loaded. Please run 'sudo insmod neuroshell_enhanced.ko' first.".

(** [s.upper()] on ASCII letters, which is all that the category names
    have. *)
Definition upper_char (c : ascii) : ascii :=
  let n := N_of_ascii c in
  if ((97 <=? n) && (n <=? 122))%N then ascii_of_N (n - 32) else c.

Fixpoint upper (s : string) : string :=
  match s with
  | EmptyString => EmptyString
  | String c r => String (upper_char c) (upper r)
  end.

(** [for x in xs: body(x)]. *)
Fixpoint for_each {A} (xs : list A) (body : A -> M unit) : M unit :=
  match xs with
  | [] => ret tt
  | x :: rest => let* _ := body x in for_each rest body
  end.

Section Main.

Variable max_str_digits : nat.
Variable base_exists : bool.
Variable fs : filesystem.
Variable out : console.
Variable json_dumps : gmap string (gmap string value) -> Py.exn + string.
Variable items : gmap string value -> list (string * value).

(** [NeuroShell()]: the constructor raises [NeuroShellError] when the
    base directory does not exist. *)
Definition NeuroShell_init : string + unit :=
  if base_exists then inr tt else inl NeuroShellError.

(** The items of the dict of records, in the order in which [main] and
    [get_all_info] insert the categories. *)
Definition category_items (info : gmap string (gmap string value))
  : list (string * gmap string value) :=
  omap (fun c => match info !! category_key c with
                 | Some data => Some (category_key c, data)
                 | None => None
                 end) categories.

(** [print(f"  {key}: {value}")]. *)
Definition print_value (key : string) (v : value) : M unit :=
  let* shown := format_default max_str_digits v in
  print out [Text ("  " ++ key ++ ": "); shown].

(** The plain listing of one item of a record: a text of several lines
    is written line by line under its key. *)
Definition print_item (item : string * value) : M unit :=
  let '(key, v) := item in
  match v with
  | VStr text =>
      if negb (Py.contains "010"%char text) then print_value key v
      else
        let* _ := print out [Text ("  " ++ key ++ ":")] in
        for_each (Py.split "010"%char text)
                 (fun l => print out [Text ("    " ++ l)])
  | _ => print_value key v
  end.

Definition print_listing (info : gmap string (gmap string value)) : M unit :=
  for_each (category_items info)
    (fun entry =>
       let* _ := print out [Text (newline ++ "=== " ++ upper (fst entry) ++ " ===")] in
       for_each (items (snd entry)) print_item).

(** The records selected by the category flags. *)
Definition selected_info (args : arguments)
  : M (gmap string (gmap string value)) :=
  if arg_all args then get_all_info max_str_digits fs
  else
    let info : gmap string (gmap string value) := ∅ in
    let* info :=
      if arg_cpu args then
        let* r := get_cpu_info max_str_digits fs in ret (<["cpu" := r]> info)
      else ret info in
    let* info :=
      if arg_memory args then
        let* r := get_memory_info max_str_digits fs in
        ret (<["memory" := r]> info)
      else ret info in
    let* info :=
      if arg_numa args then
        let* r := get_numa_info max_str_digits fs in ret (<["numa" := r]> info)
      else ret info in
    let* info :=
      if arg_gpu args then
        let* r := get_gpu_info max_str_digits fs in ret (<["gpu" := r]> info)
      else ret info in
    let* info :=
      if arg_accelerator args then
        let* r := get_accelerator_info max_str_digits fs in
        ret (<["accelerator" := r]> info)
      else ret info in
    ret info.

(** [print(ns.get_system_summary())]. *)
Definition print_summary : M unit :=
  let* text := get_system_summary fs in print out [Text text].

(** The end of [main] for an operation that raises no [SystemExit]
    itself: an exception of the operation leaves [main]. *)
Definition finish {A} (m : M A) (k : A -> completion)
  : streams -> completion * streams :=
  fun w =>
    match m w with
    | (Ok a, w') => (k a, w')
    | (Raise e, w') => (Uncaught e, w')
    end.

Definition main (args : arguments) : streams -> completion * streams :=
  match NeuroShell_init with
  | inl message =>
      fun w =>
        (SystemExit 1,
         {| stdout := stdout w;
            stderr := stderr w ++
              [ [Text ("Error: " ++ message)];
                [Text (newline ++ "Make sure the NeuroShell kernel module is loaded:")];
                [Text "  sudo insmod neuroshell_enhanced.ko"] ] |})
  | inr _ =>
      if arg_check_requirements args then
        finish (check_requirements max_str_digits fs out (arg_min_cpus args)
                  (NFloat (arg_min_memory_gb args)) (arg_min_gpus args))
               (fun result => SystemExit (if result then 0 else 1))
      else if arg_summary args then
        finish print_summary (fun _ => Returned)
      else
        finish (let* info := selected_info args in
                if bool_decide (info = ∅) then print_summary
                else if arg_json args then
                  let* text := lift (json_dumps info) in print out [Text text]
                else print_listing info)
               (fun _ => Returned)
  end.

End Main.

(** No display flag. *)
Definition no_selection (args : arguments) : bool :=
  negb (arg_all args || arg_cpu args || arg_memory args || arg_numa args
        || arg_gpu args || arg_accelerator args).

(** The arguments with the flag [--summary] set. *)
Definition with_summary (args : arguments) : arguments :=
  {| arg_summary := true;
     arg_cpu := arg_cpu args;
     arg_memory := arg_memory args;
     arg_numa := arg_numa args;
     arg_gpu := arg_gpu args;
     arg_accelerator := arg_accelerator args;
     arg_all := arg_all args;
     arg_json := arg_json args;
     arg_check_requirements := arg_check_requirements args;
     arg_min_cpus := arg_min_cpus args;
     arg_min_memory_gb := arg_min_memory_gb args;
     arg_min_gpus := arg_min_gpus args |}.

Module CliExamples.

(** No flag at all, with the defaults of the thresholds. *)
Definition no_flags : arguments :=
  {| arg_summary := false; arg_cpu := false; arg_memory := false;
     arg_numa := false; arg_gpu := false; arg_accelerator := false;
     arg_all := false; arg_json := false; arg_check_requirements := false;
     arg_min_cpus := 4; arg_min_memory_gb := Examples.float_8;
     arg_min_gpus := 1 |}.

(** [--json] alone. *)
Definition only_json : arguments :=
  {| arg_summary := false; arg_cpu := false; arg_memory := false;
     arg_numa := false; arg_gpu := false; arg_accelerator := false;
     arg_all := false; arg_json := true; arg_check_requirements := false;
     arg_min_cpus := 4; arg_min_memory_gb := Examples.float_8;
     arg_min_gpus := 1 |}.

(** [--check-requirements --cpu]. *)
Definition check_and_cpu : arguments :=
  {| arg_summary := false; arg_cpu := true; arg_memory := false;
     arg_numa := false; arg_gpu := false; arg_accelerator := false;
     arg_all := false; arg_json := false; arg_check_requirements := true;
     arg_min_cpus := 4; arg_min_memory_gb := Examples.float_8;
     arg_min_gpus := 1 |}.

(** [--cpu]. *)
Definition only_cpu : arguments :=
  {| arg_summary := false; arg_cpu := true; arg_memory := false;
     arg_numa := false; arg_gpu := false; arg_accelerator := false;
     arg_all := false; arg_json := false; arg_check_requirements := false;
     arg_min_cpus := 4; arg_min_memory_gb := Examples.float_8;
     arg_min_gpus := 1 |}.

(** A stand-in for [json.dumps] and for the order of the items. *)
Definition no_json (info : gmap string (gmap string value)) : Py.exn + string :=
  inr "{}".

Definition sorted_items (data : gmap string value) : list (string * value) :=
  map_to_list data.

End CliExamples.

(** The flags select the category [c]. *)
Definition selects (args : arguments) (c : category) : bool :=
  arg_all args ||
  match c with
  | CPU => arg_cpu args
  | Memory => arg_memory args
  | NUMA => arg_numa args
  | GPU => arg_gpu args
  | Accelerator => arg_accelerator args
  end.

(** ** The plain listing *)

(** The streams after [lines] were written to the standard output. *)
Definition written (w : streams) (lines : list line) : streams :=
  {| stdout := stdout w ++ lines; stderr := stderr w |}.

(** ["\n".join(parts)]. *)
Fixpoint join_lines (parts : list string) : string :=
  match parts with
  | [] => ""
  | part :: rest =>
      match rest with
      | [] => part
      | _ => part ++ newline ++ join_lines rest
      end
  end.

(** The header line that the listing writes for a category. *)
Definition header (name : string) : line :=
  [Text (newline ++ "=== " ++ upper name ++ " ===")].

(** A written line is a header: it starts with an empty line. *)
Definition is_header (l : line) : bool :=
  match l with
  | Text (String c _) :: _ => Ascii.eqb c "010"
  | _ => false
  end.

(** Lines of which none is a header. *)
Definition body (lines : list line) : Prop :=
  Forall (fun l => is_header l = false) lines.

(** The categories that a dict of records has a key for, in the order
    of the listing. *)
Definition listed (info : gmap string (gmap string value)) : list category :=
  List.filter (fun c => bool_decide (is_Some (info !! category_key c)))
              categories.

Module ListingExamples.

(** The dict of [--gpu] on a machine without GPU attributes. *)
Definition info_gpu_empty : gmap string (gmap string value) :=
  <["gpu" := ∅]> ∅.

Definition two_nodes : string := "node0=8192" ++ newline ++ "node1=8192".

(** A closed standard output: every write raises [ValueError]. *)
Definition closed : console := fun _ _ => Some Py.ValueError.

End ListingExamples.

(** ** The order of numbers

    What [x >= y] means for two numbers, whatever their types: the
    order of their values, an [int] or a finite [float] being the
    rational it denotes ([m * 2^e] for a float of mantissa [m] and
    exponent [e]); a NaN is at least nothing and nothing is at least a
    NaN.  This reading is independent of the dyadic arithmetic by which
    [ge] computes. *)

Inductive extended : Set :=
  | Rational (q : Q)
  | PlusInfinity
  | MinusInfinity.

(** The value of a float: none for a NaN. *)
Definition float_value (f : spec_float) : option extended :=
  match f with
  | S754_zero _ => Some (Rational 0)
  | S754_infinity false => Some PlusInfinity
  | S754_infinity true => Some MinusInfinity
  | S754_nan => None
  | S754_finite s m e =>
      Some (Rational (inject_Z (if s then Z.neg m else Z.pos m) * Qpower 2 e))
  end.

Definition extended_le (x y : extended) : bool :=
  match x, y with
  | MinusInfinity, _ => true
  | _, PlusInfinity => true
  | Rational p, Rational q => Qle_bool p q
  | _, _ => false
  end.

(** [x >= y] on values. *)
Definition at_least (x y : option extended) : bool :=
  match x, y with
  | Some a, Some b => extended_le b a
  | _, _ => false
  end.

(** [b] is the truth of [v >= t]: two ints compare as integers, a float
    compares by its value, and a text compares with no number. *)
Definition compares (v : value) (t : number) (b : bool) : Prop :=
  match v, t with
  | VInt n, NInt t => b = (t <=? n)
  | VInt n, NFloat g =>
      b = at_least (Some (Rational (inject_Z n))) (float_value g)
  | VFloat f, NInt t =>
      b = at_least (float_value f) (Some (Rational (inject_Z t)))
  | VFloat f, NFloat g => b = at_least (float_value f) (float_value g)
  | VStr _, _ => False
  end.

(** ** The standard output *)

(** The stream takes the lines one after the other, [written] being
    what it holds already. *)
Fixpoint accepts (out : console) (written lines : list line) : bool :=
  match lines with
  | [] => true
  | l :: rest =>
      match out written l with
      | None => accepts out (written ++ [l]) rest
      | Some _ => false
      end
  end.

(** The text has ASCII characters only. *)
Fixpoint is_ascii (s : string) : bool :=
  match s with
  | EmptyString => true
  | String c r => (N_of_ascii c <? 128)%N && is_ascii r
  end.

(** The fragment is written with ASCII characters only: numbers are,
    the marks of the requirement check (U+2713 and U+2717) are not. *)
Definition ascii_fragment (f : fragment) : bool :=
  match f with
  | Text s => is_ascii s
  | Shown (VStr s) => is_ascii s
  | Shown _ => true
  | Fixed1 _ => true
  | Glyph _ => false
  end.

Module Consoles.

(** A stream that takes every line, as an open one with the encoding
    UTF-8 does. *)
Definition utf8 : console := fun _ _ => None.

(** A stream with the encoding ASCII. *)
Definition ascii_only : console :=
  fun _ l =>
    if forallb ascii_fragment l then None else Some Py.UnicodeEncodeError.

End Consoles.

(** * Properties *)

(** ** The builtins on small inputs *)

Example int_plain : Py.int 4300 "17179869184" = Some 17179869184.
Proof. reflexivity. Qed.

Example int_negative : Py.int 4300 "-12" = Some (-12).
Proof. reflexivity. Qed.

Example int_plus_sign : Py.int 4300 "+5" = Some 5.
Proof. reflexivity. Qed.

Example int_underscore : Py.int 4300 "1_000" = Some 1000.
Proof. reflexivity. Qed.

Example int_blanks : Py.int 4300 " 5 " = Some 5.
Proof. reflexivity. Qed.

Example int_leading_zeros : Py.int 4300 "007" = Some 7.
Proof. reflexivity. Qed.

Example int_junk : Py.int 4300 "8 cores" = None.
Proof. reflexivity. Qed.

Example int_double_underscore : Py.int 4300 "1__0" = None.
Proof. reflexivity. Qed.

Example int_sign_only : Py.int 4300 "-" = None.
Proof. reflexivity. Qed.

Example int_empty : Py.int 4300 "" = None.
Proof. reflexivity. Qed.

Example int_over_limit : Py.int 4300 ("1" ++ zeros 4300) = None.
Proof. by vm_compute. Qed.

Example int_no_limit : Py.int 0 ("1" ++ zeros 4300) = Some (10 ^ 4300).
Proof. by vm_compute. Qed.

Example strip_both_ends : Py.strip ("  a b " ++ newline) = "a b".
Proof. reflexivity. Qed.

Example split_lines :
  Py.split "010" ("a=1" ++ newline ++ "b") = ["a=1"; "b"].
Proof. reflexivity. Qed.

Example split_empty : Py.split "010" "" = [""].
Proof. reflexivity. Qed.

Example split_once_first : Py.split_once "=" "a=b=c" = Some ("a", "b=c").
Proof. reflexivity. Qed.

Example truediv_16g : Py.truediv_pow2 17179869184 30 = inr Examples.float_16.
Proof. reflexivity. Qed.

Example truediv_overflow : Py.truediv_pow2 (2 ^ 1054) 30 = inl Py.OverflowError.
Proof. by vm_compute. Qed.

Example join_absolute : path_join NEUROSHELL_PATH "/etc/passwd" = ["etc"; "passwd"].
Proof. reflexivity. Qed.

Example join_plain :
  path_join NEUROSHELL_PATH "cpu_count"
  = ["sys"; "kernel"; "neuroshell"; "cpu_count"].
Proof. reflexivity. Qed.

Example parse_mixed :
  parse_key_value 4300 ("model = x" ++ newline ++ "junk" ++ newline ++ "cores=4")
  = <["cores" := VInt 4]> (<["model " := VStr " x"]> ∅).
Proof. by vm_compute. Qed.



(** ** The attribute reader *)

Lemma read_attr_cases fs name w :
  read_attr fs name w =
    match fs (attr_path name) with
    | inr raw => (Ok (Some (Py.strip raw)), w)
    | inl Py.FileNotFoundError => (Ok None, w)
    | inl Py.PermissionError =>
        (Ok None, warn w [[Text ("Permission denied reading " ++ name)]])
    | inl e => (Raise e, w)
    end.
Proof.
  unfold read_attr, attr_path, try_except, bind, read_text, lift, ret, raise.
  destruct (fs (path_join NEUROSHELL_PATH name)) as [[]|raw]; reflexivity.
Qed.

Lemma warn_nil w : warn w [] = w.
Proof. destruct w; unfold warn; simpl. by rewrite app_nil_r. Qed.

Lemma warn_warn w l1 l2 : warn (warn w l1) l2 = warn w (l1 ++ l2).
Proof. unfold warn; simpl. by rewrite app_assoc. Qed.

(** A graceful read, followed by the [if x:] of an aggregation, acts on
    the text that is [seen] and leaves the [diagnostic] behind. *)
Lemma read_then_if fs name {A B} (f : string -> M A) (g : M A) (k : A -> M B) w :
  graceful fs name = true ->
  bind (read_attr fs name) (fun x => bind (if_text x f g) k) w =
  bind (match seen fs name with Some text => f text | None => g end) k
       (warn w (diagnostic fs name)).
Proof.
  intros Hg. unfold bind at 1. rewrite read_attr_cases.
  unfold graceful in Hg. unfold seen, diagnostic.
  destruct (fs (attr_path name)) as [[]|raw]; try discriminate;
    rewrite ?warn_nil; simpl; try reflexivity.
  destruct (Py.truthy (Py.strip raw)); reflexivity.
Qed.

(** [C4] On success [read_attr] returns the stripped contents; a missing
    file gives [None] and no output; a denied file gives [None] and one
    diagnostic on the error stream; every other exception of the read
    propagates. *)
Theorem read_attr_contract fs name w :
  (forall raw, fs (attr_path name) = inr raw ->
     read_attr fs name w = (Ok (Some (Py.strip raw)), w))
  /\ (fs (attr_path name) = inl Py.FileNotFoundError ->
      read_attr fs name w = (Ok None, w))
  /\ (fs (attr_path name) = inl Py.PermissionError ->
      read_attr fs name w =
        (Ok None,
         {| stdout := stdout w;
            stderr := stderr w ++ [[Text ("Permission denied reading " ++ name)]] |}))
  /\ (forall e, fs (attr_path name) = inl e ->
      e <> Py.FileNotFoundError -> e <> Py.PermissionError ->
      read_attr fs name w = (Raise e, w)).
Proof.
  rewrite read_attr_cases. split; [|split; [|split]].
  - by intros raw ->.
  - by intros ->.
  - by intros ->.
  - intros e -> H1 H2. by destruct e.
Qed.

Lemma read_attr_contract_witness :
  read_attr Examples.fs_count_padded "cpu_count" quiet = (Ok (Some "8"), quiet)
  /\ read_attr Examples.fs_empty "cpu_count" quiet = (Ok None, quiet)
  /\ read_attr Examples.fs_count_denied "cpu_count" quiet
     = (Ok None,
        {| stdout := [];
           stderr := [[Text "Permission denied reading cpu_count"]] |})
  /\ read_attr Examples.fs_count_directory "cpu_count" quiet
     = (Raise Py.IsADirectoryError, quiet).
Proof.
  split; [|split; [|split]].
  - apply (proj1 (read_attr_contract Examples.fs_count_padded "cpu_count" quiet)
             (" 8" ++ newline)%string).
    reflexivity.
  - apply (proj1 (proj2 (read_attr_contract Examples.fs_empty "cpu_count" quiet))).
    reflexivity.
  - apply (proj1 (proj2 (proj2
             (read_attr_contract Examples.fs_count_denied "cpu_count" quiet)))).
    reflexivity.
  - apply (proj2 (proj2 (proj2
             (read_attr_contract Examples.fs_count_directory "cpu_count" quiet)))).
    + reflexivity.
    + discriminate.
    + discriminate.
Defined.

(** ** The monad *)

Lemma bind_ret_l {A B} (a : A) (k : A -> M B) w : bind (ret a) k w = k a w.
Proof. reflexivity. Qed.

Lemma bind_raise_l {A B} e (k : A -> M B) w : bind (raise e) k w = (Raise e, w).
Proof. reflexivity. Qed.

Lemma bind_assoc {A B C} (m : M A) (f : A -> M B) (g : B -> M C) w :
  bind (bind m f) g w = bind m (fun a => bind (f a) g) w.
Proof. unfold bind. by destruct (m w) as [[a|e] w']. Qed.

Lemma bind_ret_r {A} (m : M A) w : bind m ret w = m w.
Proof. unfold bind, ret. by destruct (m w) as [[a|e] w']. Qed.

(** ** The aggregations refine the merge of their sources *)

Lemma update_singleton (info : gmap string value) k v :
  update info {[ k := v ]} = <[ k := v ]> info.
Proof. unfold update. by rewrite insert_union_singleton_l. Qed.

Lemma update_empty (fields : gmap string value) : update ∅ fields = fields.
Proof. unfold update. by rewrite (right_id_L ∅ (∪)). Qed.

Ltac norm := repeat (rewrite bind_assoc || rewrite bind_ret_l); cbv beta.

Ltac next_attr :=
  rewrite read_then_if by assumption;
  match goal with
  | |- context [seen ?fs ?name] => destruct (seen fs name) as [?text|]
  end;
  rewrite ?bind_assoc;
  unfold int_of, int_field, memory_fields, blob_fields, text_field in *;
  simpl in *.

Ltac next_int :=
  match goal with
  | |- context [Py.int ?m ?t] => destruct (Py.int m t) as [?n|]
  end;
  simpl in *; try discriminate; norm.

Lemma aggregate_refines max fs c rec w :
  forallb (graceful fs) (map fst (sources max c)) = true ->
  merge_sources fs (sources max c) = Some rec ->
  aggregate max fs c w
    = (Ok rec, warn w (diagnostics fs (map fst (sources max c)))).
Proof.
  intros Hg Hm. unfold diagnostics.
  destruct c; simpl in Hg |- *; rewrite ?andb_true_iff in Hg;
    repeat match goal with H : _ /\ _ |- _ => destruct H end;
    unfold merge_sources in Hm; simpl in Hm; unfold merge_source in Hm;
    simpl in Hm.
  - unfold get_cpu_info.
    next_attr; [next_int|]; norm;
      (next_attr; [next_int|]); norm;
      next_attr; norm;
      next_attr; norm;
      rewrite ?warn_warn, ?app_nil_r, ?update_singleton, <- ?app_assoc in *;
      unfold ret; congruence.
  - unfold get_memory_info.
    next_attr.
    + next_int. unfold lift.
      destruct (Py.truediv_pow2 n 30) as [e|g]; [discriminate|].
      simpl. norm.
      next_attr; norm;
        rewrite ?warn_warn, ?app_nil_r, ?update_empty in *;
        change (1024 * 1024) with 1048576; unfold ret; congruence.
    + norm.
      next_attr; norm;
        rewrite ?warn_warn, ?app_nil_r, ?update_empty in *;
        unfold ret; congruence.
  - unfold get_numa_info.
    next_attr; [next_int|]; norm;
      next_attr; norm;
      rewrite ?warn_warn, ?app_nil_r, ?update_singleton in *;
      unfold ret; congruence.
  - unfold get_gpu_info.
    next_attr; norm;
      next_attr; norm;
      rewrite ?warn_warn, ?app_nil_r, ?update_singleton in *;
      unfold ret; congruence.
  - unfold get_accelerator_info.
    next_attr; [next_int|]; norm;
      next_attr; norm;
      rewrite ?warn_warn, ?app_nil_r, ?update_singleton in *;
      unfold ret; congruence.
Qed.

(** ** Merging sources: the last source that defines a key wins *)

Lemma merge_none fs srcs : fold_left (merge_source fs) srcs None = None.
Proof. induction srcs as [|src srcs IH]; [done|]. simpl. apply IH. Qed.

Lemma merge_source_contributed fs info src fields :
  contributed fs src = Some fields ->
  merge_source fs (Some info) src = Some (update info fields).
Proof.
  unfold contributed, merge_source. destruct (seen fs (fst src)); [|done].
  by intros ->.
Qed.

Lemma merge_source_lookup_other fs info src info' k :
  merge_source fs (Some info) src = Some info' ->
  defines fs k src = false ->
  info' !! k = info !! k.
Proof.
  unfold merge_source, defines, contributed.
  destruct (seen fs (fst src)) as [text|]; [|congruence].
  destruct (snd src text) as [fields|]; [|done].
  intros [= <-] Hd. apply bool_decide_eq_false in Hd.
  unfold update. apply lookup_union_r.
  destruct (fields !! k) eqn:E; [|done]. exfalso. apply Hd. by eexists.
Qed.

Lemma merge_later_lookup fs later : forall info rec k,
  fold_left (merge_source fs) later (Some info) = Some rec ->
  forallb (fun src => negb (defines fs k src)) later = true ->
  rec !! k = info !! k.
Proof.
  induction later as [|src later IH]; intros info rec k Hm Hd.
  - simpl in Hm. congruence.
  - change (fold_left (merge_source fs) later
              (merge_source fs (Some info) src) = Some rec) in Hm.
    simpl in Hd.
    apply andb_true_iff in Hd as [Hsrc Hd]. apply negb_true_iff in Hsrc.
    destruct (merge_source fs (Some info) src) as [info'|] eqn:E.
    + rewrite (IH _ _ _ Hm Hd). by eapply merge_source_lookup_other.
    + by rewrite merge_none in Hm.
Qed.

Lemma merge_sources_lookup fs earlier src later rec fields k v :
  merge_sources fs (earlier ++ src :: later) = Some rec ->
  contributed fs src = Some fields ->
  fields !! k = Some v ->
  forallb (fun s => negb (defines fs k s)) later = true ->
  rec !! k = Some v.
Proof.
  unfold merge_sources. rewrite fold_left_app.
  change (fold_left (merge_source fs) (src :: later) ?a)
    with (fold_left (merge_source fs) later (merge_source fs a src)).
  destruct (fold_left (merge_source fs) earlier (Some ∅)) as [info|] eqn:E.
  - intros Hm Hc Hk Hl. rewrite (merge_source_contributed _ _ _ _ Hc) in Hm.
    rewrite (merge_later_lookup _ _ _ _ _ Hm Hl).
    unfold update. by apply lookup_union_Some_l.
  - change (merge_source fs None src) with (@None (gmap string value)).
    by rewrite merge_none.
Qed.

Lemma merge_sources_lookup_none fs srcs rec k :
  merge_sources fs srcs = Some rec ->
  forallb (fun s => negb (defines fs k s)) srcs = true ->
  rec !! k = None.
Proof.
  intros Hm Hd. by rewrite (merge_later_lookup _ _ _ _ _ Hm Hd).
Qed.

Lemma scalars_ok_merge max fs c :
  scalars_ok max fs c = true ->
  exists rec, merge_sources fs (sources max c) = Some rec.
Proof.
  unfold merge_sources, scalars_ok, int_ok, memory_ok.
  destruct c; simpl; unfold merge_source, int_field, memory_fields,
    blob_fields, text_field; simpl; rewrite ?andb_true_iff; intros Hok;
    repeat match goal with H : _ /\ _ |- _ => destruct H end;
    repeat match goal with
      | H : context [seen ?fs ?n] |- _ => destruct (seen fs n); simpl in *
      | |- context [seen ?fs ?n] => destruct (seen fs n); simpl in *
      | H : bool_decide (is_Some ?o) = true |- _ =>
          apply bool_decide_eq_true in H; destruct H as [? ->]; simpl in *
      | H : context [Py.int ?m ?t] |- _ => destruct (Py.int m t); simpl in *
      | H : context [Py.truediv_pow2 ?a ?b] |- _ =>
          destruct (Py.truediv_pow2 a b); simpl in *
      end; try discriminate; eauto.
Qed.

(** ** When an aggregation raises *)

Lemma read_attr_raises fs name w :
  graceful fs name = false -> exists e, read_attr fs name w = (Raise e, w).
Proof.
  unfold graceful. rewrite read_attr_cases.
  destruct (fs (attr_path name)) as [[]|raw]; try discriminate; eauto.
Qed.

Lemma bind_raises {A B} (m : M A) (k : A -> M B) w e w' :
  m w = (Raise e, w') -> bind m k w = (Raise e, w').
Proof. unfold bind. by intros ->. Qed.

Ltac raise_now :=
  solve [ eexists _, _; reflexivity
        | eexists _, _; rewrite ?bind_assoc; reflexivity ].

Ltac read_or_raise :=
  match goal with
  | |- context [bind (read_attr ?fs ?name) _ ?w] =>
      let G := fresh "G" in
      destruct (graceful fs name) eqn:G;
      [ rewrite read_then_if by exact G;
        let S := fresh "S" in
        destruct (seen fs name) as [?text|] eqn:S
      | let e := fresh "e" in let He := fresh "He" in
        destruct (read_attr_raises fs name w G) as [e He];
        exists e, w; apply bind_raises; exact He ]
  end.

Ltac int_or_raise :=
  unfold int_of;
  match goal with
  | |- context [Py.int ?m ?t] =>
      let I := fresh "I" in
      destruct (Py.int m t) as [?n|] eqn:I;
      [ norm | raise_now ]
  end.

Lemma aggregate_raises max fs c w :
  forallb (graceful fs) (names max c) && scalars_ok max fs c = false ->
  exists e w', aggregate max fs c w = (Raise e, w').
Proof.
  unfold names, scalars_ok, int_ok, memory_ok.
  destruct c; simpl; intros Hbad.
  - unfold get_cpu_info.
    read_or_raise; [int_or_raise|norm];
      (read_or_raise; [int_or_raise|norm]);
      (read_or_raise; norm); (read_or_raise; norm);
      exfalso; rewrite ?G, ?G0, ?G1, ?G2, ?S, ?S0, ?I, ?I0 in Hbad;
      simpl in Hbad; repeat case_bool_decide; simpl in *; try done;
      match goal with H : ¬ is_Some _ |- _ => apply H; eauto end.
  - unfold get_memory_info.
    read_or_raise.
    + int_or_raise. unfold lift.
      destruct (Py.truediv_pow2 n 30) as [e|g] eqn:D; [raise_now|].
      simpl; norm. read_or_raise; norm;
        exfalso; rewrite ?G, ?G0, ?S, ?I, ?D in Hbad; simpl in Hbad; done.
    + norm. read_or_raise; norm;
        exfalso; rewrite ?G, ?G0, ?S in Hbad; simpl in Hbad; done.
  - unfold get_numa_info.
    read_or_raise; [int_or_raise|norm]; (read_or_raise; norm);
      exfalso; rewrite ?G, ?G0, ?S, ?I in Hbad;
      simpl in Hbad; repeat case_bool_decide; simpl in *; try done;
      match goal with H : ¬ is_Some _ |- _ => apply H; eauto end.
  - unfold get_gpu_info.
    read_or_raise; norm; (read_or_raise; norm);
      exfalso; rewrite ?G, ?G0 in Hbad; simpl in Hbad; done.
  - unfold get_accelerator_info.
    read_or_raise; [int_or_raise|norm]; (read_or_raise; norm);
      exfalso; rewrite ?G, ?G0, ?S, ?I in Hbad;
      simpl in Hbad; repeat case_bool_decide; simpl in *; try done;
      match goal with H : ¬ is_Some _ |- _ => apply H; eauto end.
Qed.

Lemma aggregate_merges max fs c w :
  forallb (graceful fs) (names max c) = true ->
  scalars_ok max fs c = true ->
  exists rec,
    merge_sources fs (sources max c) = Some rec
    /\ aggregate max fs c w = (Ok rec, warn w (diagnostics fs (names max c))).
Proof.
  intros Hg Hok. destruct (scalars_ok_merge _ _ _ Hok) as [rec Hrec].
  exists rec. split; [done|]. by apply aggregate_refines.
Qed.

(** An aggregation returns a record exactly when its reads are graceful
    and its scalar attributes are well formed; the record is then the
    merge of its sources. *)
Lemma aggregate_returns max fs c w rec w' :
  aggregate max fs c w = (Ok rec, w') ->
  forallb (graceful fs) (names max c) = true
  /\ scalars_ok max fs c = true
  /\ merge_sources fs (sources max c) = Some rec.
Proof.
  intros Hret.
  destruct (forallb (graceful fs) (names max c) && scalars_ok max fs c) eqn:E.
  - apply andb_true_iff in E as [Hg Hok].
    destruct (aggregate_merges max fs c w Hg Hok) as (rec' & Hrec & Hagg).
    rewrite Hagg in Hret. injection Hret as -> _. done.
  - destruct (aggregate_raises max fs c w E) as (e & w'' & Hraise).
    congruence.
Qed.

(** ** The key=value parser *)

Lemma contains_split_once sep s :
  Py.contains sep s = false -> Py.split_once sep s = None.
Proof.
  induction s as [|c r IH]; simpl; [done|].
  destruct (Ascii.eqb c sep); simpl; [done|].
  intros H. by rewrite (IH H).
Qed.

Lemma parse_line_key_value max result l :
  parse_line max result l =
    match key_value_of l with
    | Some (k, v) => <[ k := convert max v ]> result
    | None => result
    end.
Proof.
  unfold parse_line, key_value_of.
  destruct (Py.contains "=" (Py.strip l)) eqn:E; [done|].
  by rewrite (contains_split_once _ _ E).
Qed.

Lemma parse_lines_lookup max lines : forall acc k,
  fold_left (parse_line max) lines acc !! k =
    match last_value lines k with
    | Some v => Some (convert max v)
    | None => acc !! k
    end.
Proof.
  induction lines as [|l rest IH]; intros acc k; [done|].
  change (fold_left (parse_line max) (l :: rest) acc)
    with (fold_left (parse_line max) rest (parse_line max acc l)).
  rewrite IH. simpl. destruct (last_value rest k) as [v|]; [done|].
  rewrite parse_line_key_value.
  destruct (key_value_of l) as [[k' v]|]; [|done].
  destruct (String.eqb_spec k' k) as [->|Hne].
  - by rewrite lookup_insert_eq.
  - by rewrite lookup_insert_ne.
Qed.

Lemma parse_key_value_lookup max content k :
  parse_key_value max content !! k =
    convert max <$> last_value (Py.split "010" content) k.
Proof.
  unfold parse_key_value. rewrite parse_lines_lookup.
  by destruct (last_value _ k).
Qed.

Lemma last_value_none lines k :
  (forall j l v, lines !! j = Some l -> key_value_of l <> Some (k, v)) ->
  last_value lines k = None.
Proof.
  induction lines as [|l rest IH]; intros H; [done|]. simpl.
  rewrite IH.
  - destruct (key_value_of l) as [[k' v]|] eqn:E; [|done].
    destruct (String.eqb_spec k' k) as [->|]; [|done].
    exfalso. by apply (H 0%nat l v).
  - intros j l' v Hj. by apply (H (S j) l' v).
Qed.

Lemma last_value_at lines : forall i l k v,
  lines !! i = Some l ->
  key_value_of l = Some (k, v) ->
  (forall j l' v', (i < j)%nat -> lines !! j = Some l' ->
                   key_value_of l' <> Some (k, v')) ->
  last_value lines k = Some v.
Proof.
  induction lines as [|l0 rest IH]; intros i l k v Hi Hkv Hlater; [done|].
  destruct i as [|i]; simpl in Hi |- *.
  - injection Hi as ->. rewrite last_value_none.
    + by rewrite Hkv, String.eqb_refl.
    + intros j l' v' Hj. apply (Hlater (S j) l' v'); [lia|done].
  - rewrite (IH i l k v Hi Hkv); [done|].
    intros j l' v' Hlt Hj. apply (Hlater (S j) l' v'); [lia|done].
Qed.

(** ** The syntax accepted by [int] *)

Lemma is_digit_value c :
  Py.is_digit c = true -> exists d, Py.digit_value c = Some d.
Proof. unfold Py.is_digit. destruct (Py.digit_value c); [eauto|done]. Qed.

Lemma digit_not_underscore c :
  Py.is_digit c = true -> Py.is_underscore c = false.
Proof.
  unfold Py.is_underscore. destruct (Ascii.eqb_spec c "_") as [->|]; [|done].
  by vm_compute.
Qed.

Lemma digit_not_sign c :
  Py.is_digit c = true -> Ascii.eqb c "-" = false /\ Ascii.eqb c "+" = false.
Proof.
  destruct (Ascii.eqb_spec c "-") as [->|]; [by vm_compute|].
  destruct (Ascii.eqb_spec c "+") as [->|]; [by vm_compute|done].
Qed.

Lemma underscore_not_digit c :
  Py.is_underscore c = true -> Py.digit_value c = None.
Proof.
  unfold Py.is_underscore. by destruct (Ascii.eqb_spec c "_") as [->|].
Qed.

Lemma int_space_codes_spec c :
  Py.is_int_space c = true ->
  In (N_of_ascii c) Py.int_space_codes.
Proof.
  unfold Py.is_int_space, Py.code_in. rewrite existsb_exists.
  intros (n & Hin & Heq). apply N.eqb_eq in Heq. by subst.
Qed.

Lemma int_space_not_literal c :
  Py.is_int_space c = true ->
  Py.digit_value c = None /\ Py.is_underscore c = false
  /\ Ascii.eqb c "-" = false /\ Ascii.eqb c "+" = false.
Proof.
  intros H. apply int_space_codes_spec in H.
  rewrite <- (ascii_N_embedding c).
  simpl in H.
  repeat (destruct H as [<-|H]; [by vm_compute|]). done.
Qed.

Import Syntax.

Lemma scan_stops acc count s :
  stops s -> Py.scan_digits false acc count s = Some (acc, count, s).
Proof.
  destruct s as [|c r]; simpl; [done|]. intros [-> ->]. done.
Qed.

(** Completeness of the scan: a run of digits followed by a text at
    which the scan stops is read whole. *)
Lemma scan_run_tail body :
  run_tail body ->
  forall acc count trail,
    stops trail ->
    Py.scan_digits false acc count (body ++ trail)
      = Some (digits_value acc body, (count + digits_count body)%nat, trail).
Proof.
  induction 1 as [|c s Hc _ IH|c s Hc _ IH]; intros acc count trail Hstop.
  - simpl. rewrite Nat.add_0_r. by apply scan_stops.
  - simpl. rewrite (digit_not_underscore _ Hc), Hc.
    destruct (is_digit_value _ Hc) as [d Hd]. rewrite Hd.
    rewrite (IH _ _ _ Hstop). do 3 f_equal. lia.
  - simpl. rewrite (digit_not_underscore _ Hc), Hc.
    destruct (is_digit_value _ Hc) as [d Hd]. rewrite Hd.
    rewrite (IH _ _ _ Hstop). do 3 f_equal. lia.
Qed.

Lemma digit_run_tail body : digit_run body -> run_tail body.
Proof. destruct 1. by apply tail_digit. Qed.

Lemma digit_run_count body : digit_run body -> digits_count body <> 0%nat.
Proof. destruct 1 as [c s Hc _]. simpl. by rewrite Hc. Qed.

Lemma digit_run_head body :
  digit_run body -> exists c s, body = String c s /\ Py.is_digit c = true.
Proof. destruct 1 as [c s Hc _]. eauto. Qed.

Lemma all_int_space_stops s : Py.all_int_space s = true -> stops s.
Proof.
  destruct s as [|c r]; simpl; [done|].
  intros [Hc _]%andb_true_iff. by destruct (int_space_not_literal _ Hc) as (? & ? & _).
Qed.

Lemma skip_lead lead rest :
  Py.all_int_space lead = true ->
  Py.skip_int_space rest = rest ->
  Py.skip_int_space (lead ++ rest) = rest.
Proof.
  induction lead as [|c r IH]; simpl; [done|].
  intros [-> Hr]%andb_true_iff Hrest. by apply IH.
Qed.

Lemma skip_spec s :
  exists lead, s = (lead ++ Py.skip_int_space s)%string
               /\ Py.all_int_space lead = true.
Proof.
  induction s as [|c r (lead & Hr & Hl)]; simpl.
  - by exists "".
  - destruct (Py.is_int_space c) eqn:E.
    + exists (String c lead). split.
      * change (String c r = String c (lead ++ Py.skip_int_space r)).
        by f_equal.
      * simpl. by rewrite E.
    + by exists "".
Qed.

(** Soundness of the scan: what it reads is a run of digits. *)
Lemma scan_sound s : forall prev acc count n count' rest,
  Py.scan_digits prev acc count s = Some (n, count', rest) ->
  exists body,
    s = (body ++ rest)%string
    /\ n = digits_value acc body
    /\ count' = (count + digits_count body)%nat
    /\ stops rest
    /\ (if prev then digit_run body else run_tail body).
Proof.
  induction s as [|c r IH]; intros prev acc count n count' rest Hscan;
    simpl in Hscan.
  - destruct prev; [done|]. injection Hscan as <- <- <-.
    exists "". simpl. rewrite Nat.add_0_r. repeat split; constructor.
  - destruct (Py.is_underscore c) eqn:Hus.
    + destruct prev; [done|].
      apply IH in Hscan as (body & -> & -> & -> & Hstop & Hrun).
      apply Ascii.eqb_eq in Hus as ->.
      exists (String "_" body). simpl. repeat split; try done.
      destruct Hrun as [c s Hc Hs]. by apply tail_sep.
    + destruct (Py.digit_value c) as [d|] eqn:Hd.
      * apply IH in Hscan as (body & -> & -> & -> & Hstop & Hrun).
        assert (Hc : Py.is_digit c = true) by (unfold Py.is_digit; by rewrite Hd).
        exists (String c body). simpl. rewrite Hd, Hc.
        repeat split; try done; try lia.
        destruct prev; by constructor.
      * destruct prev; [done|]. injection Hscan as <- <- <-.
        exists "". simpl. rewrite Nat.add_0_r, Hd, Hus.
        repeat split; constructor.
Qed.

Lemma split_sign_spec s negative rest :
  Py.split_sign s = (negative, rest) ->
  exists sg, s = (sg ++ rest)%string /\ sign sg negative.
Proof.
  unfold Py.split_sign. destruct s as [|c r].
  - intros [= <- <-]. exists "". split; [done|constructor].
  - destruct (Ascii.eqb_spec c "-") as [->|Hm].
    + intros [= <- <-]. exists "-". split; [done|constructor].
    + destruct (Ascii.eqb_spec c "+") as [->|Hp].
      * intros [= <- <-]. exists "+". split; [done|constructor].
      * intros [= <- <-]. exists "". split; [done|constructor].
Qed.

(** [int] accepts exactly the literals of [int_literal], with their value. *)
Lemma int_complete max v n : int_literal max v n -> Py.int max v = Some n.
Proof.
  intros (lead & sg & negative & body & trail & -> & Hlead & Hsg & Hrun
          & Htrail & Hlimit & ->).
  destruct (digit_run_head _ Hrun) as (c & s & -> & Hc).
  destruct (digit_not_sign _ Hc) as [Hminus Hplus].
  assert (Hnospace : Py.is_int_space c = false).
  { destruct (Py.is_int_space c) eqn:E; [|done].
    destruct (int_space_not_literal _ E) as (Hd & _).
    destruct (is_digit_value _ Hc) as [d Hd']. congruence. }
  unfold Py.int.
  assert (Hsplit : Py.split_sign (Py.skip_int_space
                     (lead ++ sg ++ String c s ++ trail))
                   = (negative, (String c s ++ trail)%string)).
  { rewrite skip_lead; [|done|].
    - destruct Hsg; simpl; by rewrite ?Hminus, ?Hplus.
    - destruct Hsg; simpl; by rewrite ?Hnospace. }
  rewrite Hsplit.
  change (Py.starts_with_underscore (String c s ++ trail))
    with (Py.is_underscore c).
  rewrite (digit_not_underscore _ Hc).
  rewrite (scan_run_tail _ (digit_run_tail _ Hrun) 0 0%nat trail
             (all_int_space_stops _ Htrail)).
  rewrite Nat.add_0_l.
  destruct (Nat.eqb_spec (digits_count (String c s)) 0) as [E|_].
  { by apply digit_run_count in Hrun. }
  by rewrite Hlimit, Htrail.
Qed.

Lemma int_sound max v n : Py.int max v = Some n -> int_literal max v n.
Proof.
  unfold Py.int. destruct (skip_spec v) as (lead & Hv & Hlead).
  destruct (Py.split_sign (Py.skip_int_space v)) as [negative s] eqn:Hsign.
  apply split_sign_spec in Hsign as (sg & Hs & Hsg).
  destruct (Py.starts_with_underscore s) eqn:Hus; [done|].
  destruct (Py.scan_digits false 0 0%nat s) as [[[m count] rest]|] eqn:Hscan;
    [|done].
  destruct (Nat.eqb_spec count 0) as [|Hcount]; [done|].
  destruct (Py.exceeds_limit max count) eqn:Hlimit; [done|].
  destruct (Py.all_int_space rest) eqn:Htrail; [|done].
  intros [= <-].
  apply scan_sound in Hscan as (body & -> & -> & -> & _ & Hrun).
  simpl in Hcount.
  exists lead, sg, negative, body, rest.
  split; [by rewrite <- Hs|]. split; [done|]. split; [done|].
  split; [|done].
  destruct Hrun as [|c s Hc Hs'|c s Hc Hs'].
  - done.
  - by constructor.
  - simpl in Hus. done.
Qed.

Lemma int_literal_iff max v n : Py.int max v = Some n <-> int_literal max v n.
Proof. split; [apply int_sound|apply int_complete]. Qed.

Lemma all_digits_run_tail s : all_digits s = true -> run_tail s.
Proof.
  induction s as [|c r IH]; simpl; [constructor|].
  intros [Hc Hr]%andb_true_iff. constructor; auto.
Qed.

Lemma append_empty_r s : (s ++ "")%string = s.
Proof.
  induction s as [|c r IH]; [done|].
  change (String c (r ++ "") = String c r). by rewrite IH.
Qed.

(** The strict syntax of the specification is part of what [int]
    accepts. *)
Lemma strict_int_literal max v :
  strict_int v = true ->
  Py.exceeds_limit max (digits_count v) = false ->
  int_literal max v (strict_value v).
Proof.
  unfold strict_int, strict_value. intros Hstrict Hlimit.
  destruct v as [|c r]; [done|].
  destruct (Ascii.eqb_spec c "-") as [->|Hne].
  - apply andb_true_iff in Hstrict as [Hr Hd].
    destruct r as [|c' r']; [done|]. simpl in Hd.
    apply andb_true_iff in Hd as [Hc' Hd].
    exists "", "-", true, (String c' r'), "".
    split; [by rewrite append_empty_r|]. split; [done|].
    split; [constructor|].
    split; [constructor; [done|by apply all_digits_run_tail]|].
    split; [done|]. split; [|done]. exact Hlimit.
  - simpl in Hstrict. apply andb_true_iff in Hstrict as [Hc Hd].
    exists "", "", false, (String c r), "".
    split; [by rewrite append_empty_r|]. split; [done|].
    split; [constructor|].
    split; [constructor; [done|by apply all_digits_run_tail]|].
    split; [done|]. split; [|done]. exact Hlimit.
Qed.

Lemma convert_cases max v :
  (forall n, convert max v = VInt n <-> int_literal max v n)
  /\ (convert max v = VStr v <-> forall n, ~ int_literal max v n).
Proof.
  unfold convert. split.
  - intros n. rewrite <- int_literal_iff.
    destruct (Py.int max v); split; congruence.
  - split.
    + intros H n Hn%int_literal_iff. rewrite Hn in H. done.
    + intros H. destruct (Py.int max v) as [n|] eqn:E; [|done].
      exfalso. by apply (H n), int_literal_iff.
Qed.

(** [split_once] cuts at the first separator. *)
Lemma split_once_spec sep s a b :
  Py.split_once sep s = Some (a, b)
  <-> s = (a ++ String sep b)%string /\ Py.contains sep a = false.
Proof.
  revert a b. induction s as [|c r IH]; intros a b; simpl.
  - split; [done|]. intros [H _]. by destruct a.
  - destruct (Ascii.eqb_spec c sep) as [->|Hne].
    + split.
      * by intros [= <- <-].
      * intros [H Ha]. destruct a as [|c' a'].
        -- by injection H as ->.
        -- injection H as <- _. simpl in Ha.
           by rewrite Ascii.eqb_refl in Ha.
    + destruct (Py.split_once sep r) as [[a' b']|].
      * split.
        -- intros [= <- <-]. destruct (proj1 (IH a' b') eq_refl) as [-> Ha].
           simpl. split; [done|]. apply Ascii.eqb_neq in Hne. by rewrite Hne.
        -- intros [H Ha]. destruct a as [|c' a''].
           ++ injection H as -> _. done.
           ++ injection H as <- Hr. simpl in Ha.
              apply orb_false_iff in Ha as [_ Ha].
              by injection (proj2 (IH a'' b) (conj Hr Ha)) as -> ->.
      * split; [done|]. intros [H Ha]. destruct a as [|c' a''].
        -- injection H as -> _. done.
        -- injection H as <- Hr. simpl in Ha.
           apply orb_false_iff in Ha as [_ Ha].
           by pose proof (proj2 (IH a'' b) (conj Hr Ha)).
Qed.

Lemma key_value_of_spec l k v :
  key_value_of l = Some (k, v)
  <-> Py.strip l = (k ++ "=" ++ v)%string /\ Py.contains "=" k = false.
Proof. unfold key_value_of. apply split_once_spec. Qed.

(** [C1, amended] For every line of the text whose stripped form is
    [k=v], cut at the first [=], and after which no line has the key [k]
    again: [parse_key_value] maps [k] to an integer exactly when [v] is a
    literal accepted by [int] (blanks, an optional sign [+] or [-],
    digits with single underscores between them, within the
    interpreter's limit), and then to its value; it maps [k] to the text
    [v] itself exactly when [v] is no such literal.  Every [v] of the
    strict syntax [^-?[0-9]+$] within the limit is mapped to its integer
    value. *)
Theorem parse_key_value_line max content i l k v :
  Py.split "010" content !! i = Some l ->
  Py.strip l = (k ++ "=" ++ v)%string ->
  Py.contains "=" k = false ->
  (forall j l' v', (i < j)%nat -> Py.split "010" content !! j = Some l' ->
                   Py.strip l' <> (k ++ "=" ++ v')%string) ->
  (forall n, parse_key_value max content !! k = Some (VInt n)
             <-> Syntax.int_literal max v n)
  /\ (parse_key_value max content !! k = Some (VStr v)
      <-> forall n, ~ Syntax.int_literal max v n)
  /\ (Syntax.strict_int v = true ->
      Py.exceeds_limit max (Syntax.digits_count v) = false ->
      parse_key_value max content !! k = Some (VInt (Syntax.strict_value v))).
Proof.
  intros Hi Hl Hk Hlater.
  assert (Hlast : last_value (Py.split "010" content) k = Some v).
  { apply (last_value_at _ i l); [done|by apply key_value_of_spec|].
    intros j l' v' Hj Hl' [H _]%key_value_of_spec. by apply (Hlater j l' v'). }
  rewrite parse_key_value_lookup, Hlast. simpl.
  destruct (convert_cases max v) as [Hint Hstr].
  split; [|split].
  - intros n. rewrite <- Hint. split; congruence.
  - rewrite <- Hstr. split; congruence.
  - intros Hstrict Hlimit. f_equal. apply Hint.
    by apply strict_int_literal.
Qed.

Lemma parse_key_value_line_witness :
  parse_key_value default_max_str_digits Examples.repeated_key !! "a"
  = Some (VInt 2).
Proof.
  apply (proj1 (parse_key_value_line default_max_str_digits
                  Examples.repeated_key 2 "a=+2" "a" "+2"
                  eq_refl eq_refl eq_refl
                  ltac:(intros j l' v' Hj Hl';
                        do 3 (destruct j as [|j]; [lia|]);
                        vm_compute in Hl'; destruct j; discriminate)) 2).
  exists "", "+", false, "2", "".
  split; [reflexivity|]. split; [reflexivity|]. split; [constructor|].
  split; [repeat constructor|]. split; [reflexivity|].
  split; reflexivity.
Defined.

(** [C1, as stated] The value [+5] does not match [^-?[0-9]+$], and yet
    [parse_key_value] maps its key to the integer 5. *)
Lemma parse_key_value_not_strict :
  key_value_of "k=+5" = Some ("k", "+5")
  /\ Syntax.strict_int "+5" = false
  /\ parse_key_value default_max_str_digits "k=+5" !! "k" = Some (VInt 5).
Proof. split; [|split]; by vm_compute. Qed.

(** ** The summary *)

(** [C6, amended] [get_system_summary] returns the text that [read_attr]
    yields for [system_summary] (the contents, stripped, with no parsing)
    when that text is not empty; it returns the fallback text when the
    attribute is missing, denied, or present with contents that strip to
    the empty text. *)
Theorem get_system_summary_cases fs w :
  (forall raw, fs (attr_path "system_summary") = inr raw ->
     Py.strip raw <> "" ->
     get_system_summary fs w = (Ok (Py.strip raw), w))
  /\ (forall raw, fs (attr_path "system_summary") = inr raw ->
      Py.strip raw = "" ->
      get_system_summary fs w = (Ok "Summary not available", w))
  /\ (fs (attr_path "system_summary") = inl Py.FileNotFoundError ->
      get_system_summary fs w = (Ok "Summary not available", w))
  /\ (fs (attr_path "system_summary") = inl Py.PermissionError ->
      get_system_summary fs w =
        (Ok "Summary not available",
         warn w [[Text "Permission denied reading system_summary"]])).
Proof.
  unfold get_system_summary, bind. rewrite read_attr_cases.
  split; [|split; [|split]].
  - intros raw -> Hne. simpl. by destruct (Py.strip raw).
  - by intros raw -> ->.
  - by intros ->.
  - by intros ->.
Qed.

Lemma get_system_summary_cases_witness :
  get_system_summary Examples.fs_summary quiet = (Ok "8 CPUs", quiet).
Proof.
  apply (proj1 (get_system_summary_cases Examples.fs_summary quiet)
               (" 8 CPUs " ++ newline)%string).
  - reflexivity.
  - vm_compute. discriminate.
Defined.

(** [C6, as stated] The attribute is present, its text is empty, and the
    summary is not that text but the fallback. *)
Lemma get_system_summary_blank :
  read_attr Examples.fs_summary_blank "system_summary" quiet
  = (Ok (Some ""), quiet)
  /\ get_system_summary Examples.fs_summary_blank quiet
     = (Ok "Summary not available", quiet).
Proof. split; by vm_compute. Qed.

(** ** Every attribute absent *)

Lemma absent_graceful fs name :
  fs (attr_path name) = inl Py.FileNotFoundError ->
  graceful fs name = true /\ seen fs name = None /\ diagnostic fs name = [].
Proof. unfold graceful, seen, diagnostic. by intros ->. Qed.

Lemma bind_ok {A B} (m : M A) (k : A -> M B) w a w' :
  m w = (Ok a, w') -> bind m k w = k a w'.
Proof. unfold bind. by intros ->. Qed.

(** An aggregation that sees no attribute returns the empty record. *)
Lemma aggregate_unseen max fs c w :
  (forall name, In name (names max c) ->
     graceful fs name = true /\ seen fs name = None
     /\ diagnostic fs name = []) ->
  aggregate max fs c w = (Ok ∅, w).
Proof.
  unfold names. intros Hall.
  rewrite (aggregate_refines max fs c ∅ w).
  - f_equal. rewrite <- (warn_nil w) at 2. f_equal. unfold diagnostics.
    induction (map fst (sources max c)) as [|name l IH]; [done|]. simpl.
    rewrite (proj2 (proj2 (Hall name (or_introl eq_refl)))). simpl.
    apply IH. intros n Hn. apply Hall. by right.
  - apply forallb_forall. intros name Hin. by apply Hall.
  - unfold merge_sources.
    assert (Hsrc : forall src, In src (sources max c) -> seen fs (fst src) = None).
    { intros src Hin. apply Hall. by apply in_map. }
    clear Hall. induction (sources max c) as [|src l IH]; [done|]. simpl.
    rewrite (Hsrc src (or_introl eq_refl)). apply IH.
    intros s Hs. apply Hsrc. by right.
Qed.

Lemma names_attributes max c name :
  In name (names max c) -> In name attributes.
Proof. destruct c; unfold names, attributes; simpl; tauto. Qed.

Lemma aggregate_absent max fs c w :
  (forall name, In name attributes ->
                fs (attr_path name) = inl Py.FileNotFoundError) ->
  aggregate max fs c w = (Ok ∅, w).
Proof.
  intros Habsent. apply aggregate_unseen. intros name Hin.
  by apply absent_graceful, Habsent, (names_attributes max c).
Qed.

(** [C8] With every attribute absent, [get_all_info] returns, without
    an exception and without output, the dict whose keys are exactly the
    five category names, each with the empty record. *)
Theorem get_all_info_absent max fs w :
  (forall name, In name attributes ->
                fs (attr_path name) = inl Py.FileNotFoundError) ->
  exists all : gmap string (gmap string value),
    get_all_info max fs w = (Ok all, w)
    /\ dom all = list_to_set ["cpu"; "memory"; "numa"; "gpu"; "accelerator"]
    /\ forall c, c ∈ dom all -> all !! c = Some ∅.
Proof.
  intros Habsent. eexists. split; [|split].
  - unfold get_all_info.
    rewrite (bind_ok _ _ _ _ _ (aggregate_absent max fs CPU w Habsent)).
    rewrite (bind_ok _ _ _ _ _ (aggregate_absent max fs Memory w Habsent)).
    rewrite (bind_ok _ _ _ _ _ (aggregate_absent max fs NUMA w Habsent)).
    rewrite (bind_ok _ _ _ _ _ (aggregate_absent max fs GPU w Habsent)).
    rewrite (bind_ok _ _ _ _ _ (aggregate_absent max fs Accelerator w Habsent)).
    reflexivity.
  - rewrite !dom_insert_L, dom_empty_L. simpl. set_solver.
  - intros c Hc. rewrite !dom_insert_L, dom_empty_L in Hc.
    rewrite !elem_of_union, !elem_of_singleton in Hc.
    destruct Hc as [->|[->|[->|[->|[->|Hc]]]]]; try done.
Qed.

Lemma get_all_info_absent_witness :
  exists all : gmap string (gmap string value),
    get_all_info default_max_str_digits Examples.fs_empty quiet = (Ok all, quiet)
    /\ dom all = list_to_set ["cpu"; "memory"; "numa"; "gpu"; "accelerator"]
    /\ forall c, c ∈ dom all -> all !! c = Some ∅.
Proof.
  apply (get_all_info_absent default_max_str_digits Examples.fs_empty quiet).
  intros name _. reflexivity.
Defined.

(** ** Blank attributes are treated like absent ones *)

Lemma read_attr_blank fs fs' name w :
  blanks_removed fs fs' ->
  read_attr fs' name w = read_attr fs name w
  \/ (read_attr fs name w = (Ok (Some ""), w)
      /\ read_attr fs' name w = (Ok None, w)).
Proof.
  intros Hb. rewrite !read_attr_cases.
  destruct (Hb (attr_path name)) as [->|(raw & -> & -> & ->)]; [by left|].
  by right.
Qed.

Lemma read_then_if_blank fs fs' name {A B}
    (f : string -> M A) (g : M A) (k k' : A -> M B) w :
  blanks_removed fs fs' ->
  (forall a w', k a w' = k' a w') ->
  bind (read_attr fs name) (fun x => bind (if_text x f g) k) w
  = bind (read_attr fs' name) (fun x => bind (if_text x f g) k') w.
Proof.
  intros Hb Hk. unfold bind at 1 3.
  destruct (read_attr_blank fs fs' name w Hb) as [->|[-> ->]].
  - destruct (read_attr fs name w) as [[x|e] w']; [|done].
    unfold bind. destruct (if_text x f g w') as [[a|e] w'']; [|done]. apply Hk.
  - simpl. unfold bind. destruct (g w) as [[a|e] w'']; [|done]. apply Hk.
Qed.

Ltac blank_step Hb :=
  apply read_then_if_blank; [exact Hb|]; intros ? ?; cbv beta.

Lemma aggregate_blank max fs fs' c w :
  blanks_removed fs fs' ->
  aggregate max fs c w = aggregate max fs' c w.
Proof.
  intros Hb.
  destruct c; simpl;
    [unfold get_cpu_info|unfold get_memory_info|unfold get_numa_info
    |unfold get_gpu_info|unfold get_accelerator_info];
    repeat blank_step Hb; reflexivity.
Qed.

Lemma bind_congr {A B} (m m' : M A) (k k' : A -> M B) w :
  (forall w', m w' = m' w') -> (forall a w', k a w' = k' a w') ->
  bind m k w = bind m' k' w.
Proof.
  intros Hm Hk. unfold bind. rewrite Hm.
  destruct (m' w) as [[a|e] w']; [apply Hk|done].
Qed.

Lemma blank_unseen fs name raw :
  fs (attr_path name) = inr raw -> Py.strip raw = "" ->
  graceful fs name = true /\ seen fs name = None /\ diagnostic fs name = [].
Proof. unfold graceful, seen, diagnostic. by intros -> ->. Qed.

(** [C10] A file whose contents strip to the empty text is treated like
    a missing file: removing such files changes the result (and the
    output) of no aggregation and not the summary; in particular the
    summary of a blank [system_summary] is the fallback text, and an
    aggregation whose attributes are all blank returns the empty
    record. *)
Theorem blank_is_absent max fs fs' w :
  blanks_removed fs fs' ->
  (forall c, aggregate max fs c w = aggregate max fs' c w)
  /\ get_system_summary fs w = get_system_summary fs' w
  /\ get_all_info max fs w = get_all_info max fs' w
  /\ (forall raw, fs (attr_path "system_summary") = inr raw ->
        Py.strip raw = "" ->
        get_system_summary fs w = (Ok "Summary not available", w))
  /\ (forall c,
        (forall name, In name (names max c) ->
           exists raw, fs (attr_path name) = inr raw /\ Py.strip raw = "") ->
        aggregate max fs c w = (Ok ∅, w)).
Proof.
  intros Hb. split; [|split; [|split; [|split]]].
  - intros c. by apply aggregate_blank.
  - unfold get_system_summary, bind.
    by destruct (read_attr_blank fs fs' "system_summary" w Hb) as [->|[-> ->]].
  - unfold get_all_info.
    apply bind_congr; [apply (fun w' => aggregate_blank max fs fs' CPU w' Hb)|].
    intros cpu w1.
    apply bind_congr; [apply (fun w' => aggregate_blank max fs fs' Memory w' Hb)|].
    intros memory w2.
    apply bind_congr; [apply (fun w' => aggregate_blank max fs fs' NUMA w' Hb)|].
    intros numa w3.
    apply bind_congr; [apply (fun w' => aggregate_blank max fs fs' GPU w' Hb)|].
    intros gpu w4.
    apply bind_congr;
      [apply (fun w' => aggregate_blank max fs fs' Accelerator w' Hb)|].
    done.
  - intros raw Hraw Hblank. unfold get_system_summary, bind.
    rewrite read_attr_cases, Hraw, Hblank. reflexivity.
  - intros c Hall. apply aggregate_unseen. intros name Hin.
    destruct (Hall name Hin) as (raw & Hraw & Hblank).
    by apply (blank_unseen fs name raw).
Qed.

Lemma blank_is_absent_witness :
  get_cpu_info default_max_str_digits Examples.fs_count_blank quiet
  = get_cpu_info default_max_str_digits Examples.fs_count_removed quiet.
Proof.
  apply (proj1 (blank_is_absent default_max_str_digits
                  Examples.fs_count_blank Examples.fs_count_removed quiet
    ltac:(intros p; unfold Examples.fs_count_removed;
          case_bool_decide as Hp;
          [right; subst p; exists " "; vm_compute; auto | left; reflexivity]))
    CPU).
Defined.

(** ** The path that [read_attr] opens *)

Lemma split_no_separator sep s :
  Py.contains sep s = false -> Py.split sep s = [s].
Proof.
  induction s as [|c r IH]; simpl; [done|].
  destruct (Ascii.eqb c sep); simpl; [done|].
  intros H. by rewrite (IH H).
Qed.

Lemma is_prefix_app p q : is_prefix p (p ++ q) = true.
Proof.
  induction p as [|a p IH]; simpl; [done|]. by rewrite String.eqb_refl.
Qed.

Lemma attr_path_plain name :
  Py.contains "/" name = false ->
  attr_path name =
    NEUROSHELL_PATH ++
      (if String.eqb name "" || String.eqb name "." then [] else [name]).
Proof.
  intros H. unfold attr_path, path_join, path_parts.
  rewrite (split_no_separator _ _ H).
  assert (Habs : is_absolute name = false).
  { destruct name as [|c r]; [done|]. simpl in H |- *.
    apply orb_false_iff in H as [H _].
    destruct (Ascii.eqb_spec c "/") as [->|Hne]; [done|].
    destruct c as [[] [] [] [] [] [] [] []]; try done. }
  rewrite Habs. simpl.
  by destruct (String.eqb name "" || String.eqb name ".").
Qed.

(** [C9, amended] [read_attr] opens the path [NEUROSHELL_PATH / name]
    and nothing else: its result depends on the file system at that path
    only.  The name is not examined.  For a name without a path
    separator, other than [..], that path is the base directory or an
    entry of it; each attribute name that the class itself uses denotes
    the entry of that name. *)
Theorem read_attr_path :
  (forall fs fs' name w,
     fs (attr_path name) = fs' (attr_path name) ->
     read_attr fs name w = read_attr fs' name w)
  /\ (forall name,
        Py.contains "/" name = false -> name <> ".." ->
        inside_base (attr_path name) = true)
  /\ (forall name,
        In name attributes ->
        resolve (attr_path name) = NEUROSHELL_PATH ++ [name]).
Proof.
  split; [|split].
  - intros fs fs' name w H. rewrite !read_attr_cases. by rewrite H.
  - intros name Hsep Hne. rewrite (attr_path_plain _ Hsep).
    unfold inside_base.
    destruct (String.eqb name "" || String.eqb name "."); [done|].
    unfold resolve, NEUROSHELL_PATH. simpl.
    destruct (String.eqb_spec name ".."); [done|]. reflexivity.
  - intros name Hin. unfold attributes in Hin. simpl in Hin.
    repeat (destruct Hin as [<-|Hin]; [reflexivity|]). done.
Qed.

Lemma read_attr_path_witness :
  inside_base (attr_path "cpu_count") = true.
Proof.
  apply (proj1 (proj2 read_attr_path) "cpu_count").
  - reflexivity.
  - discriminate.
Defined.

(** [C9, as stated] A name with path separators is neither rejected nor
    sanitized: a relative name with [..] components, or an absolute
    name, makes [read_attr] return the contents of a file outside the
    base directory. *)
Lemma read_attr_traversal :
  Py.contains "/" "../../../etc/passwd" = true
  /\ inside_base (attr_path "../../../etc/passwd") = false
  /\ read_attr Examples.fs_passwd "../../../etc/passwd" quiet
     = (Ok (Some "root:x:0:0"), quiet)
  /\ inside_base (attr_path "/etc/passwd") = false
  /\ read_attr Examples.fs_passwd "/etc/passwd" quiet
     = (Ok (Some "root:x:0:0"), quiet).
Proof. repeat split; by vm_compute. Qed.

(** ** Memory: the derived fields *)

Lemma seen_graceful fs name text :
  seen fs name = Some text ->
  graceful fs name = true /\ diagnostic fs name = [].
Proof.
  unfold seen, graceful, diagnostic.
  by destruct (fs (attr_path name)) as [e|raw].
Qed.

Lemma read_attr_raises_with fs name w :
  graceful fs name = false ->
  exists e, fs (attr_path name) = inl e /\ read_attr fs name w = (Raise e, w).
Proof.
  unfold graceful. rewrite read_attr_cases.
  destruct (fs (attr_path name)) as [[]|raw]; try discriminate; eauto.
Qed.

(** [C5, amended] When the text of [mem_total_bytes] denotes the integer
    [b] and the quotient of [b] by [2^30] is in the range of a float, the
    outcome of the memory aggregation is decided by the read of
    [mem_info].  When that read is graceful (the file is readable,
    missing or denied), the aggregation returns a record in which,
    unless [mem_info] supplies the same key, [total_bytes] is [b],
    [total_mb] is the floor of [b / 1048576] and [total_gb] is the float
    nearest to [b / 1073741824]; for [b = 17179869184] these are 16384
    and 16.0.  When that read fails with another error, the aggregation
    raises this error and returns no record. *)
Theorem get_memory_info_derived max fs w text b g :
  seen fs "mem_total_bytes" = Some text ->
  Py.int max text = Some b ->
  Py.truediv_pow2 b 30 = inr g ->
  (graceful fs "mem_info" = true ->
   exists rec,
     get_memory_info max fs w = (Ok rec, warn w (diagnostic fs "mem_info"))
     /\ (forall k,
           (forall blob, seen fs "mem_info" = Some blob ->
                         parse_key_value max blob !! k = None) ->
           (k = "total_bytes" -> rec !! k = Some (VInt b))
           /\ (k = "total_mb" -> rec !! k = Some (VInt (b / 1048576)))
           /\ (k = "total_gb" -> rec !! k = Some (VFloat g))))
  /\ (graceful fs "mem_info" = false ->
      exists e, fs (attr_path "mem_info") = inl e
                /\ get_memory_info max fs w = (Raise e, w))
  /\ (b = 17179869184 ->
      b / 1048576 = 16384
      /\ g = Examples.float_16).
Proof.
  intros Hseen Hint Hdiv.
  destruct (seen_graceful _ _ _ Hseen) as [Hg Hd].
  split; [|split].
  - intros Hinfo.
    pose (base := <["total_gb" := VFloat g]>
                   (<["total_mb" := VInt (b / 1048576)]>
                    (<["total_bytes" := VInt b]> (∅ : gmap string value)))).
    pose (rec := match seen fs "mem_info" with
                 | Some blob => update base (parse_key_value max blob)
                 | None => base
                 end).
    exists rec. split.
    + change (get_memory_info max fs) with (aggregate max fs Memory).
      rewrite (aggregate_refines max fs Memory rec w).
      * unfold diagnostics. simpl. by rewrite Hd, app_nil_r.
      * simpl. by rewrite Hg, Hinfo.
      * unfold merge_sources. simpl. unfold merge_source. simpl.
        rewrite Hseen. unfold memory_fields. rewrite Hint, Hdiv.
        rewrite update_empty. unfold rec, blob_fields.
        by destruct (seen fs "mem_info").
    + intros k Hk.
      assert (Hrec : rec !! k = base !! k).
      { unfold rec. destruct (seen fs "mem_info") as [blob|]; [|done].
        unfold update. apply lookup_union_r. by apply Hk. }
      rewrite Hrec. unfold base. split; [|split]; by intros ->.
  - intros Hinfo.
    destruct (read_attr_raises_with fs "mem_info" w Hinfo) as (e & He & Hr).
    exists e. split; [exact He|].
    unfold get_memory_info. norm.
    rewrite read_then_if by exact Hg. rewrite Hseen, Hd, warn_nil.
    unfold int_of. rewrite Hint. norm. unfold lift. rewrite Hdiv. norm.
    by rewrite (bind_raises _ _ _ _ _ Hr).
  - intros ->. split; [done|].
    vm_compute in Hdiv. by injection Hdiv as <-.
Qed.

Lemma get_memory_info_derived_witness :
  (exists rec,
     get_memory_info default_max_str_digits Examples.fs_memory_16g quiet
     = (Ok rec, quiet)
     /\ rec !! "total_bytes" = Some (VInt 17179869184)
     /\ rec !! "total_mb" = Some (VInt 16384)
     /\ rec !! "total_gb" = Some (VFloat Examples.float_16))
  /\ get_memory_info default_max_str_digits
       MoreExamples.fs_memory_info_directory quiet
     = (Raise Py.IsADirectoryError, quiet).
Proof.
  split; [|
    destruct (proj1 (proj2 (get_memory_info_derived default_max_str_digits
                MoreExamples.fs_memory_info_directory quiet
                "17179869184" 17179869184 Examples.float_16
                eq_refl eq_refl eq_refl)) eq_refl)
      as (e & He & Hraise);
    injection He as <-; exact Hraise ].
  destruct (get_memory_info_derived default_max_str_digits
              Examples.fs_memory_16g quiet
              "17179869184" 17179869184 Examples.float_16
              eq_refl eq_refl eq_refl)
    as (Hreturns & _ & _).
  destruct (Hreturns eq_refl) as (rec & Hrec & Hfields).
  exists rec. split; [exact Hrec|].
  split; [|split].
  - apply (Hfields "total_bytes"); [discriminate|reflexivity].
  - apply (Hfields "total_mb"); [discriminate|reflexivity].
  - apply (Hfields "total_gb"); [discriminate|reflexivity].
Defined.

(** [C5, as stated] An integer too large for its quotient to be a float
    gives no record at all, and a [total_mb] key of [mem_info] replaces
    the derived one. *)
Lemma get_memory_info_not_derived :
  Py.int default_max_str_digits ("1" ++ zeros 400) = Some (10 ^ 400)
  /\ get_memory_info default_max_str_digits Examples.fs_memory_huge quiet
     = (Raise Py.OverflowError, quiet)
  /\ get_memory_info default_max_str_digits Examples.fs_memory_override quiet
     = (Ok (<["total_mb" := VInt 1]>
            (<["total_gb" := VFloat Examples.float_16]>
             (<["total_bytes" := VInt 17179869184]> ∅))), quiet).
Proof. split; [|split]; by vm_compute. Qed.

(** ** Failures that stay local, and the order of the sources *)

(** [C3, amended] In every category aggregation, an attribute that is
    missing, denied, or blank, and a value of a key=value text that is
    not an integer, affect only their own fields: when no read raises
    another exception and the integer attributes that are seen hold
    integers (for memory: with a quotient in the range of a float), the
    aggregation returns a record, with one diagnostic per denied
    attribute; the record holds every field contributed by an attribute
    that is seen, unless a later source defines the same key, and no
    other key; a value that [int] refuses is kept as text under its
    key. *)
Theorem aggregation_failures_local max fs c w :
  forallb (graceful fs) (names max c) = true ->
  scalars_ok max fs c = true ->
  (exists rec,
     aggregate max fs c w = (Ok rec, warn w (diagnostics fs (names max c)))
     /\ (forall earlier src later fields k v,
           sources max c = earlier ++ src :: later ->
           contributed fs src = Some fields ->
           fields !! k = Some v ->
           forallb (fun s => negb (defines fs k s)) later = true ->
           rec !! k = Some v)
     /\ (forall k,
           forallb (fun s => negb (defines fs k s)) (sources max c) = true ->
           rec !! k = None))
  /\ (forall src, In src (sources max c) -> seen fs (fst src) = None ->
                  forall k, defines fs k src = false)
  /\ (forall text k v,
        last_value (Py.split "010" text) k = Some v ->
        Py.int max v = None ->
        parse_key_value max text !! k = Some (VStr v)).
Proof.
  intros Hg Hok. split; [|split].
  - destruct (aggregate_merges max fs c w Hg Hok) as (rec & Hrec & Hagg).
    exists rec. split; [done|]. split.
    + intros earlier src later fields k v Hsrc Hc Hk Hlater.
      rewrite Hsrc in Hrec. by eapply merge_sources_lookup.
    + intros k Hk. by eapply merge_sources_lookup_none.
  - intros src _ Hseen k. unfold defines, contributed. by rewrite Hseen.
  - intros text k v Hlast Hint.
    rewrite parse_key_value_lookup, Hlast. simpl. unfold convert.
    by rewrite Hint.
Qed.

Lemma aggregation_failures_local_witness :
  exists rec,
    get_cpu_info default_max_str_digits Examples.fs_cpu_partial quiet
    = (Ok rec, {| stdout := [];
                  stderr := [[Text "Permission denied reading cpu_count"]] |})
    /\ rec !! "total" = Some (VInt 16)
    /\ rec !! "cores" = Some (VStr "eight")
    /\ rec !! "online" = None
    /\ rec !! "topology" = None.
Proof.
  destruct (aggregation_failures_local default_max_str_digits
              Examples.fs_cpu_partial CPU quiet eq_refl eq_refl)
    as ((rec & Hrec & Hfields & Hnone) & _ & _).
  exists rec. split; [exact Hrec|].
  split; [|split; [|split]].
  - apply (Hfields [("cpu_count", int_field default_max_str_digits "online")]
             ("cpu_total", int_field default_max_str_digits "total")
             [("cpu_info", blob_fields default_max_str_digits);
              ("cpu_topology", text_field "topology")]
             {[ "total" := VInt 16 ]}); reflexivity.
  - apply (Hfields [("cpu_count", int_field default_max_str_digits "online");
                    ("cpu_total", int_field default_max_str_digits "total")]
             ("cpu_info", blob_fields default_max_str_digits)
             [("cpu_topology", text_field "topology")]
             (parse_key_value default_max_str_digits "cores=eight"));
      reflexivity.
  - apply Hnone. reflexivity.
  - apply Hnone. reflexivity.
Defined.

(** [C3, as stated] A read that fails with another error, and an integer
    attribute that holds no integer, abort the aggregation although
    [cpu_total] is readable. *)
Lemma get_cpu_info_aborts :
  get_cpu_info default_max_str_digits Examples.fs_cpu_io_error quiet
  = (Raise Py.OSError, quiet)
  /\ get_cpu_info default_max_str_digits Examples.fs_cpu_malformed quiet
     = (Raise Py.ValueError, quiet).
Proof. split; by vm_compute. Qed.

(** [C7] In every category aggregation the sources are merged in order
    and a later source overrides an earlier one on a common key: in the
    record that the aggregation returns, of two sources that define a
    key the later one gives the value, unless a source after it defines
    the key again.  For the CPU record, a key of the parsed [cpu_info]
    replaces the [online] and [total] of the scalar attributes, and the
    [topology] of [cpu_topology] replaces a [topology] key of
    [cpu_info]; for the GPU record, the [details] of [gpu_details]
    replaces a [details] key of [gpu_info].  The aggregation returns a
    record whenever its reads are graceful and its scalar attributes are
    well formed. *)
Theorem later_source_overrides max fs c w :
  (forallb (graceful fs) (names max c) = true ->
   scalars_ok max fs c = true ->
   exists rec w', aggregate max fs c w = (Ok rec, w'))
  /\ (forall rec w',
        aggregate max fs c w = (Ok rec, w') ->
        (forall first src1 between src2 later fields1 fields2 k v1 v2,
           sources max c = first ++ src1 :: between ++ src2 :: later ->
           contributed fs src1 = Some fields1 -> fields1 !! k = Some v1 ->
           contributed fs src2 = Some fields2 -> fields2 !! k = Some v2 ->
           forallb (fun s => negb (defines fs k s)) later = true ->
           rec !! k = Some v2)
        /\ (c = CPU ->
            (forall blob k v,
               seen fs "cpu_info" = Some blob ->
               parse_key_value max blob !! k = Some v ->
               k <> "topology" ->
               rec !! k = Some v)
            /\ (forall text,
                  seen fs "cpu_topology" = Some text ->
                  rec !! "topology" = Some (VStr text)))
        /\ (c = GPU ->
            forall text,
              seen fs "gpu_details" = Some text ->
              rec !! "details" = Some (VStr text))).
Proof.
  split.
  { intros Hg Hok.
    destruct (aggregate_merges max fs c w Hg Hok) as (rec & _ & Hagg). eauto. }
  intros rec w' Hret.
  destruct (aggregate_returns max fs c w rec w' Hret) as (_ & _ & Hrec).
  split; [|split].
  - intros first src1 between src2 later fields1 fields2 k v1 v2
      Hsrc _ _ Hc2 Hk2 Hlater.
    rewrite Hsrc in Hrec.
    replace (first ++ src1 :: between ++ src2 :: later)
      with ((first ++ src1 :: between) ++ src2 :: later) in Hrec
      by (by rewrite <- app_assoc).
    by eapply merge_sources_lookup.
  - intros ->. split.
    + intros blob k v Hblob Hk Hkey.
      apply (merge_sources_lookup fs
               [("cpu_count", int_field max "online");
                ("cpu_total", int_field max "total")]
               ("cpu_info", blob_fields max)
               [("cpu_topology", text_field "topology")]
               rec (parse_key_value max blob) k v); try done.
      * unfold contributed. simpl. by rewrite Hblob.
      * simpl. unfold defines, contributed. simpl.
        destruct (seen fs "cpu_topology"); [|done]. simpl.
        rewrite andb_true_r. apply negb_true_iff, bool_decide_eq_false.
        rewrite lookup_singleton_ne by done. by intros [? ?].
    + intros text Htext.
      apply (merge_sources_lookup fs
               [("cpu_count", int_field max "online");
                ("cpu_total", int_field max "total");
                ("cpu_info", blob_fields max)]
               ("cpu_topology", text_field "topology") []
               rec {[ "topology" := VStr text ]}); try done.
      unfold contributed. simpl. by rewrite Htext.
  - intros -> text Htext.
    apply (merge_sources_lookup fs
             [("gpu_info", blob_fields max)]
             ("gpu_details", text_field "details") []
             rec {[ "details" := VStr text ]}); try done.
    unfold contributed. simpl. by rewrite Htext.
Qed.

Lemma later_source_overrides_witness :
  exists rec w',
    get_cpu_info default_max_str_digits Examples.fs_cpu_collisions quiet
    = (Ok rec, w')
    /\ rec !! "online" = Some (VInt 4)
    /\ rec !! "topology" = Some (VStr "numa").
Proof.
  destruct (proj1 (later_source_overrides default_max_str_digits
                     Examples.fs_cpu_collisions CPU quiet) eq_refl eq_refl)
    as (rec & w' & Hrec).
  destruct (proj2 (later_source_overrides default_max_str_digits
                     Examples.fs_cpu_collisions CPU quiet) rec w' Hrec)
    as (_ & Hcpu & _).
  destruct (Hcpu eq_refl) as [Hblob Htopology].
  exists rec, w'. split; [exact Hrec|]. split.
  - apply (Hblob ("online=4" ++ newline ++ "topology=flat")%string);
      [reflexivity|reflexivity|discriminate].
  - apply Htopology. reflexivity.
Defined.
(** ** The requirement check *)

Lemma ge_world v t w :
  (exists b, ge v t w = (Ok b, w)) \/ ge v t w = (Raise Py.TypeError, w).
Proof. destruct v; simpl; eauto. Qed.

Lemma ge_int n t w : ge (VInt n) (NInt t) w = (Ok (t <=? n), w).
Proof.
  unfold ge, ret, dyadic_of_number, Py.dyadic_of_int, Py.dyadic_ge.
  simpl. by rewrite !Z.mul_1_r.
Qed.

Lemma all_three (c m g : bool) : forallb id [c; m; g] = c && m && g.
Proof. by destruct c, m, g. Qed.

Lemma bind_ok_inv {A B} (m : M A) (k : A -> M B) w b w' :
  bind m k w = (Ok b, w') ->
  exists a w1, m w = (Ok a, w1) /\ k a w1 = (Ok b, w').
Proof. unfold bind. destruct (m w) as [[a|e] w1]; [eauto|done]. Qed.

(** *** The comparison computes the order of the values *)

Lemma Qpower_2_pos k : (0 < Qpower 2 k)%Q.
Proof. by apply Qpower_0_lt. Qed.

Lemma scaled_value m e0 e :
  e0 <= e ->
  (inject_Z m * Qpower 2 e == inject_Z (m * 2 ^ (e - e0)) * Qpower 2 e0)%Q.
Proof.
  intros H. replace e with ((e - e0) + e0) at 1 by lia.
  rewrite Qpower_plus by discriminate.
  rewrite <- (Zpower_Qpower 2 (e - e0)) by lia.
  rewrite inject_Z_mult. ring.
Qed.

Lemma finite_ge m1 e1 m2 e2 :
  Py.dyadic_ge (Py.Finite m1 e1) (Py.Finite m2 e2)
  = Qle_bool (inject_Z m2 * Qpower 2 e2) (inject_Z m1 * Qpower 2 e1).
Proof.
  unfold Py.dyadic_ge. set (e := Z.min e1 e2).
  rewrite (Qleb_comp _ _ (scaled_value m2 e e2 ltac:(lia))
                     _ _ (scaled_value m1 e e1 ltac:(lia))).
  apply eq_true_iff_eq. rewrite Z.leb_le, Qle_bool_iff.
  rewrite Zle_Qle. split; intros H.
  - apply Qmult_le_compat_r; [done|]. apply Qlt_le_weak, Qpower_2_pos.
  - eapply Qmult_le_r; [apply (Qpower_2_pos e)|done].
Qed.

Lemma int_value n : (inject_Z n * Qpower 2 0 == inject_Z n)%Q.
Proof. simpl. ring. Qed.

Lemma zero_value : (inject_Z 0 * Qpower 2 0 == 0)%Q.
Proof. reflexivity. Qed.

(** The value of a dyadic number. *)
Lemma dyadic_ge_float f g :
  Py.dyadic_ge (Py.dyadic_of_float f) (Py.dyadic_of_float g)
  = at_least (float_value f) (float_value g).
Proof.
  destruct f as [s1|[]| |s1 m1 e1], g as [s2|[]| |s2 m2 e2];
    try reflexivity; unfold Py.dyadic_of_float, float_value, at_least,
      extended_le; rewrite finite_ge;
    first [ reflexivity
          | apply Qleb_comp; first [reflexivity | apply zero_value] ].
Qed.

Lemma dyadic_ge_int_float n g :
  Py.dyadic_ge (Py.dyadic_of_int n) (Py.dyadic_of_float g)
  = at_least (Some (Rational (inject_Z n))) (float_value g).
Proof.
  destruct g as [s2|[]| |s2 m2 e2]; try reflexivity;
    unfold Py.dyadic_of_int, Py.dyadic_of_float, float_value, at_least,
      extended_le; rewrite finite_ge;
    apply Qleb_comp; first [apply int_value | apply zero_value | reflexivity].
Qed.

Lemma dyadic_ge_float_int f t :
  Py.dyadic_ge (Py.dyadic_of_float f) (Py.dyadic_of_int t)
  = at_least (float_value f) (Some (Rational (inject_Z t))).
Proof.
  destruct f as [s1|[]| |s1 m1 e1]; try reflexivity;
    unfold Py.dyadic_of_int, Py.dyadic_of_float, float_value, at_least,
      extended_le; rewrite finite_ge;
    apply Qleb_comp; first [apply int_value | apply zero_value | reflexivity].
Qed.

(** [ge] returns the truth of the comparison, and returns it for every
    number on the left. *)
Lemma ge_compares v t b w :
  ge v t w = (Ok b, w) <-> compares v t b.
Proof.
  assert (Hret : forall x : bool, (Ok x, w) = (Ok b, w) <-> b = x).
  { intros x. split; [by intros [= <-]|by intros ->]. }
  destruct v as [n|f|s], t as [t|g]; unfold compares.
  - rewrite ge_int. apply Hret.
  - change (ge (VInt n) (NFloat g) w)
      with (Ok (Py.dyadic_ge (Py.dyadic_of_int n) (Py.dyadic_of_float g)), w).
    rewrite dyadic_ge_int_float. apply Hret.
  - change (ge (VFloat f) (NInt t) w)
      with (Ok (Py.dyadic_ge (Py.dyadic_of_float f) (Py.dyadic_of_int t)), w).
    rewrite dyadic_ge_float_int. apply Hret.
  - change (ge (VFloat f) (NFloat g) w)
      with (Ok (Py.dyadic_ge (Py.dyadic_of_float f) (Py.dyadic_of_float g)),
            w).
    rewrite dyadic_ge_float. apply Hret.
  - simpl. by split.
  - simpl. by split.
Qed.

Lemma ge_returns v t b w w' : ge v t w = (Ok b, w') -> w' = w.
Proof.
  destruct (ge_world v t w) as [[b' H]|H]; rewrite H; congruence.
Qed.

(** *** On binary64 values the order is that of IEEE 754 *)

Lemma digits2_pos_bounds m :
  2 ^ (Z.pos (digits2_pos m) - 1) <= Z.pos m < 2 ^ Z.pos (digits2_pos m).
Proof.
  induction m as [p IH|p IH|]; simpl digits2_pos; [| |simpl; lia].
  - rewrite Pos2Z.inj_succ.
    replace (Z.succ (Z.pos (digits2_pos p)) - 1)
      with (Z.succ (Z.pos (digits2_pos p) - 1)) by lia.
    rewrite !Z.pow_succ_r by lia. lia.
  - rewrite Pos2Z.inj_succ.
    replace (Z.succ (Z.pos (digits2_pos p)) - 1)
      with (Z.succ (Z.pos (digits2_pos p) - 1)) by lia.
    rewrite !Z.pow_succ_r by lia. lia.
Qed.

Lemma canonical_exponent m e :
  canonical_mantissa Py.prec Py.emax m e = true ->
  (Z.pos (digits2_pos m) <= 53 /\ -1074 <= e)
  /\ (-1074 < e -> Z.pos (digits2_pos m) = 53).
Proof.
  unfold canonical_mantissa, fexp, SpecFloat.emin, Py.prec, Py.emax.
  intros H%Z.eqb_eq. lia.
Qed.

Lemma canonical_order m1 e1 m2 e2 :
  canonical_mantissa Py.prec Py.emax m1 e1 = true ->
  canonical_mantissa Py.prec Py.emax m2 e2 = true ->
  e1 < e2 ->
  Z.pos m1 < Z.pos m2 * 2 ^ (e2 - e1).
Proof.
  intros [[H1 Hmin] _]%canonical_exponent [_ H2]%canonical_exponent Hlt.
  specialize (H2 ltac:(lia)).
  pose proof (digits2_pos_bounds m1) as [_ Hm1].
  pose proof (digits2_pos_bounds m2) as [Hm2 _].
  rewrite H2 in Hm2.
  assert (2 ^ Z.pos (digits2_pos m1) <= 2 ^ 53)
    by (apply Z.pow_le_mono_r; lia).
  assert (2 ^ 1 <= 2 ^ (e2 - e1)) by (apply Z.pow_le_mono_r; lia).
  change (2 ^ (53 - 1)) with 4503599627370496 in Hm2.
  change (2 ^ 53) with 9007199254740992 in *.
  change (2 ^ 1) with 2 in *. nia.
Qed.

Lemma finite_compare m1 e1 m2 e2 :
  canonical_mantissa Py.prec Py.emax m1 e1 = true ->
  canonical_mantissa Py.prec Py.emax m2 e2 = true ->
  (Z.pos m2 * 2 ^ (e2 - Z.min e1 e2) ?= Z.pos m1 * 2 ^ (e1 - Z.min e1 e2))
  = match e2 ?= e1 with
    | Lt => Lt
    | Gt => Gt
    | Eq => Pos.compare_cont Eq m2 m1
    end.
Proof.
  intros H1 H2. destruct (Z.compare_spec e2 e1) as [->|Hlt|Hlt].
  - rewrite Z.min_id, Z.sub_diag. simpl. by rewrite !Pos.mul_1_r.
  - rewrite Z.min_r, Z.sub_diag by lia. apply Z.compare_lt_iff.
    pose proof (canonical_order m2 e2 m1 e1 H2 H1 Hlt). lia.
  - rewrite Z.min_l, Z.sub_diag by lia. apply Z.compare_gt_iff.
    pose proof (canonical_order m1 e1 m2 e2 H1 H2 Hlt). lia.
Qed.

Lemma leb_compare a b :
  (a <=? b) = match a ?= b with Gt => false | _ => true end.
Proof. reflexivity. Qed.

Lemma valid_canonical s m e :
  valid_binary Py.prec Py.emax (S754_finite s m e) = true ->
  canonical_mantissa Py.prec Py.emax m e = true.
Proof. simpl. unfold bounded. by intros [H _]%andb_true_iff. Qed.

(** For binary64 values, the order of the values is [SFleb], the
    comparison of IEEE 754. *)
Lemma at_least_SFleb f g :
  valid_binary Py.prec Py.emax f = true ->
  valid_binary Py.prec Py.emax g = true ->
  at_least (float_value f) (float_value g) = SFleb g f.
Proof.
  intros Hf Hg. rewrite <- dyadic_ge_float.
  destruct f as [s1|[]| |s1 m1 e1], g as [s2|[]| |s2 m2 e2];
    try reflexivity;
    try (by destruct s1); try (by destruct s2).
  - destruct s2; unfold Py.dyadic_of_float, Py.dyadic_ge, SFleb, SFcompare;
      simpl.
    + rewrite Z.mul_0_l. 
      apply Z.leb_le. pose proof (Z.pow_nonneg 2 (e2 - Z.min 0 e2)). nia.
    + rewrite Z.mul_0_l. apply Z.leb_gt.
      assert (0 < 2 ^ (e2 - Z.min 0 e2)) by (apply Z.pow_pos_nonneg; lia).
      nia.
  - destruct s1; unfold Py.dyadic_of_float, Py.dyadic_ge, SFleb, SFcompare;
      simpl.
    + rewrite Z.mul_0_l. apply Z.leb_gt.
      assert (0 < 2 ^ (e1 - Z.min e1 0)) by (apply Z.pow_pos_nonneg; lia).
      nia.
    + rewrite Z.mul_0_l. apply Z.leb_le.
      pose proof (Z.pow_nonneg 2 (e1 - Z.min e1 0)). nia.
  - apply valid_canonical in Hf, Hg.
    unfold Py.dyadic_of_float, Py.dyadic_ge, SFleb, SFcompare.
    assert (P1 : 0 < 2 ^ (e1 - Z.min e1 e2))
      by (apply Z.pow_pos_nonneg; lia).
    assert (P2 : 0 < 2 ^ (e2 - Z.min e1 e2))
      by (apply Z.pow_pos_nonneg; lia).
    destruct s1, s2.
    + rewrite leb_compare.
      change (Z.neg m2) with (- Z.pos m2). change (Z.neg m1) with (- Z.pos m1).
      rewrite !Z.mul_opp_l, Z.compare_opp.
      rewrite (Z.compare_antisym (Z.pos m2 * 2 ^ (e2 - Z.min e1 e2))).
      rewrite (finite_compare m1 e1 m2 e2 Hf Hg).
      by destruct (e2 ?= e1).
    + apply Z.leb_gt. nia.
    + apply Z.leb_le. nia.
    + rewrite leb_compare, (finite_compare m1 e1 m2 e2 Hf Hg).
      by destruct (e2 ?= e1).
Qed.

(** A missing field against a float threshold: 0 compares as the float
    zero does. *)
Lemma zero_at_least g :
  at_least (Some (Rational (inject_Z 0))) (float_value g)
  = SFleb g (S754_zero false).
Proof.
  rewrite <- dyadic_ge_int_float.
  destruct g as [s|[]| |s m e]; try reflexivity.
  unfold Py.dyadic_of_int, Py.dyadic_of_float, Py.dyadic_ge, SFleb, SFcompare.
  assert (0 < 2 ^ (e - Z.min 0 e)) by (apply Z.pow_pos_nonneg; lia).
  rewrite Z.mul_0_l.
  destruct s; [apply Z.leb_le|apply Z.leb_gt]; nia.
Qed.

(** The steps of a call of [check_requirements] that returns. *)
Lemma check_requirements_inv max fs out min_cpus min_memory_gb min_gpus w
    verdict w' :
  check_requirements max fs out min_cpus min_memory_gb min_gpus w
  = (Ok verdict, w') ->
  exists cpu_info mem_info gpu_info w1 w2 w3 cpus memory gpus,
    get_cpu_info max fs w = (Ok cpu_info, w1)
    /\ get_memory_info max fs w1 = (Ok mem_info, w2)
    /\ get_gpu_info max fs w2 = (Ok gpu_info, w3)
    /\ ge (get_or_zero cpu_info "online") (NInt min_cpus) w3 = (Ok cpus, w3)
    /\ ge (get_or_zero mem_info "total_gb") min_memory_gb w3 = (Ok memory, w3)
    /\ ge (get_or_zero gpu_info "total") (NInt min_gpus) w3 = (Ok gpus, w3)
    /\ print_report max out cpu_info mem_info gpu_info
         min_cpus min_memory_gb min_gpus cpus memory gpus w3 = (Ok tt, w')
    /\ verdict = cpus && memory && gpus.
Proof.
  unfold check_requirements. intros H0.
  apply bind_ok_inv in H0 as (cpu_info & w1 & H1 & H0).
  apply bind_ok_inv in H0 as (mem_info & w2 & H2 & H0).
  apply bind_ok_inv in H0 as (gpu_info & w3 & H3 & H0).
  apply bind_ok_inv in H0 as (cpus & u1 & Hc & H0).
  apply bind_ok_inv in H0 as (memory & u2 & Hm & H0).
  apply bind_ok_inv in H0 as (gpus & u3 & Hg & H0).
  apply bind_ok_inv in H0 as ([] & u4 & Hp & H0).
  injection H0 as <- <-.
  pose proof (ge_returns _ _ _ _ _ Hc) as ->.
  pose proof (ge_returns _ _ _ _ _ Hm) as ->.
  pose proof (ge_returns _ _ _ _ _ Hg) as ->.
  exists cpu_info, mem_info, gpu_info, w1, w2, w3, cpus, memory, gpus.
  split_and!; try done. by destruct cpus, memory, gpus.
Qed.

Lemma check_requirements_run max fs out min_cpus min_memory_gb min_gpus w
    cpu_info mem_info gpu_info w1 w2 w3 cpus memory gpus w' :
  get_cpu_info max fs w = (Ok cpu_info, w1) ->
  get_memory_info max fs w1 = (Ok mem_info, w2) ->
  get_gpu_info max fs w2 = (Ok gpu_info, w3) ->
  ge (get_or_zero cpu_info "online") (NInt min_cpus) w3 = (Ok cpus, w3) ->
  ge (get_or_zero mem_info "total_gb") min_memory_gb w3 = (Ok memory, w3) ->
  ge (get_or_zero gpu_info "total") (NInt min_gpus) w3 = (Ok gpus, w3) ->
  print_report max out cpu_info mem_info gpu_info
    min_cpus min_memory_gb min_gpus cpus memory gpus w3 = (Ok tt, w') ->
  check_requirements max fs out min_cpus min_memory_gb min_gpus w
  = (Ok (cpus && memory && gpus), w').
Proof.
  intros H1 H2 H3 Hc Hm Hg Hp. unfold check_requirements.
  rewrite (bind_ok _ _ _ _ _ H1), (bind_ok _ _ _ _ _ H2),
    (bind_ok _ _ _ _ _ H3), (bind_ok _ _ _ _ _ Hc),
    (bind_ok _ _ _ _ _ Hm), (bind_ok _ _ _ _ _ Hg),
    (bind_ok _ _ _ _ _ Hp).
  unfold ret. by rewrite all_three.
Qed.

Lemma get_or_zero_default (info : gmap string value) key :
  get_or_zero info key = default (VInt 0) (info !! key).
Proof. unfold get_or_zero. by destruct (info !! key). Qed.

(** [C2] [check_requirements] compares [online], [total_gb] and [total]
    of the three records with the thresholds, a missing field counting
    as 0, and each comparison is the order of the two numbers: of the
    integers when both are ints, of the values otherwise.  It returns
    exactly when the three aggregations return, no compared field is a
    text and the report is written, and the verdict is then the
    conjunction of the three comparisons.  On binary64 floats the order
    of the values is the comparison of IEEE 754, and a missing field
    compares with an int threshold as the integer 0 does and with a
    float threshold as 0.0 does.  When the GPU attributes are absent,
    the GPU record is empty, its field counts as 0, which is not at
    least 1, and every verdict for [min_gpus = 1] is false. *)
Theorem check_requirements_verdict max fs out min_cpus min_memory_gb min_gpus w :
  (forall verdict w',
     check_requirements max fs out min_cpus min_memory_gb min_gpus w
     = (Ok verdict, w')
     <-> exists cpu_info mem_info gpu_info w1 w2 w3 cpus memory gpus,
           get_cpu_info max fs w = (Ok cpu_info, w1)
           /\ get_memory_info max fs w1 = (Ok mem_info, w2)
           /\ get_gpu_info max fs w2 = (Ok gpu_info, w3)
           /\ compares (default (VInt 0) (cpu_info !! "online"))
                       (NInt min_cpus) cpus
           /\ compares (default (VInt 0) (mem_info !! "total_gb"))
                       min_memory_gb memory
           /\ compares (default (VInt 0) (gpu_info !! "total"))
                       (NInt min_gpus) gpus
           /\ print_report max out cpu_info mem_info gpu_info
                min_cpus min_memory_gb min_gpus cpus memory gpus w3
              = (Ok tt, w')
           /\ verdict = cpus && memory && gpus)
  /\ (forall f g b,
        valid_binary Py.prec Py.emax f = true ->
        valid_binary Py.prec Py.emax g = true ->
        compares (VFloat f) (NFloat g) b -> b = SFleb g f)
  /\ (forall (info : gmap string value) key t b,
        info !! key = None ->
        compares (default (VInt 0) (info !! key)) t b ->
        b = match t with
            | NInt n => n <=? 0
            | NFloat g => SFleb g (S754_zero false)
            end)
  /\ (fs (attr_path "gpu_info") = inl Py.FileNotFoundError ->
      fs (attr_path "gpu_details") = inl Py.FileNotFoundError ->
      (forall w', get_gpu_info max fs w' = (Ok ∅, w'))
      /\ (forall gpus,
            compares (default (VInt 0) ((∅ : gmap string value) !! "total"))
                     (NInt 1) gpus ->
            gpus = false)
      /\ (min_gpus = 1 ->
          forall verdict w',
            check_requirements max fs out min_cpus min_memory_gb min_gpus w
            = (Ok verdict, w') ->
            verdict = false)).
Proof.
  assert (Hiff : forall verdict w',
    check_requirements max fs out min_cpus min_memory_gb min_gpus w
    = (Ok verdict, w')
    <-> exists cpu_info mem_info gpu_info w1 w2 w3 cpus memory gpus,
          get_cpu_info max fs w = (Ok cpu_info, w1)
          /\ get_memory_info max fs w1 = (Ok mem_info, w2)
          /\ get_gpu_info max fs w2 = (Ok gpu_info, w3)
          /\ compares (default (VInt 0) (cpu_info !! "online"))
                      (NInt min_cpus) cpus
          /\ compares (default (VInt 0) (mem_info !! "total_gb"))
                      min_memory_gb memory
          /\ compares (default (VInt 0) (gpu_info !! "total"))
                      (NInt min_gpus) gpus
          /\ print_report max out cpu_info mem_info gpu_info
               min_cpus min_memory_gb min_gpus cpus memory gpus w3
             = (Ok tt, w')
          /\ verdict = cpus && memory && gpus).
  { intros verdict w'. split.
    - intros H. apply check_requirements_inv in H
        as (cpu_info & mem_info & gpu_info & w1 & w2 & w3 & cpus & memory
            & gpus & H1 & H2 & H3 & Hc & Hm & Hg & Hp & ->).
      exists cpu_info, mem_info, gpu_info, w1, w2, w3, cpus, memory, gpus.
      rewrite <- !get_or_zero_default.
      split_and!; try done; by eapply ge_compares.
    - intros (cpu_info & mem_info & gpu_info & w1 & w2 & w3 & cpus & memory
              & gpus & H1 & H2 & H3 & Hc & Hm & Hg & Hp & ->).
      rewrite <- !get_or_zero_default in *.
      eapply check_requirements_run; try done; by apply ge_compares. }
  split; [exact Hiff|]. split; [|split].
  - intros f g b Hf Hg ->. by apply at_least_SFleb.
  - intros info key t b ->. simpl. destruct t as [n|g]; [done|].
    intros ->. apply zero_at_least.
  - intros Hinfo Hdetails.
    assert (Hgpu : forall w', get_gpu_info max fs w' = (Ok ∅, w')).
    { intros w'. apply (aggregate_unseen max fs GPU w').
      intros name [<-|[<-|[]]]; by apply absent_graceful. }
    split; [exact Hgpu|]. split.
    + intros gpus. rewrite lookup_empty. simpl. by intros ->.
    + intros -> verdict w' Hcheck.
      apply Hiff in Hcheck
        as (cpu_info & mem_info & gpu_info & w1 & w2 & w3 & cpus & memory
            & gpus & _ & _ & H3 & _ & _ & Hg & _ & ->).
      rewrite Hgpu in H3. injection H3 as <- <-.
      rewrite lookup_empty in Hg. simpl in Hg. rewrite Hg.
      by rewrite andb_false_r.
Qed.

Lemma check_requirements_verdict_witness :
  (exists w',
     check_requirements default_max_str_digits Examples.fs_requirements
       Consoles.utf8 4 (NFloat Examples.float_8) 1 quiet
     = (Ok true, w'))
  /\ (forall verdict w',
        check_requirements default_max_str_digits Examples.fs_memory_16g
          Consoles.utf8 4 (NFloat Examples.float_8) 1 quiet
        = (Ok verdict, w') ->
        verdict = false).
Proof.
  split.
  - eexists.
    apply (proj1 (check_requirements_verdict default_max_str_digits
                    Examples.fs_requirements Consoles.utf8 4
                    (NFloat Examples.float_8) 1 quiet)).
    do 6 eexists. exists true, true, true.
    split; [reflexivity|]. split; [reflexivity|]. split; [reflexivity|].
    split; [reflexivity|]. split; [reflexivity|]. split; [reflexivity|].
    split; [reflexivity|]. reflexivity.
  - destruct (proj2 (proj2 (proj2 (check_requirements_verdict
                default_max_str_digits Examples.fs_memory_16g Consoles.utf8
                4 (NFloat Examples.float_8) 1 quiet))) eq_refl eq_refl)
      as (_ & _ & H).
    exact (H eq_refl).
Defined.

(** ** Stripped texts *)

Lemma lstrip_head s :
  match Py.lstrip s with
  | EmptyString => True
  | String c _ => Py.is_space c = false
  end.
Proof.
  induction s as [|c r IH]; simpl; [done|].
  destruct (Py.is_space c) eqn:E; [done|]. by rewrite E.
Qed.

Lemma lstrip_fixed c r :
  Py.is_space c = false -> Py.lstrip (String c r) = String c r.
Proof. simpl. by intros ->. Qed.

Lemma rstrip_head c r :
  Py.is_space c = false ->
  exists r', Py.rstrip (String c r) = String c r'.
Proof.
  intros Hc. simpl. destruct (Py.rstrip r); [|eauto].
  rewrite Hc. eauto.
Qed.

Lemma rstrip_idem s : Py.rstrip (Py.rstrip s) = Py.rstrip s.
Proof.
  induction s as [|c r IH]; [done|]. simpl.
  destruct (Py.rstrip r) as [|c' r'] eqn:E.
  - destruct (Py.is_space c) eqn:Hc; [done|]. simpl. by rewrite Hc.
  - simpl. simpl in IH. destruct (Py.rstrip r') as [|c'' r''] eqn:E'.
    + destruct (Py.is_space c') eqn:Hc'; [done|]. by injection IH as ->.
    + by rewrite IH.
Qed.

(** The result of [strip] has no blank at either end. *)
Lemma strip_lstrip s : Py.lstrip (Py.strip s) = Py.strip s.
Proof.
  unfold Py.strip. pose proof (lstrip_head s) as H.
  destruct (Py.lstrip s) as [|c r]; [done|].
  destruct (rstrip_head c r H) as [r' ->]. by apply lstrip_fixed.
Qed.

Lemma strip_rstrip s : Py.rstrip (Py.strip s) = Py.strip s.
Proof. unfold Py.strip. apply rstrip_idem. Qed.

Lemma strip_idem s : Py.strip (Py.strip s) = Py.strip s.
Proof.
  unfold Py.strip at 1. rewrite strip_lstrip. apply strip_rstrip.
Qed.

Lemma lstrip_prefix k rest :
  Py.lstrip (k ++ rest) = (k ++ rest)%string -> rest <> "" -> Py.lstrip k = k.
Proof.
  destruct k as [|c r]; [done|]. intros H _.
  change (Py.lstrip (String c (r ++ rest)) = String c (r ++ rest)) in H.
  simpl in H |- *. destruct (Py.is_space c) eqn:E; [|done].
  exfalso. pose proof (lstrip_head (r ++ rest)) as Hh. rewrite H in Hh.
  congruence.
Qed.

Lemma rstrip_tail c r : Py.rstrip (String c r) = String c r -> Py.rstrip r = r.
Proof.
  simpl. destruct (Py.rstrip r) as [|c' r'] eqn:E.
  - destruct (Py.is_space c); [done|]. by intros [= <-].
  - by intros [= <-].
Qed.

Lemma rstrip_suffix p v :
  Py.rstrip (p ++ v) = (p ++ v)%string -> Py.rstrip v = v.
Proof.
  induction p as [|c r IH]; [done|]. intros H.
  change (Py.rstrip (String c (r ++ v)) = String c (r ++ v)) in H.
  by apply IH, (rstrip_tail c).
Qed.

Lemma seen_stripped fs name text :
  seen fs name = Some text -> text <> "" /\ Py.strip text = text.
Proof.
  unfold seen. destruct (fs (attr_path name)) as [e|raw]; [done|].
  destruct (Py.truthy (Py.strip raw)) eqn:E; [|done]. intros [= <-].
  split; [|apply strip_idem]. by destruct (Py.strip raw).
Qed.

(** ** More on the key=value parser *)

Lemma last_value_in lines k v :
  last_value lines k = Some v ->
  exists l, In l lines /\ key_value_of l = Some (k, v).
Proof.
  induction lines as [|l rest IH]; [done|]. simpl.
  destruct (last_value rest k) as [v'|].
  - intros [= ->]. destruct (IH eq_refl) as (l' & Hin & Hkv). eauto.
  - destruct (key_value_of l) as [[k' v']|] eqn:E; [|done].
    destruct (String.eqb_spec k' k) as [->|]; [|done].
    intros [= ->]. eauto.
Qed.

Lemma last_value_some lines l k v :
  In l lines -> key_value_of l = Some (k, v) -> is_Some (last_value lines k).
Proof.
  induction lines as [|l0 rest IH]; [done|]. simpl.
  intros [->|Hin] Hkv.
  - destruct (last_value rest k); [eauto|].
    rewrite Hkv, String.eqb_refl. eauto.
  - destruct (IH Hin Hkv) as [v' ->]. eauto.
Qed.

(** [X1] The keys of the parsed record are exactly the keys of the lines
    that have an [=] once stripped; every other line is ignored. *)
Theorem parse_key_value_keys max content k :
  is_Some (parse_key_value max content !! k)
  <-> exists l v, In l (Py.split "010" content)
                  /\ Py.strip l = (k ++ "=" ++ v)%string
                  /\ Py.contains "=" k = false.
Proof.
  rewrite parse_key_value_lookup. split.
  - intros [x Hx].
    destruct (last_value (Py.split "010" content) k) as [v|] eqn:E; [|done].
    apply last_value_in in E as (l & Hin & Hkv).
    apply key_value_of_spec in Hkv as [Hl Hk]. eauto.
  - intros (l & v & Hin & Hl & Hk).
    destruct (last_value_some _ l k v Hin) as [v' ->];
      [by apply key_value_of_spec|]. simpl. eauto.
Qed.

(** [X2] Every entry of the parsed record is well formed: the key has no
    [=] and no leading blank; a text value has no trailing blank and is
    not a literal that [int] accepts; no value is a float. *)
Theorem parse_key_value_entries max content k x :
  parse_key_value max content !! k = Some x ->
  Py.contains "=" k = false
  /\ Py.lstrip k = k
  /\ match x with
     | VInt n => exists v, Py.int max v = Some n
     | VStr v => Py.rstrip v = v /\ Py.int max v = None
     | VFloat _ => False
     end.
Proof.
  rewrite parse_key_value_lookup.
  destruct (last_value (Py.split "010" content) k) as [v|] eqn:E; [|done].
  intros [= <-]. apply last_value_in in E as (l & _ & Hkv).
  apply key_value_of_spec in Hkv as [Hl Hk].
  split; [done|]. split.
  - apply (lstrip_prefix k ("=" ++ v)); [|done].
    rewrite <- Hl. apply strip_lstrip.
  - unfold convert. destruct (Py.int max v) as [n|] eqn:Hint; [eauto|].
    split; [|done]. apply (rstrip_suffix (k ++ "=")).
    replace ((k ++ "=") ++ v)%string with (k ++ "=" ++ v)%string.
    + rewrite <- Hl. apply strip_rstrip.
    + clear. induction k as [|c r IH]; [done|].
      change (String c (r ++ "=" ++ v) = String c ((r ++ "=") ++ v)).
      by rewrite IH.
Qed.

Lemma parse_key_value_entries_witness :
  Py.contains "=" "model " = false
  /\ Py.lstrip "model " = "model "
  /\ Py.rstrip " x" = " x" /\ Py.int default_max_str_digits " x" = None.
Proof.
  apply (parse_key_value_entries default_max_str_digits
           ("  model = x  " ++ newline ++ "cores=4") "model " (VStr " x")).
  reflexivity.
Defined.

Lemma split_nonempty sep s : Py.split sep s <> [].
Proof.
  destruct s as [|c r]; simpl; [done|].
  destruct (Ascii.eqb c sep); [done|]. by destruct (Py.split sep r).
Qed.

Lemma split_app sep a b :
  Py.split sep (a ++ String sep b) = Py.split sep a ++ Py.split sep b.
Proof.
  induction a as [|c r IH].
  - simpl. by rewrite Ascii.eqb_refl.
  - change (Py.split sep (String c (r ++ String sep b))
            = Py.split sep (String c r) ++ Py.split sep b).
    simpl. destruct (Ascii.eqb c sep); rewrite IH; [done|].
    pose proof (split_nonempty sep r). by destruct (Py.split sep r).
Qed.

Lemma parse_lines_update max lines acc :
  fold_left (parse_line max) lines acc
  = update acc (fold_left (parse_line max) lines ∅).
Proof.
  apply map_eq. intros k. unfold update.
  rewrite parse_lines_lookup.
  destruct (last_value lines k) as [v|] eqn:E.
  - symmetry. apply lookup_union_Some_l. by rewrite parse_lines_lookup, E.
  - rewrite lookup_union_r; [done|]. by rewrite parse_lines_lookup, E.
Qed.

(** [X3] Parsing two texts joined by a newline is parsing the first and
    updating the result with the parse of the second: the entries of the
    second text replace those of the first. *)
Theorem parse_key_value_append max a b :
  parse_key_value max (a ++ newline ++ b)
  = update (parse_key_value max a) (parse_key_value max b).
Proof.
  unfold parse_key_value, newline.
  change (a ++ String "010" "" ++ b)%string with (a ++ String "010" b)%string.
  rewrite split_app, fold_left_app. apply parse_lines_update.
Qed.

(** ** The streams *)

Lemma only_warns_refl w : only_warns w w.
Proof. split; [done|]. exists []. by rewrite app_nil_r. Qed.

Lemma only_warns_trans w1 w2 w3 :
  only_warns w1 w2 -> only_warns w2 w3 -> only_warns w1 w3.
Proof.
  intros [Ho1 (l1 & He1 & Hd1)] [Ho2 (l2 & He2 & Hd2)]. split; [congruence|].
  exists (l1 ++ l2). split.
  - by rewrite He2, He1, app_assoc.
  - by apply Forall_app.
Qed.

Lemma warns_only_ret {A} (a : A) : warns_only (ret a).
Proof. intros w r w' [= <- <-]. apply only_warns_refl. Qed.

Lemma warns_only_raise {A} e : warns_only (@raise A e).
Proof. intros w r w' [= <- <-]. apply only_warns_refl. Qed.

Lemma warns_only_lift {A} (r : Py.exn + A) : warns_only (lift r).
Proof. destruct r; [apply warns_only_raise|apply warns_only_ret]. Qed.

Lemma warns_only_bind {A B} (m : M A) (k : A -> M B) :
  warns_only m -> (forall a, warns_only (k a)) -> warns_only (bind m k).
Proof.
  intros Hm Hk w r w'. unfold bind.
  destruct (m w) as [[a|e] w1] eqn:E.
  - intros H. eapply only_warns_trans; [by eapply Hm|by eapply Hk].
  - intros [= <- <-]. by eapply Hm.
Qed.

Lemma warns_only_read_attr fs name : warns_only (read_attr fs name).
Proof.
  intros w r w'. rewrite read_attr_cases.
  destruct (fs (attr_path name)) as [[]|raw]; intros [= <- <-];
    try apply only_warns_refl.
  split; [done|]. eexists. split; [done|].
  constructor; [by exists name|constructor].
Qed.

Lemma warns_only_if_text {A} x (f : string -> M A) (g : M A) :
  (forall text, warns_only (f text)) -> warns_only g ->
  warns_only (if_text x f g).
Proof.
  intros Hf Hg. destruct x as [text|]; [|done]. simpl.
  by destruct (Py.truthy text).
Qed.

Lemma warns_only_int_of max text : warns_only (int_of max text).
Proof.
  unfold int_of.
  destruct (Py.int max text); [apply warns_only_ret|apply warns_only_raise].
Qed.

Ltac warns :=
  repeat first
    [ apply warns_only_ret
    | apply warns_only_raise
    | apply warns_only_lift
    | apply warns_only_read_attr
    | apply warns_only_int_of
    | apply warns_only_bind; [|intros ?]
    | apply warns_only_if_text; [intros ?|] ].

Lemma warns_only_aggregate max fs c : warns_only (aggregate max fs c).
Proof.
  destruct c; simpl;
    [unfold get_cpu_info|unfold get_memory_info|unfold get_numa_info
    |unfold get_gpu_info|unfold get_accelerator_info]; warns.
Qed.

(** [X4] Whatever their outcome, [read_attr], the five aggregations, the
    summary and [get_all_info] write nothing to the standard output, and
    add to the error stream nothing but permission diagnostics. *)
Theorem operations_only_warn max fs :
  (forall name, warns_only (read_attr fs name))
  /\ (forall c, warns_only (aggregate max fs c))
  /\ warns_only (get_system_summary fs)
  /\ warns_only (get_all_info max fs).
Proof.
  split; [|split; [|split]].
  - apply warns_only_read_attr.
  - apply warns_only_aggregate.
  - unfold get_system_summary. warns.
  - unfold get_all_info.
    apply warns_only_bind; [apply (warns_only_aggregate max fs CPU)|intros ?].
    apply warns_only_bind; [apply (warns_only_aggregate max fs Memory)|intros ?].
    apply warns_only_bind; [apply (warns_only_aggregate max fs NUMA)|intros ?].
    apply warns_only_bind; [apply (warns_only_aggregate max fs GPU)|intros ?].
    apply warns_only_bind;
      [apply (warns_only_aggregate max fs Accelerator)|intros ?].
    apply warns_only_ret.
Qed.

(** ** The outcome of an aggregation *)

Ltac norm_in H :=
  repeat (rewrite bind_assoc in H || rewrite bind_ret_l in H); cbv beta in H.

Ltac read_in H :=
  match type of H with
  | context [bind (read_attr ?fs ?name) _ ?w] =>
      let G := fresh "G" in
      destruct (graceful fs name) eqn:G;
      [ rewrite read_then_if in H by exact G;
        destruct (seen fs name) as [?text|]
      | let e0 := fresh "e" in
        let Hfs := fresh "Hfs" in
        let Hread := fresh "Hread" in
        destruct (read_attr_raises_with fs name w G) as (e0 & Hfs & Hread);
        rewrite (bind_raises _ _ _ _ _ Hread) in H;
        injection H as <- <-; left; exists name;
        split; [simpl; tauto|exact Hfs] ]
  end.

Ltac int_in H :=
  unfold int_of in H;
  match type of H with
  | context [Py.int ?m ?t] =>
      destruct (Py.int m t) as [?n|];
      [ norm_in H
      | rewrite ?bind_assoc, bind_raise_l in H; injection H as <- <-;
        right; by left ]
  end.

Lemma aggregate_raise_kind max fs c w e w' :
  aggregate max fs c w = (Raise e, w') ->
  (exists name, In name (names max c) /\ fs (attr_path name) = inl e)
  \/ e = Py.ValueError
  \/ (c = Memory /\ e = Py.OverflowError).
Proof.
  unfold names. destruct c; simpl; intros H.
  - unfold get_cpu_info in H.
    read_in H; [int_in H|norm_in H];
      (read_in H; [int_in H|norm_in H]);
      (read_in H; norm_in H); (read_in H; norm_in H); discriminate.
  - unfold get_memory_info in H.
    read_in H.
    + int_in H. unfold lift in H.
      destruct (Py.truediv_pow2 n 30) as [e0|g] eqn:D.
      * rewrite ?bind_assoc, bind_raise_l in H. injection H as <- <-.
        right. right. split; [done|].
        unfold Py.truediv_pow2, Py.round_to_float in D.
        destruct (binary_normalize _ _ _ _ _); congruence.
      * norm_in H. read_in H; norm_in H; discriminate.
    + norm_in H. read_in H; norm_in H; discriminate.
  - unfold get_numa_info in H.
    read_in H; [int_in H|norm_in H]; (read_in H; norm_in H); discriminate.
  - unfold get_gpu_info in H.
    read_in H; norm_in H; (read_in H; norm_in H); discriminate.
  - unfold get_accelerator_info in H.
    read_in H; [int_in H|norm_in H]; (read_in H; norm_in H); discriminate.
Qed.

(** [X5] An aggregation returns a record exactly when each of its reads
    is graceful (readable, missing or denied) and its integer attributes
    are well formed.  Otherwise it raises, and the exception is the one
    of a read of its own attributes, or [ValueError] (from [int]), or,
    for memory only, [OverflowError] (from the division). *)
Theorem aggregate_outcome max fs c w :
  ((exists rec w', aggregate max fs c w = (Ok rec, w'))
   <-> forallb (graceful fs) (names max c) = true
       /\ scalars_ok max fs c = true)
  /\ (forall e w',
        aggregate max fs c w = (Raise e, w') ->
        (exists name, In name (names max c) /\ fs (attr_path name) = inl e)
        \/ e = Py.ValueError
        \/ (c = Memory /\ e = Py.OverflowError)).
Proof.
  split.
  - split.
    + intros (rec & w' & H).
      by destruct (aggregate_returns max fs c w rec w' H) as (? & ? & _).
    + intros [Hg Hok].
      destruct (aggregate_merges max fs c w Hg Hok) as (rec & _ & H). eauto.
  - apply aggregate_raise_kind.
Qed.

(** ** Which files an operation depends on *)

Lemma read_attr_same fs fs' name w :
  fs (attr_path name) = fs' (attr_path name) ->
  read_attr fs name w = read_attr fs' name w.
Proof. intros H. rewrite !read_attr_cases. by rewrite H. Qed.

Ltac same_reads H :=
  repeat (apply bind_congr;
          [ intros ?;
            first [ reflexivity
                  | apply read_attr_same, H; simpl; tauto ]
          | intros ? ? ]);
  try reflexivity.

Lemma aggregate_same max fs fs' c w :
  (forall name, In name (names max c) ->
                fs (attr_path name) = fs' (attr_path name)) ->
  aggregate max fs c w = aggregate max fs' c w.
Proof.
  unfold names. intros H.
  destruct c; simpl in H |- *;
    [unfold get_cpu_info|unfold get_memory_info|unfold get_numa_info
    |unfold get_gpu_info|unfold get_accelerator_info];
    same_reads H.
Qed.

(** [X6] An aggregation depends on the files of its own attributes only,
    and [check_requirements] on those of the CPU, memory and GPU
    attributes only: two file systems that agree there give the same
    outcome and the same output, on any standard output. *)
Theorem operations_read_own_attributes max fs fs' w :
  (forall c,
     (forall name, In name (names max c) ->
                   fs (attr_path name) = fs' (attr_path name)) ->
     aggregate max fs c w = aggregate max fs' c w)
  /\ ((forall name,
         In name (names max CPU ++ names max Memory ++ names max GPU) ->
         fs (attr_path name) = fs' (attr_path name)) ->
      forall out min_cpus min_memory_gb min_gpus,
        check_requirements max fs out min_cpus min_memory_gb min_gpus w
        = check_requirements max fs' out min_cpus min_memory_gb min_gpus w).
Proof.
  split.
  - intros c. apply aggregate_same.
  - intros H out min_cpus min_memory_gb min_gpus. unfold check_requirements.
    apply bind_congr;
      [intros w0; apply (aggregate_same max fs fs' CPU);
       intros name Hin; apply H; unfold names in *; simpl in *; tauto|].
    intros cpu_info w1.
    apply bind_congr;
      [intros w0; apply (aggregate_same max fs fs' Memory);
       intros name Hin; apply H; unfold names in *; simpl in *; tauto|].
    intros mem_info w2.
    apply bind_congr;
      [intros w0; apply (aggregate_same max fs fs' GPU);
       intros name Hin; apply H; unfold names in *; simpl in *; tauto|].
    done.
Qed.

Lemma operations_read_own_attributes_witness :
  get_numa_info default_max_str_digits Examples.fs_requirements quiet
  = get_numa_info default_max_str_digits Examples.fs_empty quiet.
Proof.
  apply (proj1 (operations_read_own_attributes default_max_str_digits
                  Examples.fs_requirements Examples.fs_empty quiet) NUMA).
  intros name [<-|[<-|[]]]; reflexivity.
Defined.

(** ** The records without a key=value source *)

(** [X7] The NUMA record and the accelerator record have at most two
    keys: the integer of the count attribute and, under [details], the
    text of the details attribute as it is, never parsed; a text that
    an aggregation stores is never empty and has no blank at either
    end. *)
Theorem count_and_details max fs w :
  (forall rec w',
     get_numa_info max fs w = (Ok rec, w') ->
     rec !! "nodes" = VInt <$> (seen fs "numa_nodes" ≫= Py.int max)
     /\ rec !! "details" = VStr <$> seen fs "numa_info"
     /\ forall k, k <> "nodes" -> k <> "details" -> rec !! k = None)
  /\ (forall rec w',
        get_accelerator_info max fs w = (Ok rec, w') ->
        rec !! "count" = VInt <$> (seen fs "accelerator_count" ≫= Py.int max)
        /\ rec !! "details" = VStr <$> seen fs "accelerator_details"
        /\ forall k, k <> "count" -> k <> "details" -> rec !! k = None)
  /\ (forall name text,
        seen fs name = Some text -> text <> "" /\ Py.strip text = text).
Proof.
  split; [|split]; [intros rec w' H|intros rec w' H|apply seen_stripped].
  - destruct (aggregate_returns max fs NUMA w rec w' H) as (_ & Hok & Hm).
    unfold merge_sources in Hm. simpl in Hm, Hok.
    unfold merge_source, int_field, text_field, int_ok in *. simpl in *.
    destruct (seen fs "numa_nodes") as [t|]; simpl in *;
      [destruct (Py.int max t) as [n|]; simpl in *;
       [|done]|];
      destruct (seen fs "numa_info") as [d|]; simpl in *;
      injection Hm as <-; unfold update;
      rewrite <- ?insert_union_singleton_l;
      split_and!; try intros k Hk1 Hk2; by simplify_map_eq.
  - destruct (aggregate_returns max fs Accelerator w rec w' H) as (_ & Hok & Hm).
    unfold merge_sources in Hm. simpl in Hm, Hok.
    unfold merge_source, int_field, text_field, int_ok in *. simpl in *.
    destruct (seen fs "accelerator_count") as [t|]; simpl in *;
      [destruct (Py.int max t) as [n|]; simpl in *;
       [|done]|];
      destruct (seen fs "accelerator_details") as [d|]; simpl in *;
      injection Hm as <-; unfold update;
      rewrite <- ?insert_union_singleton_l;
      split_and!; try intros k Hk1 Hk2; by simplify_map_eq.
Qed.

Lemma count_and_details_witness :
  exists rec,
    get_numa_info default_max_str_digits MoreExamples.fs_numa quiet
    = (Ok rec, quiet)
    /\ rec !! "nodes" = Some (VInt 2)
    /\ rec !! "details"
       = Some (VStr ("node0=8192" ++ newline ++ "node1=8192"))
    /\ rec !! "node0" = None.
Proof.
  eexists. split; [reflexivity|].
  destruct (proj1 (count_and_details default_max_str_digits
                     MoreExamples.fs_numa quiet) _ quiet eq_refl)
    as (Hnodes & Hdetails & Hother).
  split; [exact Hnodes|]. split; [exact Hdetails|].
  apply Hother; discriminate.
Defined.

(** ** [get_all_info] and the five aggregations *)

Lemma aggregate_any_world max fs c w rec w' w0 :
  aggregate max fs c w = (Ok rec, w') ->
  aggregate max fs c w0 = (Ok rec, warn w0 (diagnostics fs (names max c))).
Proof.
  intros H. destruct (aggregate_returns max fs c w rec w' H) as (Hg & _ & Hm).
  by apply aggregate_refines.
Qed.

Lemma get_all_info_inv max fs w all w' :
  get_all_info max fs w = (Ok all, w') ->
  exists cpu memory numa gpu accelerator w1 w2 w3 w4,
    aggregate max fs CPU w = (Ok cpu, w1)
    /\ aggregate max fs Memory w1 = (Ok memory, w2)
    /\ aggregate max fs NUMA w2 = (Ok numa, w3)
    /\ aggregate max fs GPU w3 = (Ok gpu, w4)
    /\ aggregate max fs Accelerator w4 = (Ok accelerator, w')
    /\ all = <["accelerator" := accelerator]>
             (<["gpu" := gpu]>
              (<["numa" := numa]>
               (<["memory" := memory]> (<["cpu" := cpu]> ∅)))).
Proof.
  unfold get_all_info. simpl.
  unfold bind at 1.
  destruct (get_cpu_info max fs w) as [[cpu|e] w1] eqn:H1; [|done].
  unfold bind at 1.
  destruct (get_memory_info max fs w1) as [[memory|e] w2] eqn:H2; [|done].
  unfold bind at 1.
  destruct (get_numa_info max fs w2) as [[numa|e] w3] eqn:H3; [|done].
  unfold bind at 1.
  destruct (get_gpu_info max fs w3) as [[gpu|e] w4] eqn:H4; [|done].
  unfold bind at 1.
  destruct (get_accelerator_info max fs w4) as [[accelerator|e] w5] eqn:H5;
    [|done].
  unfold ret. intros [= <- <-].
  by exists cpu, memory, numa, gpu, accelerator, w1, w2, w3, w4.
Qed.

Lemma get_all_info_raise max fs w e w' :
  get_all_info max fs w = (Raise e, w') ->
  exists c w0, aggregate max fs c w0 = (Raise e, w').
Proof.
  unfold get_all_info. unfold bind at 1.
  destruct (get_cpu_info max fs w) as [[cpu|e1] w1] eqn:H1;
    [|intros [= <- <-]; by exists CPU, w].
  unfold bind at 1.
  destruct (get_memory_info max fs w1) as [[memory|e2] w2] eqn:H2;
    [|intros [= <- <-]; by exists Memory, w1].
  unfold bind at 1.
  destruct (get_numa_info max fs w2) as [[numa|e3] w3] eqn:H3;
    [|intros [= <- <-]; by exists NUMA, w2].
  unfold bind at 1.
  destruct (get_gpu_info max fs w3) as [[gpu|e4] w4] eqn:H4;
    [|intros [= <- <-]; by exists GPU, w3].
  unfold bind at 1.
  destruct (get_accelerator_info max fs w4) as [[accelerator|e5] w5] eqn:H5;
    [done|intros [= <- <-]; by exists Accelerator, w4].
Qed.

Lemma get_all_info_shape max fs w :
  forall all w',
    get_all_info max fs w = (Ok all, w') ->
    dom all = list_to_set (category_key <$> categories)
    /\ (forall c w0,
          exists rec w0',
            all !! category_key c = Some rec
            /\ aggregate max fs c w0 = (Ok rec, w0'))
    /\ w' = warn w (flat_map (fun c => diagnostics fs (names max c))
                             categories).
Proof.
  intros all w' H.
    apply get_all_info_inv in H
      as (cpu & memory & numa & gpu & accelerator & w1 & w2 & w3 & w4
          & H1 & H2 & H3 & H4 & H5 & ->).
    split; [|split].
    - rewrite !dom_insert_L, dom_empty_L. simpl. set_solver.
    - intros c w0. destruct c; simpl category_key.
      + exists cpu. eexists. split; [by simplify_map_eq|].
        by eapply aggregate_any_world.
      + exists memory. eexists. split; [by simplify_map_eq|].
        by eapply aggregate_any_world.
      + exists numa. eexists. split; [by simplify_map_eq|].
        by eapply aggregate_any_world.
      + exists gpu. eexists. split; [by simplify_map_eq|].
        by eapply aggregate_any_world.
      + exists accelerator. eexists. split; [by simplify_map_eq|].
        by eapply aggregate_any_world.
    - rewrite (aggregate_any_world _ _ _ _ _ _ w H1) in H1.
      rewrite (aggregate_any_world _ _ _ _ _ _ w1 H2) in H2.
      rewrite (aggregate_any_world _ _ _ _ _ _ w2 H3) in H3.
      rewrite (aggregate_any_world _ _ _ _ _ _ w3 H4) in H4.
      rewrite (aggregate_any_world _ _ _ _ _ _ w4 H5) in H5.
      injection H1 as <-. injection H2 as <-. injection H3 as <-.
      injection H4 as <-. injection H5 as <-.
      rewrite !warn_warn. unfold categories. simpl flat_map.
      by rewrite !app_nil_r.
Qed.

(** [X8] [get_all_info] returns exactly when each of the five
    aggregations returns.  Its dict then has the five category keys and
    no other; the entry of a category is the record that the
    aggregation of that category returns, whatever the streams it is
    run on; and the error stream has received the diagnostics of the
    five aggregations, in the order cpu, memory, numa, gpu,
    accelerator.  When it raises, the exception is that of one of the
    aggregations. *)
Theorem get_all_info_entries max fs w :
  ((exists all w', get_all_info max fs w = (Ok all, w'))
   <-> forall c w0, exists rec w0', aggregate max fs c w0 = (Ok rec, w0'))
  /\ (forall all w',
        get_all_info max fs w = (Ok all, w') ->
        dom all = list_to_set (category_key <$> categories)
        /\ (forall c w0,
              exists rec w0',
                all !! category_key c = Some rec
                /\ aggregate max fs c w0 = (Ok rec, w0'))
        /\ w' = warn w (flat_map (fun c => diagnostics fs (names max c))
                                 categories))
  /\ (forall e w',
        get_all_info max fs w = (Raise e, w') ->
        exists c w0, aggregate max fs c w0 = (Raise e, w')).
Proof.
  pose proof (get_all_info_shape max fs w) as Hinv.
  split; [split|split; [exact Hinv|apply get_all_info_raise]].
  - intros (all & w' & H) c w0.
    destruct (Hinv all w' H) as (_ & Hc & _).
    destruct (Hc c w0) as (rec & w0' & _ & Hagg). eauto.
  - intros Hall. unfold get_all_info.
    destruct (Hall CPU w) as (cpu & w1 & H1).
    destruct (Hall Memory w1) as (memory & w2 & H2).
    destruct (Hall NUMA w2) as (numa & w3 & H3).
    destruct (Hall GPU w3) as (gpu & w4 & H4).
    destruct (Hall Accelerator w4) as (accelerator & w5 & H5).
    simpl in H1, H2, H3, H4, H5.
    rewrite (bind_ok _ _ _ _ _ H1), (bind_ok _ _ _ _ _ H2),
      (bind_ok _ _ _ _ _ H3), (bind_ok _ _ _ _ _ H4), (bind_ok _ _ _ _ _ H5).
    unfold ret. eauto.
Qed.

Lemma get_all_info_entries_witness :
  exists rec w',
    get_memory_info default_max_str_digits Examples.fs_requirements quiet
    = (Ok rec, w').
Proof.
  destruct (proj1 (proj1 (get_all_info_entries default_max_str_digits
                            Examples.fs_requirements quiet))
              ltac:(do 2 eexists; reflexivity) Memory quiet)
    as (rec & w' & H).
  exists rec, w'. exact H.
Defined.

(** ** The summary text *)

(** [X9] When [get_system_summary] returns, the text is never empty and
    has no blank at either end; when it raises, the exception is the one
    of the read of [system_summary] and nothing was written. *)
Theorem get_system_summary_text fs w :
  (forall text w',
     get_system_summary fs w = (Ok text, w') ->
     text <> "" /\ Py.strip text = text)
  /\ (forall e w',
        get_system_summary fs w = (Raise e, w') ->
        fs (attr_path "system_summary") = inl e /\ w' = w).
Proof.
  unfold get_system_summary, bind. rewrite read_attr_cases.
  destruct (fs (attr_path "system_summary")) as [[]|raw] eqn:E; simpl;
    (split; [intros text w' H|intros e w' H]);
    try discriminate; try (injection H as <- <-; by vm_compute);
    try (by injection H as <- <-).
  - destruct (Py.truthy (Py.strip raw)) eqn:Ht; injection H as <- <-.
    + split; [by destruct (Py.strip raw)|apply strip_idem].
    + by vm_compute.
  - by destruct (Py.truthy (Py.strip raw)).
Qed.

Lemma get_system_summary_text_witness :
  "8 CPUs" <> "" /\ Py.strip "8 CPUs" = "8 CPUs".
Proof.
  apply (proj1 (get_system_summary_text Examples.fs_summary quiet)
               "8 CPUs" quiet).
  reflexivity.
Defined.

(** ** More on the requirement check *)

Lemma format_default_cases max v w :
  format_default max v w = (Ok (Shown v), w)
  \/ format_default max v w = (Raise Py.ValueError, w).
Proof.
  destruct v as [n| |]; simpl; auto.
  destruct (Py.exceeds_limit max (Py.decimal_digits n)); auto.
Qed.

Lemma format_fixed1_cases v w :
  (exists f, format_fixed1 v w = (Ok (Fixed1 f), w))
  \/ (exists e, format_fixed1 v w = (Raise e, w)).
Proof.
  destruct v as [n|f|s]; simpl; eauto.
  unfold lift, bind. destruct (Py.float_of_int n); simpl; eauto.
Qed.

Lemma format_default_ok max v w x w' :
  format_default max v w = (Ok x, w') -> x = Shown v /\ w' = w.
Proof.
  destruct (format_default_cases max v w) as [-> | ->]; [|done].
  by intros [= <- <-].
Qed.

Lemma format_fixed1_ok v w x w' :
  format_fixed1 v w = (Ok x, w') -> (exists f, x = Fixed1 f) /\ w' = w.
Proof.
  destruct (format_fixed1_cases v w) as [[f ->] | [e ->]]; [|done].
  intros [= <- <-]. eauto.
Qed.

Lemma print_ok_inv out l w u w' :
  print out l w = (Ok u, w') ->
  out (stdout w) l = None /\ w' = written w [l].
Proof.
  unfold print. destruct (out (stdout w) l); [done|].
  by intros [= <- <-].
Qed.

Lemma print_bind {A} out l (k : unit -> M A) w :
  bind (print out l) k w
  = match out (stdout w) l with
    | Some e => (Raise e, w)
    | None => k tt (written w [l])
    end.
Proof. unfold bind, print. by destruct (out (stdout w) l). Qed.

Lemma written_nil w : written w [] = w.
Proof. destruct w. unfold written. simpl. by rewrite app_nil_r. Qed.

Lemma written_app w a b : written (written w a) b = written w (a ++ b).
Proof. unfold written. simpl. by rewrite app_assoc. Qed.

(** Writing lines in order: all of them when the stream accepts them,
    and up to the first one that it refuses. *)
Lemma write_accepts out lines w :
  accepts out (stdout w) lines = true ->
  for_each lines (print out) w = (Ok tt, written w lines).
Proof.
  revert w. induction lines as [|l lines IH]; intros w; simpl.
  - intros _. unfold ret. by rewrite written_nil.
  - rewrite print_bind. destruct (out (stdout w) l); [done|].
    intros H. rewrite (IH (written w [l])) by exact H.
    by rewrite written_app.
Qed.

Lemma write_refused out before l after e w :
  accepts out (stdout w) before = true ->
  out (stdout w ++ before) l = Some e ->
  for_each (before ++ l :: after) (print out) w
  = (Raise e, written w before).
Proof.
  revert w. induction before as [|l0 before IH]; intros w; simpl.
  - intros _. rewrite app_nil_r. intros H.
    by rewrite print_bind, H, written_nil.
  - rewrite print_bind. destruct (out (stdout w) l0); [done|].
    intros Ha Hr. rewrite (IH (written w [l0])); [by rewrite written_app|done|].
    simpl. by rewrite <- app_assoc.
Qed.

Lemma print_report_written max out cpu_info mem_info gpu_info
    min_cpus min_memory_gb min_gpus cpus memory gpus w w' :
  print_report max out cpu_info mem_info gpu_info
               min_cpus min_memory_gb min_gpus cpus memory gpus w
  = (Ok tt, w') ->
  exists f,
    w' = {| stdout := stdout w ++
              [Text "Requirement Check:"] ::
              report_lines (Shown (get_or_zero cpu_info "online")) (Fixed1 f)
                           (Shown (get_or_zero gpu_info "total"))
                           min_cpus min_memory_gb min_gpus cpus memory gpus;
            stderr := stderr w |}.
Proof.
  unfold print_report. intros H0.
  apply bind_ok_inv in H0 as (? & w1 & [_ ->]%print_ok_inv & H1).
  apply bind_ok_inv in H1 as (x1 & ? & [-> ->]%format_default_ok & H2).
  apply bind_ok_inv in H2 as (y1 & ? & [-> ->]%format_default_ok & H3).
  apply bind_ok_inv in H3 as (? & w2 & [_ ->]%print_ok_inv & H4).
  apply bind_ok_inv in H4 as (x2 & ? & [[f ->] ->]%format_fixed1_ok & H5).
  apply bind_ok_inv in H5 as (y2 & ? & [-> ->]%format_default_ok & H6).
  apply bind_ok_inv in H6 as (? & w3 & [_ ->]%print_ok_inv & H7).
  apply bind_ok_inv in H7 as (x3 & ? & [-> ->]%format_default_ok & H8).
  apply bind_ok_inv in H8 as (y3 & ? & [-> ->]%format_default_ok & H9).
  apply print_ok_inv in H9 as [_ ->]. exists f.
  unfold written. simpl. f_equal. rewrite <- !app_assoc. reflexivity.
Qed.


(** [X10] When [check_requirements] returns, it has written four lines
    to the standard output, the header and one line per dimension, and
    the verdict is the conjunction of the three marks that end these
    lines; the error stream has received permission diagnostics only. *)
Theorem check_requirements_report max fs out min_cpus min_memory_gb min_gpus w
    verdict w' :
  check_requirements max fs out min_cpus min_memory_gb min_gpus w
  = (Ok verdict, w') ->
  exists online total_gb total cpus memory gpus,
    stdout w' = stdout w ++
      [Text "Requirement Check:"] ::
      report_lines online total_gb total
                   min_cpus min_memory_gb min_gpus cpus memory gpus
    /\ verdict = cpus && memory && gpus
    /\ exists lines, stderr w' = stderr w ++ lines /\ Forall is_diagnostic lines.
Proof.
  intros H.
  apply check_requirements_inv in H
    as (cpu_info & mem_info & gpu_info & w1 & w2 & w3 & cpus & memory & gpus
        & H1 & H2 & H3 & _ & _ & _ & Hp & ->).
  apply print_report_written in Hp as [f ->].
  assert (Hw : only_warns w w3).
  { eapply only_warns_trans;
      [eapply (warns_only_aggregate max fs CPU), H1|].
    eapply only_warns_trans;
      [eapply (warns_only_aggregate max fs Memory), H2|].
    eapply (warns_only_aggregate max fs GPU), H3. }
  destruct Hw as [Hout Herr].
  exists (Shown (get_or_zero cpu_info "online")), (Fixed1 f),
    (Shown (get_or_zero gpu_info "total")), cpus, memory, gpus.
  simpl. by rewrite Hout.
Qed.

Lemma check_requirements_report_witness :
  exists online total_gb total cpus memory gpus,
    stdout (snd (check_requirements default_max_str_digits
                   Examples.fs_requirements Consoles.utf8
                   4 (NFloat Examples.float_8) 1 quiet))
    = [Text "Requirement Check:"] ::
      report_lines online total_gb total 4 (NFloat Examples.float_8) 1
                   cpus memory gpus
    /\ true = cpus && memory && gpus.
Proof.
  destruct (check_requirements_report default_max_str_digits
              Examples.fs_requirements Consoles.utf8
              4 (NFloat Examples.float_8) 1 quiet true _ eq_refl)
    as (online & total_gb & total & cpus & memory & gpus & Hout & Hv & _).
  exists online, total_gb, total, cpus, memory, gpus. by split.
Defined.

(** [X11] A compared field that holds text makes [check_requirements]
    raise [TypeError] once the three aggregations have returned, before
    anything is written to the standard output. *)
Theorem check_requirements_type_error max fs out min_cpus min_memory_gb
    min_gpus w cpu_info w1 mem_info w2 gpu_info w3 :
  get_cpu_info max fs w = (Ok cpu_info, w1) ->
  get_memory_info max fs w1 = (Ok mem_info, w2) ->
  get_gpu_info max fs w2 = (Ok gpu_info, w3) ->
  (exists s, get_or_zero cpu_info "online" = VStr s
             \/ get_or_zero mem_info "total_gb" = VStr s
             \/ get_or_zero gpu_info "total" = VStr s) ->
  check_requirements max fs out min_cpus min_memory_gb min_gpus w
  = (Raise Py.TypeError, w3)
  /\ stdout w3 = stdout w.
Proof.
  intros H1 H2 H3 [s Hs]. split.
  - unfold check_requirements.
    rewrite (bind_ok _ _ _ _ _ H1), (bind_ok _ _ _ _ _ H2),
      (bind_ok _ _ _ _ _ H3).
    destruct (ge_world (get_or_zero cpu_info "online") (NInt min_cpus) w3)
      as [[cpus Hc]|Hc]; [|by rewrite (bind_raises _ _ _ _ _ Hc)].
    rewrite (bind_ok _ _ _ _ _ Hc).
    destruct (ge_world (get_or_zero mem_info "total_gb") min_memory_gb w3)
      as [[memory Hm]|Hm]; [|by rewrite (bind_raises _ _ _ _ _ Hm)].
    rewrite (bind_ok _ _ _ _ _ Hm).
    destruct (ge_world (get_or_zero gpu_info "total") (NInt min_gpus) w3)
      as [[gpus Hgp]|Hgp]; [|by rewrite (bind_raises _ _ _ _ _ Hgp)].
    exfalso. destruct Hs as [Hs|[Hs|Hs]]; rewrite Hs in *; discriminate.
  - assert (Hw : only_warns w w3); [|by destruct Hw].
    eapply only_warns_trans;
      [eapply (warns_only_aggregate max fs CPU), H1|].
    eapply only_warns_trans;
      [eapply (warns_only_aggregate max fs Memory), H2|].
    eapply (warns_only_aggregate max fs GPU), H3.
Qed.

Lemma check_requirements_type_error_witness :
  check_requirements default_max_str_digits MoreExamples.fs_online_range
    Consoles.utf8 4 (NFloat Examples.float_8) 1 quiet
  = (Raise Py.TypeError, quiet).
Proof.
  apply (check_requirements_type_error default_max_str_digits
           MoreExamples.fs_online_range Consoles.utf8
           4 (NFloat Examples.float_8) 1
           quiet _ quiet _ quiet _ quiet eq_refl eq_refl eq_refl).
  exists "0-7". left. reflexivity.
Defined.

Lemma dyadic_ge_int_mono x a a' :
  a' <= a ->
  Py.dyadic_ge x (Py.dyadic_of_int a) = true ->
  Py.dyadic_ge x (Py.dyadic_of_int a') = true.
Proof.
  intros Hle. unfold Py.dyadic_of_int. destruct x as [m e| | |]; simpl; try done.
  rewrite !Z.leb_le. intros H.
  assert (0 <= 2 ^ (0 - Z.min e 0)) by (apply Z.pow_nonneg; lia).
  nia.
Qed.

Lemma ge_int_mono v a a' w :
  a' <= a ->
  ge v (NInt a) w = (Ok true, w) -> ge v (NInt a') w = (Ok true, w).
Proof.
  intros Hle.
  destruct v as [n|f|s]; unfold ge, ret, raise, dyadic_of_number; try done;
    intros H;
    match type of H with
    | (Ok (Py.dyadic_ge ?x _), _) = _ =>
        assert (Hd : Py.dyadic_ge x (Py.dyadic_of_int a) = true) by congruence;
        by rewrite (dyadic_ge_int_mono x a a' Hle Hd)
    end.
Qed.

(** [X12] The verdict is monotone in the integer thresholds: when the
    check passes for [min_cpus] and [min_gpus], a check on the same file
    system with lower values that returns at all passes too. *)
Theorem check_requirements_monotone max fs out min_cpus min_memory_gb
    min_gpus min_cpus' min_gpus' w w1 verdict w2 :
  min_cpus' <= min_cpus ->
  min_gpus' <= min_gpus ->
  check_requirements max fs out min_cpus min_memory_gb min_gpus w
  = (Ok true, w1) ->
  check_requirements max fs out min_cpus' min_memory_gb min_gpus' w
  = (Ok verdict, w2) ->
  verdict = true.
Proof.
  intros Hc Hg H H'.
  apply check_requirements_inv in H
    as (cpu_info & mem_info & gpu_info & u1 & u2 & u3 & cpus & memory & gpus
        & H1 & H2 & H3 & Hcpus & Hmem & Hgpus & _ & Hv).
  apply check_requirements_inv in H'
    as (cpu_info' & mem_info' & gpu_info' & u1' & u2' & u3' & cpus' & memory'
        & gpus' & H1' & H2' & H3' & Hcpus' & Hmem' & Hgpus' & _ & ->).
  rewrite H1 in H1'. injection H1' as <- <-.
  rewrite H2 in H2'. injection H2' as <- <-.
  rewrite H3 in H3'. injection H3' as <- <-.
  symmetry in Hv. apply andb_true_iff in Hv as [[-> ->]%andb_true_iff ->].
  rewrite (ge_int_mono _ _ _ _ Hc Hcpus) in Hcpus'.
  rewrite (ge_int_mono _ _ _ _ Hg Hgpus) in Hgpus'.
  rewrite Hmem in Hmem'.
  by injection Hcpus' as <-; injection Hmem' as <-; injection Hgpus' as <-.
Qed.

Lemma check_requirements_monotone_witness :
  exists verdict w2,
    check_requirements default_max_str_digits Examples.fs_requirements
      Consoles.utf8 2 (NFloat Examples.float_8) 0 quiet = (Ok verdict, w2)
    /\ verdict = true.
Proof.
  eexists _, _. split; [reflexivity|].
  eapply (check_requirements_monotone default_max_str_digits
            Examples.fs_requirements Consoles.utf8
            4 (NFloat Examples.float_8) 1 2 0 quiet);
    [lia|lia|reflexivity|reflexivity].
Defined.

Lemma format_fixed1_zero w :
  format_fixed1 (VInt 0) w = (Ok (Fixed1 (S754_zero false)), w).
Proof. reflexivity. Qed.

Lemma format_default_printable max t w :
  printable max t = true ->
  format_default max (value_of_number t) w
  = (Ok (Shown (value_of_number t)), w).
Proof.
  destruct t as [n|f]; simpl; [|done].
  intros H%negb_true_iff. by rewrite H.
Qed.

(** 0 against a threshold. *)
Lemma ge_zero t w :
  ge (VInt 0) t w
  = (Ok match t with
        | NInt n => n <=? 0
        | NFloat g => SFleb g (S754_zero false)
        end, w).
Proof.
  destruct t as [n|g]; [apply ge_int|].
  apply ge_compares. unfold compares. symmetry. apply zero_at_least.
Qed.

(** With printable thresholds the report of three empty records is the
    writing of its four lines. *)
Lemma print_report_absent max out min_cpus min_memory_gb min_gpus
    cpus memory gpus w :
  printable max (NInt min_cpus) = true ->
  printable max min_memory_gb = true ->
  printable max (NInt min_gpus) = true ->
  print_report max out ∅ ∅ ∅ min_cpus min_memory_gb min_gpus
               cpus memory gpus w
  = for_each ([Text "Requirement Check:"] ::
              report_lines (Shown (VInt 0)) (Fixed1 (S754_zero false))
                           (Shown (VInt 0))
                           min_cpus min_memory_gb min_gpus cpus memory gpus)
             (print out) w.
Proof.
  intros Hp1 Hp2 Hp3.
  assert (Hzero : forall u,
            format_default max (VInt 0) u = (Ok (Shown (VInt 0)), u)).
  { intros u. by apply (format_default_printable max (NInt 0)). }
  unfold print_report, report_lines, get_or_zero. rewrite !lookup_empty.
  simpl for_each.
  rewrite !print_bind.
  destruct (out (stdout w) [Text "Requirement Check:"]); [done|].
  rewrite (bind_ok _ _ _ _ _ (Hzero _)).
  rewrite (bind_ok _ _ _ _ _
             (format_default_printable max (NInt min_cpus) _ Hp1)).
  rewrite !print_bind. simpl value_of_number.
  match goal with
  | |- context [out ?h ?l] => destruct (out h l); [done|]
  end.
  rewrite (bind_ok _ _ _ _ _ (format_fixed1_zero _)).
  rewrite (bind_ok _ _ _ _ _
             (format_default_printable max min_memory_gb _ Hp2)).
  rewrite !print_bind.
  match goal with
  | |- context [out ?h ?l] => destruct (out h l); [done|]
  end.
  rewrite (bind_ok _ _ _ _ _ (Hzero _)).
  rewrite (bind_ok _ _ _ _ _
             (format_default_printable max (NInt min_gpus) _ Hp3)).
  simpl value_of_number. unfold print.
  match goal with
  | |- context [out ?h ?l] => by destruct (out h l)
  end.
Qed.

Lemma check_requirements_absent_run max fs out min_cpus min_memory_gb
    min_gpus w :
  (forall name, In name attributes ->
                fs (attr_path name) = inl Py.FileNotFoundError) ->
  printable max (NInt min_cpus) = true ->
  printable max min_memory_gb = true ->
  printable max (NInt min_gpus) = true ->
  let cpus := min_cpus <=? 0 in
  let memory := match min_memory_gb with
                | NInt t => t <=? 0
                | NFloat g => SFleb g (S754_zero false)
                end in
  let gpus := min_gpus <=? 0 in
  check_requirements max fs out min_cpus min_memory_gb min_gpus w
  = (let* _ := for_each ([Text "Requirement Check:"] ::
                 report_lines (Shown (VInt 0)) (Fixed1 (S754_zero false))
                              (Shown (VInt 0))
                              min_cpus min_memory_gb min_gpus
                              cpus memory gpus)
                 (print out) in
     ret (cpus && memory && gpus)) w.
Proof.
  intros Habsent Hp1 Hp2 Hp3 cpus memory gpus. unfold check_requirements.
  rewrite (bind_ok _ _ _ _ _ (aggregate_absent max fs CPU w Habsent)).
  rewrite (bind_ok _ _ _ _ _ (aggregate_absent max fs Memory w Habsent)).
  rewrite (bind_ok _ _ _ _ _ (aggregate_absent max fs GPU w Habsent)).
  unfold get_or_zero at 1 2 3. rewrite !lookup_empty.
  rewrite (bind_ok _ _ _ _ _ (ge_zero (NInt min_cpus) w)).
  rewrite (bind_ok _ _ _ _ _ (ge_zero min_memory_gb w)).
  rewrite (bind_ok _ _ _ _ _ (ge_zero (NInt min_gpus) w)).
  unfold bind at 1 2.
  rewrite (print_report_absent max out _ _ _ _ _ _ w Hp1 Hp2 Hp3).
  fold cpus memory gpus.
  match goal with
  | |- context [for_each ?ls (print out) w] =>
      destruct (for_each ls (print out) w) as [[[]|e] w']; [|done]
  end.
  unfold ret. by rewrite all_three.
Qed.

(** [X13] With every attribute absent each compared field counts as 0.
    For thresholds that can be written and a standard output that
    accepts the four lines of the report, the check returns and passes
    exactly when no threshold is above 0, a float threshold being
    compared as IEEE 754 compares it with 0.0.  When the standard output
    refuses one of the four lines, the check raises the exception of the
    stream after the lines before it. *)
Theorem check_requirements_absent max fs out min_cpus min_memory_gb min_gpus w :
  (forall name, In name attributes ->
                fs (attr_path name) = inl Py.FileNotFoundError) ->
  printable max (NInt min_cpus) = true ->
  printable max min_memory_gb = true ->
  printable max (NInt min_gpus) = true ->
  let cpus := min_cpus <=? 0 in
  let memory := match min_memory_gb with
                | NInt t => t <=? 0
                | NFloat g => SFleb g (S754_zero false)
                end in
  let gpus := min_gpus <=? 0 in
  let lines := [Text "Requirement Check:"] ::
               report_lines (Shown (VInt 0)) (Fixed1 (S754_zero false))
                            (Shown (VInt 0))
                            min_cpus min_memory_gb min_gpus
                            cpus memory gpus in
  (accepts out (stdout w) lines = true ->
   check_requirements max fs out min_cpus min_memory_gb min_gpus w
   = (Ok (cpus && memory && gpus), written w lines))
  /\ (forall before l after e,
        lines = before ++ l :: after ->
        accepts out (stdout w) before = true ->
        out (stdout w ++ before) l = Some e ->
        check_requirements max fs out min_cpus min_memory_gb min_gpus w
        = (Raise e, written w before)).
Proof.
  intros Habsent Hp1 Hp2 Hp3 cpus memory gpus lines.
  pose proof (check_requirements_absent_run max fs out min_cpus
                min_memory_gb min_gpus w Habsent Hp1 Hp2 Hp3) as Hrun.
  cbv zeta in Hrun. fold cpus memory gpus in Hrun. fold lines in Hrun.
  split.
  - intros Ha. rewrite Hrun.
    by rewrite (bind_ok _ _ _ _ _ (write_accepts out lines w Ha)).
  - intros before l after e Hl Ha Hr. rewrite Hrun, Hl.
    by rewrite (bind_raises _ _ _ _ _
                  (write_refused out before l after e w Ha Hr)).
Qed.

Lemma check_requirements_absent_witness :
  check_requirements default_max_str_digits Examples.fs_empty Consoles.utf8
    1 (NFloat Examples.float_8) 0 quiet
  = (Ok false,
     written quiet
       ([Text "Requirement Check:"] ::
        report_lines (Shown (VInt 0)) (Fixed1 (S754_zero false))
                     (Shown (VInt 0)) 1 (NFloat Examples.float_8) 0
                     false false true))
  /\ check_requirements default_max_str_digits Examples.fs_empty
       Consoles.ascii_only 1 (NFloat Examples.float_8) 0 quiet
     = (Raise Py.UnicodeEncodeError,
        written quiet [[Text "Requirement Check:"]]).
Proof.
  pose proof (check_requirements_absent default_max_str_digits
                Examples.fs_empty Consoles.utf8 1 (NFloat Examples.float_8) 0
                quiet (fun _ _ => eq_refl) eq_refl eq_refl eq_refl) as Hutf8.
  pose proof (check_requirements_absent default_max_str_digits
                Examples.fs_empty Consoles.ascii_only
                1 (NFloat Examples.float_8) 0
                quiet (fun _ _ => eq_refl) eq_refl eq_refl eq_refl) as Hascii.
  split.
  - exact (proj1 Hutf8 eq_refl).
  - exact (proj2 Hascii [[Text "Requirement Check:"]] _ _ _
             eq_refl eq_refl eq_refl).
Defined.

(** ** The command line *)

Section MainProperties.

Variable max : nat.
Variable fs : filesystem.
Variable out : console.
Variable json_dumps : gmap string (gmap string value) -> Py.exn + string.
Variable items : gmap string value -> list (string * value).

Lemma finish_cases {A} (m : M A) (k : A -> completion) w :
  (exists a w', m w = (Ok a, w') /\ finish m k w = (k a, w'))
  \/ (exists e w', m w = (Raise e, w') /\ finish m k w = (Uncaught e, w')).
Proof. unfold finish. destruct (m w) as [[a|e] w']; eauto 6. Qed.

(** [X14] The exit status of the script.  Without the base directory
    [main] reads nothing, writes three lines to the error stream and
    exits with status 1, whatever the flags.  With it and
    [--check-requirements], [main] exits with status 0 when the check
    returns true and 1 when it returns false, and an exception of the
    check leaves [main]; the display flags play no part.  Otherwise
    [main] never calls [sys.exit]: it returns, or an exception leaves
    it. *)
Theorem main_completion base_exists args w :
  (base_exists = false ->
   main max base_exists fs out json_dumps items args w
   = (SystemExit 1,
      {| stdout := stdout w;
         stderr := stderr w ++
           [ [Text ("Error: " ++ NeuroShellError)];
             [Text (newline ++ "Make sure the NeuroShell kernel module is loaded:")];
             [Text "  sudo insmod neuroshell_enhanced.ko"] ] |}))
  /\ (base_exists = true -> arg_check_requirements args = true ->
      forall c w',
        main max base_exists fs out json_dumps items args w = (c, w') ->
        match check_requirements max fs out (arg_min_cpus args)
                (NFloat (arg_min_memory_gb args)) (arg_min_gpus args) w with
        | (Ok verdict, w1) => c = SystemExit (if verdict then 0 else 1) /\ w' = w1
        | (Raise e, w1) => c = Uncaught e /\ w' = w1
        end)
  /\ (base_exists = true -> arg_check_requirements args = false ->
      forall c w',
        main max base_exists fs out json_dumps items args w = (c, w') ->
        c = Returned \/ exists e, c = Uncaught e).
Proof.
  unfold main, NeuroShell_init. split; [|split].
  - intros ->. reflexivity.
  - intros -> -> c w'. unfold finish.
    destruct (check_requirements _ _ _ _ _ _ w) as [[verdict|e] w1];
      by intros [= <- <-].
  - intros -> -> c w'.
    destruct (arg_summary args).
    + destruct (finish_cases (print_summary fs out) (fun _ => Returned) w)
        as [(a & w1 & _ & ->)|(e & w1 & _ & ->)]; intros [= <- <-]; eauto.
    + match goal with
      | |- finish ?m ?k w = _ -> _ =>
          destruct (finish_cases m k w)
            as [(a & w1 & _ & ->)|(e & w1 & _ & ->)]
      end; intros [= <- <-]; eauto.
Qed.

Lemma selected_info_none args w :
  no_selection args = true ->
  selected_info max fs args w = (Ok ∅, w).
Proof.
  unfold no_selection, selected_info.
  intros H%negb_true_iff.
  repeat (apply orb_false_iff in H as [H ?]).
  by repeat match goal with H : _ = false |- _ => rewrite H; clear H end.
Qed.

(** [X15] Without any display flag, with or without [--json], [main]
    does exactly what it does with [--summary]: it prints the summary
    text. *)
Theorem main_default_is_summary base_exists args w :
  arg_check_requirements args = false ->
  no_selection args = true ->
  main max base_exists fs out json_dumps items args w
  = main max base_exists fs out json_dumps items (with_summary args) w.
Proof.
  intros Hcheck Hnone. unfold main. simpl. rewrite Hcheck.
  destruct (NeuroShell_init base_exists); [done|].
  destruct (arg_summary args); [done|].
  unfold finish. rewrite (bind_ok _ _ _ _ _ (selected_info_none args w Hnone)).
  by rewrite bool_decide_eq_true_2.
Qed.

Lemma select_step (flag : bool) key (getter : M (gmap string value))
    (info info' : gmap string (gmap string value)) w w' :
  (if flag then (let* r := getter in ret (<[key := r]> info)) else ret info) w
  = (Ok info', w') ->
  (flag = true /\ exists r, getter w = (Ok r, w') /\ info' = <[key := r]> info)
  \/ (flag = false /\ info' = info /\ w' = w).
Proof.
  destruct flag.
  - intros (r & w1 & Hr & [= <- <-])%bind_ok_inv. left. eauto.
  - intros [= <- <-]. by right.
Qed.

Lemma selected_info_shape args w info w' :
  selected_info max fs args w = (Ok info, w') ->
  (forall c, is_Some (info !! category_key c) <-> selects args c = true)
  /\ (forall c rec,
        info !! category_key c = Some rec ->
        forall w0, exists w0', aggregate max fs c w0 = (Ok rec, w0'))
  /\ (no_selection args = false -> info <> ∅).
Proof.
  intros H.
  assert (Hmain :
    (forall c, is_Some (info !! category_key c) <-> selects args c = true)
    /\ (forall c rec,
          info !! category_key c = Some rec ->
          forall w0, exists w0', aggregate max fs c w0 = (Ok rec, w0'))).
  { unfold selected_info in H. unfold selects.
    destruct (arg_all args) eqn:Hall.
    - destruct (get_all_info_shape max fs w info w' H)
        as (_ & Hc & _).
      split.
      + intros c. destruct (Hc c w) as (rec & ? & -> & _). simpl. by split; eauto.
      + intros c rec Hrec w0.
        destruct (Hc c w0) as (rec' & w0' & Hrec' & Hagg).
        rewrite Hrec in Hrec'. injection Hrec' as <-. eauto.
    - apply bind_ok_inv in H as (i1 & w1 & S1 & H).
      apply bind_ok_inv in H as (i2 & w2 & S2 & H).
      apply bind_ok_inv in H as (i3 & w3 & S3 & H).
      apply bind_ok_inv in H as (i4 & w4 & S4 & H).
      apply bind_ok_inv in H as (i5 & w5 & S5 & H).
      injection H as <- <-.
      apply select_step in S1 as [(F1 & r1 & G1 & ->)|(F1 & -> & ->)];
        apply select_step in S2 as [(F2 & r2 & G2 & ->)|(F2 & -> & ->)];
        apply select_step in S3 as [(F3 & r3 & G3 & ->)|(F3 & -> & ->)];
        apply select_step in S4 as [(F4 & r4 & G4 & ->)|(F4 & -> & ->)];
        apply select_step in S5 as [(F5 & r5 & G5 & ->)|(F5 & -> & ->)];
        rewrite F1, F2, F3, F4, F5; simpl;
        (split;
         [ intros c; destruct c; simpl; rewrite ?F1, ?F2, ?F3, ?F4, ?F5;
           simplify_map_eq; split; (done || eauto || by intros [? ?])
         | intros c rec Hrec w0; destruct c; simpl in Hrec;
           simplify_map_eq;
           eexists;
           first [ eapply (aggregate_any_world max fs CPU); eassumption
                 | eapply (aggregate_any_world max fs Memory); eassumption
                 | eapply (aggregate_any_world max fs NUMA); eassumption
                 | eapply (aggregate_any_world max fs GPU); eassumption
                 | eapply (aggregate_any_world max fs Accelerator);
                   eassumption ] ]). }
  destruct Hmain as [Hdom Hrec]. split; [done|]. split; [done|].
  unfold no_selection. intros Hsel%negb_false_iff ->.
  assert (Hc : exists c, selects args c = true).
  { unfold selects. rewrite !orb_true_iff in Hsel.
    destruct Hsel as [[[[[Hf|Hf]|Hf]|Hf]|Hf]|Hf].
    - exists CPU. by rewrite Hf.
    - exists CPU. by rewrite Hf, orb_true_r.
    - exists Memory. by rewrite Hf, orb_true_r.
    - exists NUMA. by rewrite Hf, orb_true_r.
    - exists GPU. by rewrite Hf, orb_true_r.
    - exists Accelerator. by rewrite Hf, orb_true_r. }
  destruct Hc as [c Hc]. apply Hdom in Hc as [rec Hc].
  by rewrite lookup_empty in Hc.
Qed.

(** [X16] The dict that [main] shows has a key for exactly the selected
    categories ([--all] selects the five), and the entry of a category
    is the record that its aggregation returns, also when that record is
    empty; so with a category selected the dict is not empty. *)
Theorem selected_info_entries args w info w' :
  selected_info max fs args w = (Ok info, w') ->
  (forall c, is_Some (info !! category_key c) <-> selects args c = true)
  /\ (forall c rec,
        info !! category_key c = Some rec ->
        forall w0, exists w0', aggregate max fs c w0 = (Ok rec, w0'))
  /\ (no_selection args = false -> info <> ∅).
Proof. apply selected_info_shape. Qed.

Lemma names_not_summary c name :
  In name (names max c) -> attr_path name <> attr_path "system_summary".
Proof.
  unfold names.
  destruct c; simpl; intros H;
    repeat (destruct H as [<-|H]; [discriminate|]); done.
Qed.

Lemma selected_info_same fs' args w :
  (forall p, p <> attr_path "system_summary" -> fs p = fs' p) ->
  selected_info max fs args w = selected_info max fs' args w.
Proof.
  intros Hsame.
  assert (Hagg : forall c w0, aggregate max fs c w0 = aggregate max fs' c w0).
  { intros c w0. apply aggregate_same. intros name Hin.
    by apply Hsame, (names_not_summary c). }
  unfold selected_info. destruct (arg_all args).
  - unfold get_all_info.
    apply bind_congr; [apply (Hagg CPU)|intros ? ?].
    apply bind_congr; [apply (Hagg Memory)|intros ? ?].
    apply bind_congr; [apply (Hagg NUMA)|intros ? ?].
    apply bind_congr; [apply (Hagg GPU)|intros ? ?].
    apply bind_congr; [apply (Hagg Accelerator)|done].
  - apply bind_congr;
      [intros ?; destruct (arg_cpu args);
       [apply bind_congr; [apply (Hagg CPU)|done]|done]|intros ? ?].
    apply bind_congr;
      [intros ?; destruct (arg_memory args);
       [apply bind_congr; [apply (Hagg Memory)|done]|done]|intros ? ?].
    apply bind_congr;
      [intros ?; destruct (arg_numa args);
       [apply bind_congr; [apply (Hagg NUMA)|done]|done]|intros ? ?].
    apply bind_congr;
      [intros ?; destruct (arg_gpu args);
       [apply bind_congr; [apply (Hagg GPU)|done]|done]|intros ? ?].
    apply bind_congr;
      [intros ?; destruct (arg_accelerator args);
       [apply bind_congr; [apply (Hagg Accelerator)|done]|done]|done].
Qed.

(** [X17] With a category selected, and neither [--summary] nor
    [--check-requirements], [main] never falls back to the summary: what
    it does is the same on two file systems that differ in
    [system_summary] only. *)
Theorem main_selection_ignores_summary base_exists fs' args w :
  arg_check_requirements args = false ->
  arg_summary args = false ->
  no_selection args = false ->
  (forall p, p <> attr_path "system_summary" -> fs p = fs' p) ->
  main max base_exists fs out json_dumps items args w
  = main max base_exists fs' out json_dumps items args w.
Proof.
  intros Hcheck Hsummary Hsel Hsame. unfold main.
  destruct (NeuroShell_init base_exists); [done|].
  rewrite Hcheck, Hsummary. unfold finish, bind.
  rewrite (selected_info_same fs' args w Hsame).
  destruct (selected_info max fs' args w) as [[info|e] w1] eqn:E; [|done].
  rewrite <- (selected_info_same fs' args w Hsame) in E.
  destruct (selected_info_shape args w info w1 E) as (_ & _ & Hne).
  by rewrite (bool_decide_eq_false_2 _ (Hne Hsel)).
Qed.

End MainProperties.

Lemma main_completion_witness :
  fst (main default_max_str_digits true Examples.fs_requirements Consoles.utf8
         CliExamples.no_json CliExamples.sorted_items
         CliExamples.check_and_cpu quiet)
  = SystemExit 0.
Proof.
  pose proof (proj1 (proj2 (main_completion default_max_str_digits
                              Examples.fs_requirements Consoles.utf8
                              CliExamples.no_json
                              CliExamples.sorted_items true
                              CliExamples.check_and_cpu quiet))
                eq_refl eq_refl _ _ (surjective_pairing _)) as H.
  vm_compute in H. destruct H as [H _]. exact H.
Defined.

Lemma main_default_is_summary_witness :
  main default_max_str_digits true Examples.fs_summary Consoles.utf8
    CliExamples.no_json CliExamples.sorted_items CliExamples.only_json quiet
  = main default_max_str_digits true Examples.fs_summary Consoles.utf8
      CliExamples.no_json CliExamples.sorted_items
      (with_summary CliExamples.only_json) quiet.
Proof.
  apply (main_default_is_summary default_max_str_digits Examples.fs_summary
           Consoles.utf8 CliExamples.no_json CliExamples.sorted_items true
           CliExamples.only_json quiet); reflexivity.
Defined.

Lemma selected_info_entries_witness :
  exists info,
    selected_info default_max_str_digits Examples.fs_empty
      CliExamples.only_cpu quiet = (Ok info, quiet)
    /\ is_Some (info !! "cpu")
    /\ info <> ∅.
Proof.
  eexists. split; [reflexivity|].
  destruct (selected_info_entries default_max_str_digits Examples.fs_empty
              CliExamples.only_cpu quiet _ quiet eq_refl)
    as (Hkeys & _ & Hne).
  split; [apply (Hkeys CPU); reflexivity|apply Hne; reflexivity].
Defined.

Lemma main_selection_ignores_summary_witness :
  main default_max_str_digits true Examples.fs_summary Consoles.utf8
    CliExamples.no_json CliExamples.sorted_items CliExamples.only_cpu quiet
  = main default_max_str_digits true Examples.fs_empty Consoles.utf8
      CliExamples.no_json CliExamples.sorted_items CliExamples.only_cpu quiet.
Proof.
  apply (main_selection_ignores_summary default_max_str_digits
           Examples.fs_summary Consoles.utf8
           CliExamples.no_json CliExamples.sorted_items
           true Examples.fs_empty CliExamples.only_cpu quiet);
    try reflexivity.
  intros p Hp. unfold Examples.fs_summary, Examples.fs_empty, sysfs, files.
  simpl. case_bool_decide as Heq; [|reflexivity].
  exfalso. apply Hp. by rewrite <- Heq.
Defined.

Lemma aggregate_outcome_witness :
  (exists name,
     In name (names default_max_str_digits CPU)
     /\ Examples.fs_cpu_malformed (attr_path name) = inl Py.ValueError)
  \/ Py.ValueError = Py.ValueError
  \/ (CPU = Memory /\ Py.ValueError = Py.OverflowError).
Proof.
  apply (proj2 (aggregate_outcome default_max_str_digits
                  Examples.fs_cpu_malformed CPU quiet) Py.ValueError quiet).
  reflexivity.
Defined.

Lemma operations_only_warn_witness :
  only_warns quiet
    {| stdout := [];
       stderr := [[Text "Permission denied reading cpu_count"]] |}.
Proof.
  apply (proj1 (operations_only_warn default_max_str_digits
                  Examples.fs_count_denied) "cpu_count" quiet (Ok None)).
  reflexivity.
Defined.

Lemma parse_key_value_keys_witness :
  is_Some (parse_key_value default_max_str_digits Examples.repeated_key !! "b").
Proof.
  apply (proj2 (parse_key_value_keys default_max_str_digits
                  Examples.repeated_key "b")).
  exists "b= x", " x". split; [|split]; [|reflexivity|reflexivity].
  right. left. reflexivity.
Defined.

(** ** The plain listing *)

Lemma join_split s : join_lines (Py.split "010" s) = s.
Proof.
  induction s as [|c r IH]; [done|]. simpl.
  pose proof (split_nonempty "010" r) as Hne.
  destruct (Ascii.eqb c "010") eqn:E.
  - apply Ascii.eqb_eq in E as ->.
    destruct (Py.split "010" r) as [|piece pieces] eqn:Hs; [done|].
    change (join_lines ("" :: piece :: pieces))
      with (String "010" (join_lines (piece :: pieces))).
    by rewrite IH.
  - destruct (Py.split "010" r) as [|piece pieces] eqn:Hs; [done|].
    destruct pieces as [|p ps].
    + simpl in IH. simpl. by rewrite IH.
    + change (join_lines (String c piece :: p :: ps))
        with (String c (join_lines (piece :: p :: ps))).
      by rewrite IH.
Qed.

Lemma split_pieces sep s :
  Forall (fun l => Py.contains sep l = false) (Py.split sep s).
Proof.
  induction s as [|c r IH]; simpl; [by constructor|].
  destruct (Ascii.eqb c sep) eqn:E; [by constructor|].
  destruct (Py.split sep r) as [|piece pieces]; [by repeat constructor; simpl; rewrite E|].
  inversion IH as [|? ? Hp Hps]; subst. constructor; [|done].
  simpl. by rewrite E.
Qed.

Lemma split_length sep s :
  Py.contains sep s = true -> (2 <= length (Py.split sep s))%nat.
Proof.
  induction s as [|c r IH]; simpl; [done|].
  pose proof (split_nonempty sep r) as Hne.
  destruct (Ascii.eqb c sep); simpl.
  - intros _. destruct (Py.split sep r); [done|simpl; lia].
  - intros H. specialize (IH H).
    destruct (Py.split sep r); [done|simpl in *; lia].
Qed.

Lemma for_each_map {A B} (f : A -> B) (body : B -> M unit) xs w :
  for_each (map f xs) body w = for_each xs (fun x => body (f x)) w.
Proof.
  revert w. induction xs as [|x xs IH]; intros w; [done|].
  simpl. unfold bind. destruct (body (f x) w) as [[[]|e] w']; [apply IH|done].
Qed.

Lemma print_item_split max out key text w :
  Py.contains "010" text = true ->
  print_item max out (key, VStr text) w
  = for_each ([Text ("  " ++ key ++ ":")]
              :: map (fun l => [Text ("    " ++ l)]) (Py.split "010" text))
             (print out) w.
Proof.
  intros H. unfold print_item. rewrite H. cbn [negb]. simpl for_each.
  unfold bind. destruct (print out _ w) as [[[]|e] w']; [|done].
  by rewrite for_each_map.
Qed.

Lemma accepts_all out written lines :
  (forall written l, out written l = None) ->
  accepts out written lines = true.
Proof.
  intros H. revert written.
  induction lines as [|l lines IH]; intros written; simpl; [done|].
  by rewrite H.
Qed.

(** [X18] A text of several lines is listed under its key, one written
    line per line of the text: the text is the written lines, without
    their indentation, joined by newlines.  The listing of such an item
    returns when the standard output accepts these lines; when it
    refuses one, the listing raises the exception of the stream after
    the lines before it. *)
Theorem print_item_text max out key text w :
  Py.contains "010" text = true ->
  exists ls,
    join_lines ls = text
    /\ (2 <= length ls)%nat
    /\ Forall (fun l => Py.contains "010" l = false) ls
    /\ let lines := [Text ("  " ++ key ++ ":")]
                    :: map (fun l => [Text ("    " ++ l)]) ls in
       (accepts out (stdout w) lines = true ->
        print_item max out (key, VStr text) w = (Ok tt, written w lines))
       /\ (forall before l after e,
             lines = before ++ l :: after ->
             accepts out (stdout w) before = true ->
             out (stdout w ++ before) l = Some e ->
             print_item max out (key, VStr text) w
             = (Raise e, written w before)).
Proof.
  intros H. exists (Py.split "010" text).
  split; [apply join_split|].
  split; [by apply split_length|].
  split; [apply split_pieces|].
  cbv zeta. rewrite (print_item_split max out key text w H). split.
  - apply write_accepts.
  - intros before l after e -> Ha Hr. by apply write_refused.
Qed.

Lemma print_item_text_witness :
  (exists ls,
     print_item default_max_str_digits Consoles.utf8
       ("details", VStr ListingExamples.two_nodes) quiet
     = (Ok tt,
        written quiet ([Text "  details:"]
                       :: map (fun l => [Text ("    " ++ l)]) ls))
     /\ join_lines ls = ListingExamples.two_nodes)
  /\ print_item default_max_str_digits ListingExamples.closed
       ("details", VStr ListingExamples.two_nodes) quiet
     = (Raise Py.ValueError, quiet).
Proof.
  split.
  - destruct (print_item_text default_max_str_digits Consoles.utf8 "details"
                ListingExamples.two_nodes quiet eq_refl)
      as (ls & Hjoin & _ & _ & Hrun & _).
    exists ls. split; [|exact Hjoin].
    apply Hrun. by apply accepts_all.
  - destruct (print_item_text default_max_str_digits ListingExamples.closed
                "details" ListingExamples.two_nodes quiet eq_refl)
      as (ls & _ & _ & _ & _ & Hrefused).
    exact (Hrefused [] _ _ Py.ValueError eq_refl eq_refl eq_refl).
Defined.

(** The ways in which a part of the listing ends, having written
    [lines]: it returns, or an integer is too long to be written, or
    the standard output refuses the next line. *)
Lemma write_cases out lines w :
  (for_each lines (print out) w = (Ok tt, written w lines))
  \/ (exists before l after e,
        lines = before ++ l :: after
        /\ out (stdout w ++ before) l = Some e
        /\ for_each lines (print out) w = (Raise e, written w before)).
Proof.
  revert w. induction lines as [|l0 lines IH]; intros w.
  - left. simpl. unfold ret. by rewrite written_nil.
  - simpl for_each. rewrite print_bind.
    destruct (out (stdout w) l0) as [e|] eqn:E.
    + right. exists [], l0, lines, e. rewrite app_nil_r, written_nil. done.
    + destruct (IH (written w [l0]))
        as [->|(before & l & after & e & -> & Hr & ->)].
      * left. by rewrite written_app.
      * right. exists (l0 :: before), l, after, e.
        rewrite written_app. split; [done|]. split; [|done].
        simpl in Hr. by rewrite <- app_assoc in Hr.
Qed.

Lemma print_value_cases max out key v w :
  print_value max out key v w
  = (Ok tt, written w [[Text ("  " ++ key ++ ": "); Shown v]])
  \/ (print_value max out key v w = (Raise Py.ValueError, w)
      /\ exists n, v = VInt n
                   /\ Py.exceeds_limit max (Py.decimal_digits n) = true)
  \/ (exists e l, print_value max out key v w = (Raise e, w)
                  /\ out (stdout w) l = Some e).
Proof.
  unfold print_value.
  destruct (format_default_cases max v w) as [Hf|Hf].
  - rewrite (bind_ok _ _ _ _ _ Hf). unfold print.
    destruct (out (stdout w) _) as [e|] eqn:E; [|by left].
    right. right. eauto.
  - rewrite (bind_raises _ _ _ _ _ Hf). right. left. split; [done|].
    destruct v as [n|f|s]; simpl in Hf; try discriminate.
    exists n. split; [done|].
    by destruct (Py.exceeds_limit max (Py.decimal_digits n)).
Qed.

Lemma body_indented lines0 (f : string -> string) ls :
  body lines0 ->
  body (lines0 ++ map (fun l => [Text (String " " (f l))]) ls).
Proof.
  intros H. apply Forall_app. split; [done|].
  induction ls as [|l ls IH]; by constructor.
Qed.

Lemma body_prefix before l after : body (before ++ l :: after) -> body before.
Proof. by intros [H _]%Forall_app. Qed.

Lemma print_item_cases max out key v w :
  exists lines,
    body lines
    /\ (print_item max out (key, v) w = (Ok tt, written w lines)
        \/ (print_item max out (key, v) w
            = (Raise Py.ValueError, written w lines)
            /\ exists n, v = VInt n
                  /\ Py.exceeds_limit max (Py.decimal_digits n) = true)
        \/ (exists e l, print_item max out (key, v) w
                        = (Raise e, written w lines)
                        /\ out (stdout w ++ lines) l = Some e)).
Proof.
  assert (Hvalue :
    exists lines,
      body lines
      /\ (print_value max out key v w = (Ok tt, written w lines)
          \/ (print_value max out key v w
              = (Raise Py.ValueError, written w lines)
              /\ exists n, v = VInt n
                    /\ Py.exceeds_limit max (Py.decimal_digits n) = true)
          \/ (exists e l, print_value max out key v w
                          = (Raise e, written w lines)
                          /\ out (stdout w ++ lines) l = Some e))).
  { destruct (print_value_cases max out key v w)
      as [H|[[H Hn]|(e & l & H & Hr)]].
    - eexists. split; [|left; exact H]. by repeat constructor.
    - exists []. split; [constructor|]. rewrite written_nil. by right; left.
    - exists []. split; [constructor|]. rewrite written_nil, app_nil_r.
      right; right. eauto. }
  destruct v as [n|f|text]; try exact Hvalue.
  destruct (Py.contains "010" text) eqn:E.
  - rewrite (print_item_split max out key text w E).
    assert (Hb : body ([Text ("  " ++ key ++ ":")]
                       :: map (fun l => [Text ("    " ++ l)])
                              (Py.split "010" text))).
    { apply (body_indented [[Text ("  " ++ key ++ ":")]]
               (fun l => ("   " ++ l)%string)).
      by repeat constructor. }
    destruct (write_cases out
                ([Text ("  " ++ key ++ ":")]
                 :: map (fun l => [Text ("    " ++ l)])
                        (Py.split "010" text)) w)
      as [H|(before & l & after & e & Hl & Hr & H)].
    + eexists. split; [exact Hb|left; exact H].
    + exists before. split; [|right; right; exists e, l; by split].
      rewrite Hl in Hb. by eapply body_prefix.
  - unfold print_item. rewrite E. exact Hvalue.
Qed.

Lemma list_items_cases max out its w :
  exists lines,
    body lines
    /\ (for_each its (print_item max out) w = (Ok tt, written w lines)
        \/ (for_each its (print_item max out) w
            = (Raise Py.ValueError, written w lines)
            /\ exists k n, In (k, VInt n) its
                 /\ Py.exceeds_limit max (Py.decimal_digits n) = true)
        \/ (exists e l, for_each its (print_item max out) w
                        = (Raise e, written w lines)
                        /\ out (stdout w ++ lines) l = Some e)).
Proof.
  revert w. induction its as [|[key v] its IH]; intros w.
  - exists []. split; [constructor|]. left. simpl. unfold ret.
    by rewrite written_nil.
  - change (for_each ((key, v) :: its) (print_item max out) w)
      with ((let* _ := print_item max out (key, v) in
             for_each its (print_item max out)) w).
    destruct (print_item_cases max out key v w)
      as (lines & Hb & [Hrun|[[Hrun (n & -> & Hn)]|(e & l & Hrun & Hr)]]).
    + rewrite (bind_ok _ _ _ _ _ Hrun).
      destruct (IH (written w lines))
        as (rest & Hrest
            & [->|[[-> (k & n & Hin & Hn)]|(e & l & -> & Hr)]]);
        exists (lines ++ rest); (split; [by apply Forall_app|]);
        rewrite written_app.
      * by left.
      * right; left. split; [done|]. exists k, n. split; [by right|done].
      * right; right. exists e, l. split; [done|].
        simpl in Hr. by rewrite <- app_assoc in Hr.
    + rewrite (bind_raises _ _ _ _ _ Hrun).
      exists lines. split; [done|]. right; left. split; [done|].
      exists key, n. split; [by left|done].
    + rewrite (bind_raises _ _ _ _ _ Hrun).
      exists lines. split; [done|]. right; right. eauto.
Qed.

Lemma filter_body lines : body lines -> List.filter is_header lines = [].
Proof.
  induction 1 as [|l lines Hl _ IH]; simpl; [done|]. by rewrite Hl.
Qed.

Lemma list_entries_cases max out items
    (entries : list (string * gmap string value)) w :
  exists lines,
    (for_each entries
       (fun entry =>
          let* _ := print out (header (fst entry)) in
          for_each (items (snd entry)) (print_item max out)) w
     = (Ok tt, written w lines)
     /\ List.filter is_header lines = map (fun e => header (fst e)) entries)
    \/ (for_each entries
          (fun entry =>
             let* _ := print out (header (fst entry)) in
             for_each (items (snd entry)) (print_item max out)) w
        = (Raise Py.ValueError, written w lines)
        /\ exists e k n, In e entries /\ In (k, VInt n) (items (snd e))
             /\ Py.exceeds_limit max (Py.decimal_digits n) = true)
    \/ (exists e l,
          for_each entries
            (fun entry =>
               let* _ := print out (header (fst entry)) in
               for_each (items (snd entry)) (print_item max out)) w
          = (Raise e, written w lines)
          /\ out (stdout w ++ lines) l = Some e).
Proof.
  revert w. induction entries as [|entry entries IH]; intros w.
  - exists []. left. simpl. unfold ret. by rewrite written_nil.
  - change (for_each (entry :: entries) ?body w)
      with ((let* _ := body entry in for_each entries body) w).
    cbv beta. rewrite bind_assoc, print_bind.
    destruct (out (stdout w) (header (fst entry))) as [e|] eqn:E.
    { exists []. right; right. exists e, (header (fst entry)).
      by rewrite written_nil, app_nil_r. }
    destruct (list_items_cases max out (items (snd entry))
                (written w [header (fst entry)]))
      as (lines & Hb
          & [Hrun|[[Hrun (k & n & Hin & Hn)]|(e & l & Hrun & Hr)]]).
    + rewrite (bind_ok _ _ _ _ _ Hrun).
      destruct (IH (written (written w [header (fst entry)]) lines))
        as (rest & [[-> Hf]|[[-> (e & k & n & He & Hin & Hn)]
                            |(e & l & -> & Hr)]]);
        exists ([header (fst entry)] ++ lines ++ rest);
        rewrite !written_app.
      * left. split; [done|]. simpl.
        rewrite List.filter_app, (filter_body _ Hb), Hf. reflexivity.
      * right; left. split; [done|].
        exists e, k, n. split; [by right|done].
      * right; right. exists e, l. split; [done|].
        simpl in Hr. rewrite <- !app_assoc in Hr. exact Hr.
    + rewrite (bind_raises _ _ _ _ _ Hrun).
      exists ([header (fst entry)] ++ lines). rewrite written_app.
      right; left. split; [done|].
      exists entry, k, n. split; [by left|done].
    + rewrite (bind_raises _ _ _ _ _ Hrun).
      exists ([header (fst entry)] ++ lines). rewrite written_app.
      right; right. exists e, l. split; [done|].
      simpl in Hr. by rewrite <- app_assoc in Hr.
Qed.

Lemma category_items_listed info :
  map fst (category_items info) = map category_key (listed info).
Proof.
  unfold category_items, listed, categories. simpl.
  repeat match goal with
         | |- context [info !! ?k] =>
             let E := fresh "E" in
             destruct (info !! k) eqn:E; simpl
         end;
    repeat (case_bool_decide as Hd; simpl;
            [|exfalso; apply Hd; eauto using is_Some_None]);
    repeat match goal with
           | H : is_Some None |- _ => by destruct H
           end; try reflexivity.
Qed.

Lemma category_items_in info e :
  In e (category_items info) ->
  exists c, fst e = category_key c /\ info !! category_key c = Some (snd e).
Proof.
  unfold category_items. rewrite <- list_elem_of_In, list_elem_of_omap.
  intros (c & _ & Hc). exists c.
  destruct (info !! category_key c) as [data|] eqn:E; [|done].
  by injection Hc as <-.
Qed.

(** [X19] The plain listing writes to the standard output only, and it
    ends in one of three ways.  It returns, having written one header
    per category of the dict, empty records included, in the order cpu,
    memory, numa, gpu, accelerator.  Or it raises [ValueError] for an
    integer of a listed record that is longer than the interpreter's
    limit.  Or it raises the exception with which the standard output
    refuses the next line.  So it returns when no integer is too long
    and the standard output refuses no line. *)
Theorem print_listing_outcome max out items info w r w' :
  print_listing max out items info w = (r, w') ->
  exists lines,
    w' = written w lines
    /\ (r = Ok tt
        /\ List.filter is_header lines
           = map (fun c => header (category_key c)) (listed info)
        \/ r = Raise Py.ValueError
           /\ (exists c data k n,
                 info !! category_key c = Some data
                 /\ In (k, VInt n) (items data)
                 /\ Py.exceeds_limit max (Py.decimal_digits n) = true)
        \/ exists e l, r = Raise e /\ out (stdout w ++ lines) l = Some e)
    /\ ((forall c data k n,
           info !! category_key c = Some data ->
           In (k, VInt n) (items data) ->
           Py.exceeds_limit max (Py.decimal_digits n) = false) ->
        (forall written l, out written l = None) ->
        r = Ok tt).
Proof.
  unfold print_listing. intros H.
  change (fun entry : string * gmap string value =>
            let* _ := print out
                        [Text (newline ++ "=== " ++ upper (fst entry) ++ " ===")] in
            for_each (items (snd entry)) (print_item max out))
    with (fun entry : string * gmap string value =>
            let* _ := print out (header (fst entry)) in
            for_each (items (snd entry)) (print_item max out)) in H.
  destruct (list_entries_cases max out items (category_items info) w)
    as (lines & [[Hrun Hf]|[[Hrun (e & k & n & He & Hin & Hbad)]
                           |(e & l & Hrun & Hr)]]);
    rewrite Hrun in H; injection H as <- <-; exists lines;
    (split; [done|]).
  - split; [|done]. left. split; [done|].
    rewrite Hf. rewrite <- (map_map fst header), category_items_listed.
    by rewrite map_map.
  - apply category_items_in in He as (c & _ & Hc). split.
    + right; left. split; [done|]. by exists c, (snd e), k, n.
    + intros Hall _. specialize (Hall c (snd e) k n Hc Hin). congruence.
  - split.
    + right; right. eauto.
    + intros _ Hout. rewrite Hout in Hr. discriminate.
Qed.

Lemma print_listing_outcome_witness :
  (exists lines,
     snd (print_listing default_max_str_digits Consoles.utf8
            CliExamples.sorted_items ListingExamples.info_gpu_empty quiet)
     = written quiet lines
     /\ List.filter is_header lines = [header "gpu"])
  /\ fst (print_listing default_max_str_digits Consoles.utf8
            CliExamples.sorted_items ListingExamples.info_gpu_empty quiet)
     = Ok tt.
Proof.
  destruct (print_listing_outcome default_max_str_digits Consoles.utf8
              CliExamples.sorted_items ListingExamples.info_gpu_empty quiet
              _ _ (surjective_pairing _))
    as (lines & Hw & Hcases & Hreturns).
  split.
  - destruct Hcases as [[_ Hf]|[[Hr _]|(e & l & _ & Hr)]].
    + exists lines. split; [exact Hw|exact Hf].
    + vm_compute in Hr. discriminate Hr.
    + discriminate Hr.
  - apply Hreturns; [|reflexivity].
    intros c data k n Hc Hin. exfalso.
    destruct c; vm_compute in Hc; try discriminate Hc.
    injection Hc as <-. exact Hin.
Defined.
